(** * WuKongIM cluster server: a shallow embedding of
      pkg/cluster/replica/options.go and pkg/cluster/clusterserver/server.go

    Integers of the Go code are [Z] or [N] with their ranges written out,
    Go maps are [gmap]s (a nil map is [None]), Go strings are byte strings.
    Calls that leave the server (managers, transport, storage, metrics,
    logger) are recorded, in program order, in the [calls] trace of the
    server state; what those collaborators answer comes from an environment
    record. *)

From Stdlib Require Import ZArith NArith List String Ascii Bool Lia DecimalString
  DecimalPos DecimalN.
From stdpp Require Import base gmap strings list.
Import ListNotations.
Local Open Scope string_scope.

(* ===================================================================== *)
(** ** pkg/cluster/replica/options.go *)
(* ===================================================================== *)

Module Replica.

(** time.Duration is an int64 count of nanoseconds. *)
Definition Duration := Z.
Definition Nanosecond : Duration := 1%Z.
Definition Microsecond : Duration := (1000 * Nanosecond)%Z.
Definition Millisecond : Duration := (1000 * Microsecond)%Z.
Definition Second : Duration := (1000 * Millisecond)%Z.

Section Options.
(** Types of the replica package declared outside options.go. A nil
    interface, function or map value is [None]. *)
Context {ITransport IStorage SyncInfo OnApplyFn OnCommitFn : Type}.

Record Options := mkOptions {
  NodeID : N;
  ShardNo : string;
  Replicas : list N;
  Transport : option ITransport;
  SyncLimit : N;
  CheckInterval : Duration;
  AppliedIndex : N;
  CommitLimit : N;
  OnApply : option OnApplyFn;
  OnCommit : option OnCommitFn;
  Storage : option IStorage;
  LastSyncInfoMap : option (gmap N SyncInfo);
  CurrentTerm : N;
  ProposeTimeout : Duration
}.

(** func NewOptions() *Options: the fields the literal does not name get
    Go's zero value. *)
Definition NewOptions : Options :=
  {| NodeID := 0;
     ShardNo := "";
     Replicas := [];
     Transport := None;
     SyncLimit := 20;
     CheckInterval := (Millisecond * 500)%Z;
     AppliedIndex := 0;
     CommitLimit := 20;
     OnApply := None;
     OnCommit := None;
     Storage := None;
     LastSyncInfoMap := Some ∅;
     CurrentTerm := 1;
     ProposeTimeout := (Second * 5)%Z |}.

(** The functional options of the file that set a field. *)
Definition WithNodeID (nodeID : N) (o : Options) : Options :=
  mkOptions nodeID (ShardNo o) (Replicas o) (Transport o) (SyncLimit o)
    (CheckInterval o) (AppliedIndex o) (CommitLimit o) (OnApply o)
    (OnCommit o) (Storage o) (LastSyncInfoMap o) (CurrentTerm o)
    (ProposeTimeout o).

Definition WithCurrentTerm (currentTerm : N) (o : Options) : Options :=
  mkOptions (NodeID o) (ShardNo o) (Replicas o) (Transport o) (SyncLimit o)
    (CheckInterval o) (AppliedIndex o) (CommitLimit o) (OnApply o)
    (OnCommit o) (Storage o) (LastSyncInfoMap o) currentTerm
    (ProposeTimeout o).

Definition WithLastSyncInfoMap (m : option (gmap N SyncInfo)) (o : Options)
  : Options :=
  mkOptions (NodeID o) (ShardNo o) (Replicas o) (Transport o) (SyncLimit o)
    (CheckInterval o) (AppliedIndex o) (CommitLimit o) (OnApply o)
    (OnCommit o) (Storage o) m (CurrentTerm o) (ProposeTimeout o).

(** len(m) of a Go map: 0 for the nil map. *)
Definition map_len (m : option (gmap N SyncInfo)) : nat :=
  match m with None => 0 | Some g => size g end.
End Options.

End Replica.

(* ===================================================================== *)
(** ** The functions of Go's strings and strconv packages that server.go
       calls *)
(* ===================================================================== *)

Module GoStr.

Definition bytes_of (s : string) : list N :=
  map N_of_ascii (list_ascii_of_string s).

Definition of_bytes (l : list N) : string :=
  string_of_list_ascii (map ascii_of_N l).

(** The UTF-8 encodings of the runes for which unicode.IsSpace holds:
    the six ASCII ones, U+0085, U+00A0, U+1680, U+2000..U+200A, U+2028,
    U+2029, U+202F, U+205F and U+3000. *)
Definition space_encodings : list (list N) :=
  [ [9]; [10]; [11]; [12]; [13]; [32];
    [194; 133]; [194; 160];
    [225; 154; 128];
    [226; 128; 128]; [226; 128; 129]; [226; 128; 130]; [226; 128; 131];
    [226; 128; 132]; [226; 128; 133]; [226; 128; 134]; [226; 128; 135];
    [226; 128; 136]; [226; 128; 137]; [226; 128; 138];
    [226; 128; 168]; [226; 128; 169]; [226; 128; 175];
    [226; 129; 159];
    [227; 128; 128] ]%N.

Fixpoint strip_prefix (p l : list N) : option (list N) :=
  match p, l with
  | [], _ => Some l
  | a :: p', b :: l' => if (a =? b)%N then strip_prefix p' l' else None
  | _ :: _, [] => None
  end.

(** Drop one leading white-space rune, if there is one. *)
Fixpoint strip_space (encs : list (list N)) (l : list N) : option (list N) :=
  match encs with
  | [] => None
  | e :: encs' =>
      match strip_prefix e l with
      | Some rest => Some rest
      | None => strip_space encs' l
      end
  end.

(** A white-space rune is at most three bytes long, so the fuel
    [length l] is enough to consume every leading one. *)
Fixpoint trim_left_fuel (encs : list (list N)) (fuel : nat) (l : list N)
  : list N :=
  match fuel with
  | O => l
  | S fuel' =>
      match strip_space encs l with
      | Some rest => trim_left_fuel encs fuel' rest
      | None => l
      end
  end.

Definition trim_left (l : list N) : list N :=
  trim_left_fuel space_encodings (length l) l.

(** Trailing white space: the same scan on the reversed bytes with the
    reversed encodings (a white-space encoding is a start byte followed by
    continuation bytes, which is what a backward decoder finds). *)
Definition trim_right (l : list N) : list N :=
  rev (trim_left_fuel (map (@rev N) space_encodings) (length l) (rev l)).

(** strings.TrimSpace *)
Definition TrimSpace (s : string) : string :=
  of_bytes (trim_right (trim_left (bytes_of s))).

(** strings.Split(s, sep) for a one-byte separator: every occurrence
    splits, so the result has one element more than there are
    separators. *)
Fixpoint Split (s : string) (sep : ascii) : list string :=
  match s with
  | EmptyString => [EmptyString]
  | String c rest =>
      if Ascii.eqb c sep then EmptyString :: Split rest sep
      else match Split rest sep with
           | [] => [String c EmptyString]
           | piece :: pieces => String c piece :: pieces
           end
  end.

(** strings.ReplaceAll(s, old, new) for a non-empty [old]: left to right,
    occurrences do not overlap. *)
Fixpoint ReplaceAll_fuel (fuel : nat) (s old new : string) : string :=
  match fuel with
  | O => s
  | S fuel' =>
      match s with
      | EmptyString => EmptyString
      | String c rest =>
          if String.prefix old s
          then new ++ ReplaceAll_fuel fuel'
                        (String.substring (String.length old)
                           (String.length s - String.length old) s) old new
          else String c (ReplaceAll_fuel fuel' rest old new)
      end
  end.

Definition ReplaceAll (s old new : string) : string :=
  ReplaceAll_fuel (String.length s) s old new.

Definition digit_of (c : ascii) : option N :=
  let n := N_of_ascii c in
  if ((48 <=? n) && (n <=? 57))%N then Some (n - 48)%N else None.

(** The number a string of decimal digits denotes, read from [acc] on. *)
Fixpoint parse_digits (acc : N) (s : string) : option N :=
  match s with
  | EmptyString => Some acc
  | String c rest =>
      match digit_of c with
      | Some d => parse_digits (acc * 10 + d) rest
      | None => None
      end
  end.

Inductive NumError := ErrSyntax | ErrRange.

Definition maxUint64 : N := 2 ^ 64 - 1.

(** The smallest number such that cutoff * 10 > maxUint64. *)
Definition cutoff : N := maxUint64 / 10 + 1.

(** The loop of strconv.ParseUint over the bytes of s, for base 10 and
    64 bits, on uint64 with its wrap-around: a byte that is no decimal
    digit is a syntax error, and an overflow is a range error at the
    digit where it happens. *)
Fixpoint ParseUint_loop (n : N) (s : string) : NumError + N :=
  match s with
  | EmptyString => inr n
  | String c rest =>
      match digit_of c with
      | None => inl ErrSyntax
      | Some d =>
          if (cutoff <=? n)%N then inl ErrRange
          else
            let n := ((n * 10) mod 2 ^ 64)%N in
            let n1 := ((n + d) mod 2 ^ 64)%N in
            if ((n1 <? n) || (maxUint64 <? n1))%N then inl ErrRange
            else ParseUint_loop n1 rest
      end
  end.

(** strconv.ParseUint(s, 10, 64): decimal digits only, no sign, not
    empty, value below 2^64. *)
Definition ParseUint (s : string) : NumError + N :=
  match s with
  | EmptyString => inl ErrSyntax
  | _ => ParseUint_loop 0 s
  end.

(** fmt.Sprintf("%d", id) for an unsigned id. *)
Definition FormatUint (n : N) : string :=
  NilZero.string_of_uint (N.to_uint n).

End GoStr.

(* ===================================================================== *)
(** ** pkg/cluster/clusterserver/server.go *)
(* ===================================================================== *)

Module Cluster.

(** Go error values: errors.New, the *strconv.NumError of ParseUint, and
    the runtime.Error of a failed run-time check. *)
Inductive error :=
| errors_New (text : string)
| strconv_NumError (func num : string) (err : GoStr.NumError)
| runtime_Error (text : string).

(** reactor.Message, the envelope the managers consume: the fields
    server.go reads, and the rest of the envelope as [Body]. *)
Module reactor.
Record Message := mkMessage {
  MsgType : N;
  HandlerKey : string;
  From : N;
  To : N;
  Body : list N
}.
End reactor.

(** proto.Message, the frame of the intra-cluster transport. *)
Module proto.
Record Message := mkMessage {
  MsgType : N;
  Content : list N
}.
End proto.

(** Modelled from the spec: the MsgType constants of the cluster package
    are declared outside server.go; the wire format of the spec gives
    Config=1, Slot=2, Channel=3. *)
Definition MsgTypeConfig : N := 1.
Definition MsgTypeSlot : N := 2.
Definition MsgTypeChannel : N := 3.

(** trace.ClusterKind *)
Inductive ClusterKind :=
  ClusterKindUnknown | ClusterKindSlot | ClusterKindChannel | ClusterKindConfig.

(** pb.Slot and the node records of the cluster configuration. *)
Record Slot := mkSlot { SlotId : N; SlotReplicas : list N }.
Record NodeInfo := mkNodeInfo { Id : N; ClusterAddr : string }.

(** ClusterJoinReq and the nodes of its response. *)
Record ClusterJoinReq := mkJoinReq {
  ReqNodeId : N;
  ReqServerAddr : string;
  ReqRole : string
}.
Record JoinNode := mkJoinNode { JoinNodeId : N; JoinServerAddr : string }.
Record ClusterJoinResp := mkJoinResp { RespNodes : list JoinNode }.

(** The fields of the cluster Options that server.go reads. [InitNodes] is
    a Go map, a reference into the heap of the server state; the nil map
    is [None]. *)
Record Options := mkOptions {
  NodeId : N;
  Addr : string;
  ServerAddr : string;
  Role : string;
  Seed : string;
  InitNodes : option positive;
  DataDir : string;
  SlotLogStorage : bool;
  ChannelElectionPoolSize : Z;
  ChannelLoadPoolSize : Z
}.

(** zap fields and log levels. *)
Inductive Field :=
| zap_Error (e : error)
| zap_String (key value : string)
| zap_Uint64 (key : string) (value : N)
| zap_Uint8 (key : string) (value : N)
| zap_Int (key : string) (value : Z).

Inductive Level := DebugLevel | WarnLevel | ErrorLevel | PanicLevel.

(** The two goroutine pools of the server. *)
Inductive PoolId := ElectionPool | LoadPool.

(** Every call server.go makes on a collaborator, with its arguments. *)
Inductive Call :=
| Log (lvl : Level) (msg : string) (fields : list Field)
| TraceIncomingMessage (kind : ClusterKind) (msgType : N) (size : Z)
| TraceOutgoingMessage (kind : ClusterKind) (msgType : N) (size : Z)
| IntranetIncomingAdd (n : Z)
| MessageIncomingCountAdd (kind : ClusterKind) (n : Z)
| MessageIncomingBytesAdd (kind : ClusterKind) (n : Z)
| MessageOutgoingBytesAdd (kind : ClusterKind) (n : Z)
| MessageOutgoingCountAdd (kind : ClusterKind) (n : Z)
| ClusterEventServer_AddMessage (m : reactor.Message)
| SlotManager_addMessage (m : reactor.Message)
| ChannelManager_addMessage (m : reactor.Message)
| LoadOrCreateChannel (channelId : string) (channelType : N)
| Node_send (to : N) (msg : proto.Message)
| Go_onMessageFnc (m : proto.Message)
| Println (label : string) (msgType : N)
| Stopped_Store (b : bool)
| CancelFnc
| Stopper_Stop
| NodeManager_stop
| ChannelElectionManager_stop
| NetServer_Stop
| ClusterEventServer_Stop
| SlotManager_stop
| ChannelManager_stop
| ChannelKeyLock_StopCleanLoop
| SlotStorage_Close
| Uptime_Set
| SlotStorage_Open
| ChannelKeyLock_StartCleanLoop
| NewNode_start (nodeID : N) (uid addr : string)
| NodeManager_addNode (nodeID : N)
| SlotManager_add (st : Slot)
| Slot_update (st : Slot)
| ChannelElectionManager_start
| ClusterEventServer_Start
| SetRoutes
| NetServer_OnMessage
| NetServer_Start
| SlotManager_start
| ChannelManager_start
| ClusterEventServer_SetIsPrepared (b : bool)
| Stopper_RunWorker_joinLoop
| Time_After (d : Z)
| RequestClusterJoin (seedNodeId : N) (req : ClusterJoinReq)
| AddOrUpdateNode (nodeID : N) (addr : string)
| NewPebbleShardLogStorage (dir : string)
| Snowflake_NewNode (node : Z)
| ClusterEvent_New (nodeId : N) (initNodes : option positive) (cfgDir : string)
| Ants_NewPool (pool : PoolId) (size : Z) (nonblocking : bool)
| Wkserver_New (addr : string)
| NewChannelElectionManager
| Context_WithCancel.

(** An ants pool: its capacity (-1 when unlimited), the workers alive
    (what Running() reports) and those of them that sit idle in the
    worker queue. *)
Record Pool := mkPool {
  pool_cap : Z;
  pool_running : Z;
  pool_idle : Z
}.

(** The server: the fields server.go itself reads and writes, the Go maps
    reachable from its options, the tasks its load pool has accepted and
    not run yet (each is the closure over its message), and the trace of
    its calls, oldest first. *)
Record Server := mkServer {
  opts : Options;
  heap : gmap positive (gmap N string);
  slotStorage : bool;
  stopped : bool;
  channelLoadMap : gset string;
  channelElectionPool : Pool;
  channelLoadPool : Pool;
  loadTasks : list reactor.Message;
  calls : list Call
}.

(** What the collaborators answer, and the declarations of the package
    that live outside server.go. *)
Record Env := mkEnv {
  (* reactor and proto codecs *)
  reactor_Size : reactor.Message -> Z;
  reactor_Marshal : reactor.Message -> error + list N;
  reactor_UnmarshalMessage : list N -> error + reactor.Message;
  reactor_MsgTypeString : N -> string;
  proto_Size : proto.Message -> Z;
  (* declarations of the package *)
  ShardTypeSlot : N;
  ShardTypeConfig : N;
  ShardTypeChannel : N;
  ChannelFromlKey : string -> string * N;
  path_Join : string -> string -> string;
  (* runtime answers *)
  channelManager_getWithHandleKey : string -> bool;
  nodeManager_node : N -> bool;
  node_send : N -> proto.Message -> option error;
  loadOrCreateChannel : string -> N -> option error;
  onMessageFnc : bool;
  debug_Stack : string;
  snowflake_NewNode : Z -> option error;
  ants_NewPool : PoolId -> option error;
  (* Start *)
  slotStorage_Open : option error;
  clusterEventServer_Nodes : list NodeInfo;
  clusterEventServer_Slots : list Slot;
  clusterEventServer_Node : N -> bool;
  channelElectionManager_start : option error;
  clusterEventServer_Start : option error;
  netServer_Start : option error;
  slotManager_start : option error;
  channelManager_start : option error
}.

(** *** Field updates *)

Definition set_opts (o : Options) (s : Server) : Server :=
  mkServer o (heap s) (slotStorage s) (stopped s) (channelLoadMap s)
    (channelElectionPool s) (channelLoadPool s) (loadTasks s) (calls s).
Definition set_heap (h : gmap positive (gmap N string)) (s : Server) : Server :=
  mkServer (opts s) h (slotStorage s) (stopped s) (channelLoadMap s)
    (channelElectionPool s) (channelLoadPool s) (loadTasks s) (calls s).
Definition set_slotStorage (b : bool) (s : Server) : Server :=
  mkServer (opts s) (heap s) b (stopped s) (channelLoadMap s)
    (channelElectionPool s) (channelLoadPool s) (loadTasks s) (calls s).
Definition set_stopped (b : bool) (s : Server) : Server :=
  mkServer (opts s) (heap s) (slotStorage s) b (channelLoadMap s)
    (channelElectionPool s) (channelLoadPool s) (loadTasks s) (calls s).
Definition set_channelLoadMap (m : gset string) (s : Server) : Server :=
  mkServer (opts s) (heap s) (slotStorage s) (stopped s) m
    (channelElectionPool s) (channelLoadPool s) (loadTasks s) (calls s).
Definition set_channelElectionPool (p : Pool) (s : Server) : Server :=
  mkServer (opts s) (heap s) (slotStorage s) (stopped s) (channelLoadMap s)
    p (channelLoadPool s) (loadTasks s) (calls s).
Definition set_channelLoadPool (p : Pool) (s : Server) : Server :=
  mkServer (opts s) (heap s) (slotStorage s) (stopped s) (channelLoadMap s)
    (channelElectionPool s) p (loadTasks s) (calls s).
Definition set_loadTasks (l : list reactor.Message) (s : Server) : Server :=
  mkServer (opts s) (heap s) (slotStorage s) (stopped s) (channelLoadMap s)
    (channelElectionPool s) (channelLoadPool s) l (calls s).
Definition set_calls (l : list Call) (s : Server) : Server :=
  mkServer (opts s) (heap s) (slotStorage s) (stopped s) (channelLoadMap s)
    (channelElectionPool s) (channelLoadPool s) (loadTasks s) l.

Definition set_InitNodes (r : option positive) (o : Options) : Options :=
  mkOptions (NodeId o) (Addr o) (ServerAddr o) (Role o) (Seed o) r
    (DataDir o) (SlotLogStorage o) (ChannelElectionPoolSize o)
    (ChannelLoadPoolSize o).
Definition set_SlotLogStorage (b : bool) (o : Options) : Options :=
  mkOptions (NodeId o) (Addr o) (ServerAddr o) (Role o) (Seed o)
    (InitNodes o) (DataDir o) b (ChannelElectionPoolSize o)
    (ChannelLoadPoolSize o).

(** *** Computations of the server: state passing with Go panics *)

(** The value a goroutine panics with: an error value or anything else. *)
Inductive PanicValue :=
| ErrorValue (e : error)
| OtherValue (v : string).

Inductive Outcome (A : Type) :=
| Return (a : A) (s : Server)
| Panicking (v : PanicValue) (s : Server).
Arguments Return {A} a s.
Arguments Panicking {A} v s.

Definition M (A : Type) : Type := Server -> Outcome A.

#[global] Instance M_ret : MRet M := fun A a s => Return a s.
#[global] Instance M_bind : MBind M := fun A B f c s =>
  match c s with
  | Return a s' => f a s'
  | Panicking v s' => Panicking v s'
  end.

Definition get {A} (f : Server -> A) : M A := fun s => Return (f s) s.
Definition modify (f : Server -> Server) : M unit := fun s => Return tt (f s).
Definition call (c : Call) : M unit :=
  modify (fun s => set_calls (calls s ++ [c]) s).
Definition panic {A} (v : PanicValue) : M A := fun s => Panicking v s.
Definition when (b : bool) (c : M unit) : M unit :=
  if b then c else mret tt.

Fixpoint for_each {A} (l : list A) (body : A -> M unit) : M unit :=
  match l with
  | [] => mret tt
  | x :: l' => body x ;; for_each l' body
  end.

(** *** The logger (wklog.Log, embedded in Server) *)

Definition Debug (msg : string) (fields : list Field) : M unit :=
  call (Log DebugLevel msg fields).
Definition Warn (msg : string) (fields : list Field) : M unit :=
  call (Log WarnLevel msg fields).
Definition Error (msg : string) (fields : list Field) : M unit :=
  call (Log ErrorLevel msg fields).

(** Modelled from the spec: wklog's Panic is outside the listed sources.
    The spec has the pool panic handler, which is one call of it, capture
    the stack and panic the process: the entry is written at panic level
    and the call then panics, with the message. *)
Definition Panic (msg : string) (fields : list Field) : M unit :=
  call (Log PanicLevel msg fields) ;; panic (OtherValue msg).

(** *** seedNode, needJoin *)

Definition seedNode (seed : string) : error + (N * string) :=
  match GoStr.Split seed "@" with
  | seedNodeIDStr :: seedAddr :: _ =>
      match GoStr.ParseUint seedNodeIDStr with
      | inr seedNodeID => inr (seedNodeID, seedAddr)
      | inl e => inl (strconv_NumError "ParseUint" seedNodeIDStr e)
      end
  | _ => inl (errors_New "seed format error")
  end.

(** seedNodeId, _, _ := seedNode(seed): 0 when seedNode fails. *)
Definition seedNodeId_of (seed : string) : N :=
  match seedNode seed with
  | inr (id, _) => id
  | inl _ => 0%N
  end.

Definition needJoin (E : Env) (o : Options) : bool :=
  if String.eqb (GoStr.TrimSpace (Seed o)) "" then false
  else negb (clusterEventServer_Node E (seedNodeId_of (Seed o))).

(** *** Go maps in the heap *)

(** len(m): 0 for the nil map. *)
Definition map_len (r : option positive) (s : Server) : nat :=
  match r with
  | None => 0
  | Some l => size (default ∅ (heap s !! l))
  end.

(** m[k] = v: a panic on the nil map, an update in place otherwise. *)
Definition map_assign (r : option positive) (k : N) (v : string) : M unit :=
  fun s =>
    match r with
    | None =>
        Panicking (ErrorValue (runtime_Error "assignment to entry in nil map")) s
    | Some l =>
        Return tt
          (set_heap (<[l := <[k := v]> (default ∅ (heap s !! l))]> (heap s)) s)
    end.

(** for k, v := range m. Go leaves the order of the iteration open; the
    model takes the order of [map_to_list]. *)
Definition map_range (r : option positive) (s : Server) : list (N * string) :=
  match r with
  | None => []
  | Some l => map_to_list (default ∅ (heap s !! l))
  end.

(** *** The ants pools *)

Definition ErrPoolOverload : error :=
  errors_New "too many goroutines blocked on submit or Nonblocking is set".

(** ants.NewPool(size, ...): a size that is not positive means no limit. *)
Definition new_pool (size : Z) : Pool :=
  mkPool (if (size <=? 0)%Z then (-1)%Z else size) 0 0.

Definition get_pool (p : PoolId) (s : Server) : Pool :=
  match p with
  | ElectionPool => channelElectionPool s
  | LoadPool => channelLoadPool s
  end.

Definition set_pool (p : PoolId) (q : Pool) (s : Server) : Server :=
  match p with
  | ElectionPool => set_channelElectionPool q s
  | LoadPool => set_channelLoadPool q s
  end.

(** Pool.Running() *)
Definition Running (p : PoolId) : M Z := get (fun s => pool_running (get_pool p s)).

(** Whether a Submit finds no worker: none idle, and the capacity
    reached. *)
Definition pool_full (q : Pool) : bool :=
  (pool_idle q <=? 0)%Z && negb (pool_cap q =? -1)%Z
  && (pool_cap q <=? pool_running q)%Z.

(** channelLoadPool.Submit(task), the pool being non-blocking: an idle
    worker takes the task, else a new worker is spawned while the
    capacity allows it, else the task is refused with ErrPoolOverload. The
    task is the closure of AddChannelMessage over [m]. *)
Definition channelLoadPool_Submit (m : reactor.Message) : M (option error) :=
  fun s =>
    let q := channelLoadPool s in
    if (0 <? pool_idle q)%Z then
      Return None
        (set_loadTasks (loadTasks s ++ [m])
           (set_channelLoadPool
              (mkPool (pool_cap q) (pool_running q) (pool_idle q - 1)) s))
    else if (pool_cap q =? -1)%Z || (pool_running q <? pool_cap q)%Z then
      Return None
        (set_loadTasks (loadTasks s ++ [m])
           (set_channelLoadPool
              (mkPool (pool_cap q) (pool_running q + 1) (pool_idle q)) s))
    else Return (Some ErrPoolOverload) s.

(** *** New: the panic handlers of the two pools *)

(** err.(error): the assertion panics on a value that is no error. *)
Definition assert_error (err : PanicValue) : M error :=
  match err with
  | ErrorValue e => mret e
  | OtherValue _ =>
      panic (ErrorValue
               (runtime_Error "interface conversion: interface {} is not error"))
  end.

Definition channelElectionPool_PanicHandler (E : Env) (err : PanicValue)
  : M unit :=
  let stack := debug_Stack E in
  e ← assert_error err;
  Panic "频道选举协程池崩溃" [zap_Error e; zap_String "stack" stack].

Definition channelLoadPool_PanicHandler (E : Env) (err : PanicValue)
  : M unit :=
  let stack := debug_Stack E in
  e ← assert_error err;
  Panic "频道加载协程池崩溃" [zap_Error e; zap_String "stack" stack].

Definition PanicHandler (E : Env) (p : PoolId) : PanicValue -> M unit :=
  match p with
  | ElectionPool => channelElectionPool_PanicHandler E
  | LoadPool => channelLoadPool_PanicHandler E
  end.

(** The process after a goroutine has run: alive, or terminated by a
    panic nobody recovered. *)
Inductive Process :=
| Alive (s : Server)
| Crashed (v : PanicValue) (s : Server).

(** A pool worker running one task (ants, goWorker.run): a task that
    returns sends the worker back to the idle queue; a task that panics
    is recovered in the worker's deferred function, which retires the
    worker and calls the pool's PanicHandler; a panic of the handler
    itself is recovered by nobody. *)
Definition worker_run (E : Env) (p : PoolId) (task : M unit) (s : Server)
  : Process :=
  match task s with
  | Return _ s' =>
      let q := get_pool p s' in
      Alive (set_pool p (mkPool (pool_cap q) (pool_running q) (pool_idle q + 1)) s')
  | Panicking v s' =>
      let q := get_pool p s' in
      match PanicHandler E p v
              (set_pool p (mkPool (pool_cap q) (pool_running q - 1) (pool_idle q)) s')
      with
      | Return _ s'' => Alive s''
      | Panicking v' s'' => Crashed v' s''
      end
  end.

(** *** New *)

(** int64(opts.NodeId) *)
Definition to_int64 (n : N) : Z :=
  let z := Z.of_N n in
  if (z <? 2 ^ 63)%Z then z else (z - 2 ^ 64)%Z.

(** The struct literal New starts from, over the caller's options and
    heap. *)
Definition Server_literal (h : gmap positive (gmap N string)) (o : Options)
  : Server :=
  mkServer o h false false ∅ (mkPool 0 0 0) (mkPool 0 0 0) [] [].

Definition New_body (E : Env) : M unit :=
  o ← get opts;
  (if SlotLogStorage o then mret tt
   else
     call (NewPebbleShardLogStorage (path_Join E (DataDir o) "logdb")) ;;
     modify (set_slotStorage true) ;;
     modify (fun s => set_opts (set_SlotLogStorage true (opts s)) s)) ;;
  call (Snowflake_NewNode (to_int64 (NodeId o))) ;;
  match snowflake_NewNode E (to_int64 (NodeId o)) with
  | Some err => Panic "new logIdGen failed" [zap_Error err]
  | None => mret tt
  end ;;
  let cfgDir := path_Join E (DataDir o) "config" in
  let initNodes := InitNodes o in
  n ← get (map_len initNodes);
  when (n =? 0)%nat
    ((if String.eqb (GoStr.TrimSpace (Seed o)) "" then mret tt
      else
        match seedNode (Seed o) with
        | inl err => panic (ErrorValue err)
        | inr (seedNodeID, seedAddr) => map_assign initNodes seedNodeID seedAddr
        end) ;;
     map_assign initNodes (NodeId o) (GoStr.ReplaceAll (Addr o) "tcp://" "")) ;;
  call (ClusterEvent_New (NodeId o) initNodes cfgDir) ;;
  call (Ants_NewPool ElectionPool (ChannelElectionPoolSize o) false) ;;
  match ants_NewPool E ElectionPool with
  | Some err => Panic "new channelElectionPool failed" [zap_Error err]
  | None => modify (set_channelElectionPool (new_pool (ChannelElectionPoolSize o)))
  end ;;
  call (Ants_NewPool LoadPool (ChannelLoadPoolSize o) true) ;;
  match ants_NewPool E LoadPool with
  | Some err => Panic "new channelLoadPool failed" [zap_Error err]
  | None => modify (set_channelLoadPool (new_pool (ChannelLoadPoolSize o)))
  end ;;
  call (Wkserver_New (Addr o)) ;;
  call NewChannelElectionManager ;;
  call Context_WithCancel.

(** New(opts): [Return tt s] is the server [s] it returns. *)
Definition New (E : Env) (h : gmap positive (gmap N string)) (o : Options)
  : Outcome unit :=
  New_body E (Server_literal h o).

(** *** AddSlotMessage, AddConfigMessage, AddChannelMessage *)

(** Go's int on a 64-bit platform: results wrap into [-2^63, 2^63). *)
Definition wrap_int (z : Z) : Z :=
  ((z + 2 ^ 63) mod 2 ^ 64 - 2 ^ 63)%Z.

Definition AddSlotMessage (E : Env) (m : reactor.Message) : M unit :=
  call (TraceIncomingMessage ClusterKindSlot (reactor.MsgType m)
          (reactor_Size E m)) ;;
  call (SlotManager_addMessage m).

Definition AddConfigMessage (m : reactor.Message) : M unit :=
  call (ClusterEventServer_AddMessage m).

(** The closure AddChannelMessage submits to the load pool. *)
Definition loadTask (E : Env) (m : reactor.Message) : M unit :=
  let '(channelId, channelType) := ChannelFromlKey E (reactor.HandlerKey m) in
  when (String.eqb channelId "")
    (Panic "channelId is empty"
       [zap_String "handlerKey" (reactor.HandlerKey m)]) ;;
  call (LoadOrCreateChannel channelId channelType) ;;
  match loadOrCreateChannel E channelId channelType with
  | Some err =>
      Error "loadOrCreateChannel failed"
        [zap_Error err; zap_String "handlerKey" (reactor.HandlerKey m);
         zap_Uint64 "from" (reactor.From m);
         zap_String "msgType" (reactor_MsgTypeString E (reactor.MsgType m))]
  | None => mret tt
  end ;;
  modify (fun s =>
            set_channelLoadMap (channelLoadMap s ∖ {[reactor.HandlerKey m]}) s) ;;
  Debug "active channel"
    [zap_String "handlerKey" (reactor.HandlerKey m);
     zap_Uint64 "from" (reactor.From m);
     zap_String "msgType" (reactor_MsgTypeString E (reactor.MsgType m))].

Definition AddChannelMessage (E : Env) (m : reactor.Message) : M unit :=
  call (TraceIncomingMessage ClusterKindChannel (reactor.MsgType m)
          (reactor_Size E m)) ;;
  if channelManager_getWithHandleKey E (reactor.HandlerKey m) then
    call (ChannelManager_addMessage m)
  else
    loading ← get (fun s => bool_decide (reactor.HandlerKey m ∈ channelLoadMap s));
    if (loading : bool) then mret tt
    else
      modify (fun s =>
                set_channelLoadMap ({[reactor.HandlerKey m]} ∪ channelLoadMap s) s) ;;
      running ← Running LoadPool;
      size ← get (fun s => ChannelLoadPoolSize (opts s));
      when (wrap_int (size - 10) <? running)%Z
        (Warn "channelLoadPool is busy"
           [zap_Int "running" running; zap_Int "size" size]) ;;
      err ← channelLoadPool_Submit m;
      match err with
      | Some e => Error "channelLoadPool.Submit failed" [zap_Error e]
      | None => mret tt
      end.

(** The load pool running the oldest task it has accepted; [None] when it
    has none. *)
Definition channelLoadPool_run (E : Env) (s : Server) : option Process :=
  match loadTasks s with
  | [] => None
  | m :: rest => Some (worker_run E LoadPool (loadTask E m) (set_loadTasks rest s))
  end.

(** *** send, onSend *)

Definition send_frame (E : Env) (m : reactor.Message) (msgType : N)
  (data : list N) : M unit :=
  let msg := proto.mkMessage msgType data in
  (if (proto.MsgType msg =? MsgTypeChannel)%N then
     call (MessageOutgoingBytesAdd ClusterKindChannel (proto_Size E msg)) ;;
     call (MessageOutgoingCountAdd ClusterKindChannel 1)
   else if (proto.MsgType msg =? MsgTypeSlot)%N then
     call (MessageOutgoingBytesAdd ClusterKindSlot (proto_Size E msg)) ;;
     call (MessageOutgoingCountAdd ClusterKindSlot 1)
   else if (proto.MsgType msg =? MsgTypeConfig)%N then
     call (MessageOutgoingBytesAdd ClusterKindConfig (proto_Size E msg)) ;;
     call (MessageOutgoingCountAdd ClusterKindConfig 1)
   else mret tt) ;;
  call (Node_send (reactor.To m) msg) ;;
  match node_send E (reactor.To m) msg with
  | Some err => Error "send failed" [zap_Error err]
  | None => mret tt
  end.

Definition send (E : Env) (shardType : N) (m : reactor.Message) : M unit :=
  st ← get stopped;
  if (st : bool) then mret tt
  else
    (if (shardType =? ShardTypeSlot E)%N then
       call (TraceOutgoingMessage ClusterKindSlot (reactor.MsgType m)
               (reactor_Size E m))
     else if (shardType =? ShardTypeChannel E)%N then
       call (TraceOutgoingMessage ClusterKindChannel (reactor.MsgType m)
               (reactor_Size E m))
     else mret tt) ;;
    if negb (nodeManager_node E (reactor.To m)) then
      Warn "send failed, node not exist" [zap_Uint64 "to" (reactor.To m)]
    else
      match reactor_Marshal E m with
      | inl err => Error "Marshal failed" [zap_Error err]
      | inr data =>
          if (shardType =? ShardTypeSlot E)%N then
            send_frame E m MsgTypeSlot data
          else if (shardType =? ShardTypeConfig E)%N then
            send_frame E m MsgTypeConfig data
          else if (shardType =? ShardTypeChannel E)%N then
            send_frame E m MsgTypeChannel data
          else
            Error "send failed, invalid shardType"
              [zap_Uint8 "shardType" shardType]
      end.

(** opts.Send is s.send, set in New. *)
Definition onSend (E : Env) (m : reactor.Message) : M unit :=
  send E (ShardTypeConfig E) m.

(** *** onMessage *)

Definition onMessage (E : Env) (m : proto.Message) : M unit :=
  st ← get stopped;
  if (st : bool) then mret tt
  else
    let msgSize := proto_Size E m in
    call (IntranetIncomingAdd msgSize) ;;
    if (proto.MsgType m =? MsgTypeConfig)%N then
      match reactor_UnmarshalMessage E (proto.Content m) with
      | inl err => Error "UnmarshalMessage failed" [zap_Error err]
      | inr msg =>
          call (MessageIncomingCountAdd ClusterKindConfig 1) ;;
          call (MessageIncomingBytesAdd ClusterKindConfig msgSize) ;;
          AddConfigMessage msg
      end
    else if (proto.MsgType m =? MsgTypeSlot)%N then
      match reactor_UnmarshalMessage E (proto.Content m) with
      | inl err => Error "UnmarshalMessage failed" [zap_Error err]
      | inr msg =>
          call (MessageIncomingCountAdd ClusterKindSlot 1) ;;
          call (MessageIncomingBytesAdd ClusterKindSlot msgSize) ;;
          AddSlotMessage E msg
      end
    else if (proto.MsgType m =? MsgTypeChannel)%N then
      match reactor_UnmarshalMessage E (proto.Content m) with
      | inl err => Error "UnmarshalMessage failed" [zap_Error err]
      | inr msg =>
          call (MessageIncomingCountAdd ClusterKindChannel 1) ;;
          call (MessageIncomingBytesAdd ClusterKindChannel msgSize) ;;
          AddChannelMessage E msg
      end
    else
      call (MessageIncomingCountAdd ClusterKindUnknown 1) ;;
      call (MessageIncomingBytesAdd ClusterKindUnknown msgSize) ;;
      when (onMessageFnc E)
        (call (Println "msg.MsgType---->" (proto.MsgType m)) ;;
         call (Go_onMessageFnc m)).

(** *** Start, Stop *)

Definition newNodeByNodeInfo (nodeID : N) (addr : string) : M unit :=
  o ← get opts;
  call (NewNode_start nodeID (GoStr.FormatUint (NodeId o)) addr).

Definition addNode (nodeID : N) (addr : string) : M unit :=
  newNodeByNodeInfo nodeID addr ;;
  call (NodeManager_addNode nodeID).

Definition addSlot (st : Slot) : M unit :=
  call (SlotManager_add st) ;;
  call (Slot_update st).

(** Modelled from the spec: wkutil.ArrayContainsUint64 is outside the
    listed sources; the spec adds the slots whose replicas include this
    node id. *)
Definition ArrayContainsUint64 (l : list N) (x : N) : bool :=
  existsb (N.eqb x) l.

(** The first part of Start: the node manager is seeded from the nodes of
    the cluster configuration, or, when it has none, from InitNodes. *)
Definition seedNodes (E : Env) : M unit :=
  o ← get opts;
  let nodes := clusterEventServer_Nodes E in
  if (0 <? length nodes)%nat then
    for_each nodes (fun node =>
      if (Id node =? NodeId o)%N then mret tt
      else addNode (Id node) (ClusterAddr node))
  else
    n ← get (map_len (InitNodes o));
    if (0 <? n)%nat then
      initNodes ← get (map_range (InitNodes o));
      for_each initNodes (fun kv =>
        if (fst kv =? NodeId o)%N then mret tt
        else addNode (fst kv) (snd kv))
    else mret tt.

Definition addLocalSlots (E : Env) : M unit :=
  o ← get opts;
  for_each (clusterEventServer_Slots E) (fun slot =>
    if negb (ArrayContainsUint64 (SlotReplicas slot) (NodeId o)) then mret tt
    else addSlot slot).

(** err := step(); if err != nil { return err } *)
Definition try_step (c : Call) (r : option error) (k : M (option error))
  : M (option error) :=
  call c ;;
  match r with
  | Some err => mret (Some err)
  | None => k
  end.

Definition Start (E : Env) : M (option error) :=
  call Uptime_Set ;;
  try_step SlotStorage_Open (slotStorage_Open E)
    (call ChannelKeyLock_StartCleanLoop ;;
     seedNodes E ;;
     addLocalSlots E ;;
     try_step ChannelElectionManager_start (channelElectionManager_start E)
       (try_step ClusterEventServer_Start (clusterEventServer_Start E)
          (call SetRoutes ;;
           call NetServer_OnMessage ;;
           try_step NetServer_Start (netServer_Start E)
             (try_step SlotManager_start (slotManager_start E)
                (try_step ChannelManager_start (channelManager_start E)
                   (o ← get opts;
                    when (needJoin E o)
                      (call (ClusterEventServer_SetIsPrepared false) ;;
                       call Stopper_RunWorker_joinLoop) ;;
                    mret None)))))).

Definition Stop : M unit :=
  modify (set_stopped true) ;;
  call (Stopped_Store true) ;;
  call CancelFnc ;;
  call Stopper_Stop ;;
  call NodeManager_stop ;;
  call ChannelElectionManager_stop ;;
  call NetServer_Stop ;;
  call ClusterEventServer_Stop ;;
  call SlotManager_stop ;;
  call ChannelManager_stop ;;
  call ChannelKeyLock_StopCleanLoop ;;
  call SlotStorage_Close.

(** *** joinLoop *)

(** What one select of the loop receives: the timer, with the answer the
    seed then gives to the join request, or the stop signal. *)
Inductive SelectCase :=
| TimerFired (answer : error + ClusterJoinResp)
| ShouldStop.

Inductive LoopResult := Exited | Blocked.

Definition joinReq (o : Options) : ClusterJoinReq :=
  mkJoinReq (NodeId o) (ServerAddr o) (Role o).

(** The for-select loop over the cases its selects receive, in order;
    [Blocked] is the loop waiting in a select for which the script has no
    case left. *)
Fixpoint joinLoop_from (seedNodeId : N) (req : ClusterJoinReq)
  (script : list SelectCase) : M LoopResult :=
  call (Time_After (Replica.Second * 2)) ;;
  match script with
  | [] => mret Blocked
  | ShouldStop :: _ => mret Exited
  | TimerFired answer :: script' =>
      call (RequestClusterJoin seedNodeId req) ;;
      match answer with
      | inl err =>
          Error "requestClusterJoin failed" [zap_Error err] ;;
          joinLoop_from seedNodeId req script'
      | inr resp =>
          when (0 <? length (RespNodes resp))%nat
            (for_each (RespNodes resp) (fun n =>
               call (AddOrUpdateNode (JoinNodeId n) (JoinServerAddr n)))) ;;
          call (ClusterEventServer_SetIsPrepared true) ;;
          mret Exited
      end
  end.

Definition joinLoop (script : list SelectCase) : M LoopResult :=
  o ← get opts;
  joinLoop_from (seedNodeId_of (Seed o)) (joinReq o) script.

End Cluster.

(* ===================================================================== *)
(** ** The start and stop sequences as the specification words them *)
(* ===================================================================== *)

Module Sequence.
Import Cluster.

(** A step of a sequence: the calls it makes, and whether it failed. *)
Record Step := mkStep { step_calls : list Call; step_result : option error }.

(** Steps run in order; a step that fails is the last one to run, and
    its error is the result. *)
Fixpoint run_plan (plan : list Step) : list Call * option error :=
  match plan with
  | [] => ([], None)
  | st :: rest =>
      match step_result st with
      | Some err => (step_calls st, Some err)
      | None => ((step_calls st ++ fst (run_plan rest))%list, snd (run_plan rest))
      end
  end.

(** Seeding the node manager: every node but this one is started and
    added, from the nodes of the current configuration, or from InitNodes
    when the configuration has none. *)
Definition seed_source (E : Env) (s : Server) : list (N * string) :=
  match clusterEventServer_Nodes E with
  | [] => map_range (InitNodes (opts s)) s
  | nodes => map (fun n => (Id n, ClusterAddr n)) nodes
  end.

Definition seed_calls (E : Env) (s : Server) : list Call :=
  flat_map (fun kv =>
              [NewNode_start (fst kv) (GoStr.FormatUint (NodeId (opts s))) (snd kv);
               NodeManager_addNode (fst kv)])
    (filter (fun kv => fst kv ≠ NodeId (opts s)) (seed_source E s)).

(** Adding every slot whose replicas include this node. *)
Definition slot_calls (E : Env) (s : Server) : list Call :=
  flat_map (fun st => [SlotManager_add st; Slot_update st])
    (filter (fun st => NodeId (opts s) ∈ SlotReplicas st)
       (clusterEventServer_Slots E)).

(** Seed is configured and the seed node is absent from the committed
    cluster. *)
Definition join_needed (E : Env) (s : Server) : bool :=
  negb (String.eqb (GoStr.TrimSpace (Seed (opts s))) "")
  && negb (clusterEventServer_Node E (seedNodeId_of (Seed (opts s)))).

Definition Start_plan (E : Env) (s : Server) : list Step :=
  [ mkStep [Uptime_Set; SlotStorage_Open] (slotStorage_Open E);
    mkStep [ChannelKeyLock_StartCleanLoop] None;
    mkStep (seed_calls E s) None;
    mkStep (slot_calls E s) None;
    mkStep [ChannelElectionManager_start] (channelElectionManager_start E);
    mkStep [ClusterEventServer_Start] (clusterEventServer_Start E);
    mkStep [SetRoutes; NetServer_OnMessage; NetServer_Start] (netServer_Start E);
    mkStep [SlotManager_start] (slotManager_start E);
    mkStep [ChannelManager_start] (channelManager_start E);
    mkStep (if join_needed E s
            then [ClusterEventServer_SetIsPrepared false;
                  Stopper_RunWorker_joinLoop]
            else []) None ].

(** The components Start starts and Stop stops, LogStorage apart. *)
Inductive Manager :=
| KeyLockCleaner
| ElectionManager
| EventServer
| NetServer
| SlotMgr
| ChannelMgr.

Definition started_by (c : Call) : option Manager :=
  match c with
  | ChannelKeyLock_StartCleanLoop => Some KeyLockCleaner
  | ChannelElectionManager_start => Some ElectionManager
  | ClusterEventServer_Start => Some EventServer
  | NetServer_Start => Some NetServer
  | SlotManager_start => Some SlotMgr
  | ChannelManager_start => Some ChannelMgr
  | _ => None
  end.

Definition stopped_by (c : Call) : option Manager :=
  match c with
  | ChannelKeyLock_StopCleanLoop => Some KeyLockCleaner
  | ChannelElectionManager_stop => Some ElectionManager
  | ClusterEventServer_Stop => Some EventServer
  | NetServer_Stop => Some NetServer
  | SlotManager_stop => Some SlotMgr
  | ChannelManager_stop => Some ChannelMgr
  | _ => None
  end.

(** The calls a computation adds to the trace of [s]. *)
Definition new_calls {A} (c : M A) (s : Server) : list Call :=
  match c s with
  | Return _ s' | Panicking _ s' => drop (length (calls s)) (calls s')
  end.

(** Stop stops the managers in the reverse of the order in which Start
    started them. *)
Definition stops_in_reverse (E : Env) (s : Server) : Prop :=
  omap stopped_by (new_calls Stop s)
  = rev (omap started_by (new_calls (Start E) s)).

End Sequence.

(* ===================================================================== *)
(** ** Concrete servers and environments *)
(* ===================================================================== *)

Module Sample.
Import Cluster.

Definition msg_size (m : reactor.Message) : Z :=
  Z.of_nat (length (reactor.Body m)).

(** An environment in which every collaborator succeeds, no channel is in
    memory and no node is known. *)
Definition env_ok : Env :=
  {| reactor_Size := msg_size;
     reactor_Marshal := fun m => inr (reactor.Body m);
     reactor_UnmarshalMessage := fun b =>
       match b with
       | [] => inl (errors_New "unexpected EOF")
       | _ => inr (reactor.mkMessage 7 "room-42" 2 1 b)
       end;
     reactor_MsgTypeString := fun _ => "Sync";
     proto_Size := fun m => Z.of_nat (length (proto.Content m));
     ShardTypeSlot := 1;
     ShardTypeConfig := 2;
     ShardTypeChannel := 3;
     ChannelFromlKey := fun k => (k, 1%N);
     path_Join := fun a b => a ++ "/" ++ b;
     channelManager_getWithHandleKey := fun _ => false;
     nodeManager_node := fun _ => false;
     node_send := fun _ _ => None;
     loadOrCreateChannel := fun _ _ => None;
     onMessageFnc := true;
     debug_Stack := "goroutine 7 [running]";
     snowflake_NewNode := fun _ => None;
     ants_NewPool := fun _ => None;
     slotStorage_Open := None;
     clusterEventServer_Nodes := [mkNodeInfo 1 "h1:11110"; mkNodeInfo 4 "h4:11110"];
     clusterEventServer_Slots := [mkSlot 0 [1; 4]; mkSlot 1 [1; 2]]%N;
     clusterEventServer_Node := fun _ => false;
     channelElectionManager_start := None;
     clusterEventServer_Start := None;
     netServer_Start := None;
     slotManager_start := None;
     channelManager_start := None |}.

(** The same, every channel having its replica in memory. *)
Definition env_loaded : Env :=
  mkEnv (reactor_Size env_ok) (reactor_Marshal env_ok)
    (reactor_UnmarshalMessage env_ok) (reactor_MsgTypeString env_ok)
    (proto_Size env_ok) (ShardTypeSlot env_ok) (ShardTypeConfig env_ok)
    (ShardTypeChannel env_ok) (ChannelFromlKey env_ok) (path_Join env_ok)
    (fun _ => true) (nodeManager_node env_ok) (node_send env_ok)
    (loadOrCreateChannel env_ok) (onMessageFnc env_ok) (debug_Stack env_ok)
    (snowflake_NewNode env_ok) (ants_NewPool env_ok) (slotStorage_Open env_ok)
    (clusterEventServer_Nodes env_ok) (clusterEventServer_Slots env_ok)
    (clusterEventServer_Node env_ok) (channelElectionManager_start env_ok)
    (clusterEventServer_Start env_ok) (netServer_Start env_ok)
    (slotManager_start env_ok) (channelManager_start env_ok).

Definition opts4 : Options :=
  {| NodeId := 4; Addr := "tcp://h4:11110"; ServerAddr := "h4:11110";
     Role := "replica"; Seed := "1@h1:11110"; InitNodes := Some 1%positive;
     DataDir := "/data"; SlotLogStorage := false;
     ChannelElectionPoolSize := 10; ChannelLoadPoolSize := 1 |}.

(** Node 4 after New, with a load pool of one worker. *)
Definition server4 : Server :=
  {| opts := set_SlotLogStorage true opts4;
     heap := {[ 1%positive := {[ 1%N := "h1:11110" ]} ]};
     slotStorage := true;
     stopped := false;
     channelLoadMap := ∅;
     channelElectionPool := new_pool 10;
     channelLoadPool := new_pool 1;
     loadTasks := [];
     calls := [] |}.

(** The same server with the only worker of its load pool busy. *)
Definition server4_busy : Server :=
  set_channelLoadPool (mkPool 1 1 0) server4.

Definition msg42 : reactor.Message :=
  reactor.mkMessage 7 "room-42" 2 4 [1; 2; 3]%N.

Definition frame (t : N) : proto.Message := proto.mkMessage t [1; 2; 3]%N.

End Sample.

(* ===================================================================== *)
(** ** Operations of a server, for statements over its whole life *)
(* ===================================================================== *)

Module Life.
Import Cluster.

Definition state_of {A} (o : Outcome A) : Server :=
  match o with
  | Return _ s | Panicking _ s => s
  end.

Definition process_state (p : Process) : Server :=
  match p with
  | Alive s | Crashed _ s => s
  end.

(** What can happen to a server once it exists: the methods of server.go,
    the load pool running a task, the join loop consuming its selects.
    An operation is one whole call: a list of operations is a run in
    which the calls follow one another and none overlaps another. Calls
    of AddChannelMessage that overlap are the matter of [Sections]. *)
Inductive Op :=
| OpStart
| OpStop
| OpAddSlotMessage (m : reactor.Message)
| OpAddConfigMessage (m : reactor.Message)
| OpAddChannelMessage (m : reactor.Message)
| OpSend (shardType : N) (m : reactor.Message)
| OpOnSend (m : reactor.Message)
| OpOnMessage (f : proto.Message)
| OpLoadPoolRun
| OpJoinLoop (script : list SelectCase).

Definition run_op (E : Env) (op : Op) (s : Server) : Server :=
  match op with
  | OpStart => state_of (Start E s)
  | OpStop => state_of (Stop s)
  | OpAddSlotMessage m => state_of (AddSlotMessage E m s)
  | OpAddConfigMessage m => state_of (AddConfigMessage m s)
  | OpAddChannelMessage m => state_of (AddChannelMessage E m s)
  | OpSend shardType m => state_of (send E shardType m s)
  | OpOnSend m => state_of (onSend E m s)
  | OpOnMessage f => state_of (onMessage E f s)
  | OpLoadPoolRun =>
      match channelLoadPool_run E s with
      | Some p => process_state p
      | None => s
      end
  | OpJoinLoop script => state_of (joinLoop script s)
  end.

Definition run_ops (E : Env) (ops : list Op) (s : Server) : Server :=
  fold_left (fun s op => run_op E op s) ops s.

(** A frame of type Config that decodes is fed to the ClusterEventServer;
    the first of the routes the demultiplexing is said to take for every
    inbound frame. *)
Definition config_frame_is_fed (E : Env) (f : proto.Message) (s : Server)
  : Prop :=
  forall msg,
    proto.MsgType f = MsgTypeConfig ->
    reactor_UnmarshalMessage E (proto.Content f) = inr msg ->
    ClusterEventServer_AddMessage msg ∈ calls (state_of (onMessage E f s)).

(** A panic in a task of pool [p] is contained: the process stays alive
    and the trace holds a log entry that carries the stack. *)
Definition panic_is_contained (E : Env) (p : PoolId) (v : PanicValue)
  (s : Server) : Prop :=
  exists s',
    worker_run E p (panic v) s = Alive s' /\
    exists lvl msg fields,
      Log lvl msg fields ∈ calls s' /\
      zap_String "stack" (debug_Stack E) ∈ fields.

(** The message of the panic handler of each pool. *)
Definition handler_message (p : PoolId) : string :=
  match p with
  | ElectionPool => "频道选举协程池崩溃"
  | LoadPool => "频道加载协程池崩溃"
  end.

End Life.

(* ===================================================================== *)
(** ** What New leaves in the InitNodes map *)
(* ===================================================================== *)

Module Seeding.
Import Cluster.

(** The entry New writes for the seed node into an empty InitNodes: none
    when Seed is blank. *)
Definition seed_entry (o : Options) : gmap N string :=
  if String.eqb (GoStr.TrimSpace (Seed o)) "" then ∅
  else match seedNode (Seed o) with
       | inr (seedNodeID, seedAddr) => {[ seedNodeID := seedAddr ]}
       | inl _ => ∅
       end.

(** The InitNodes map New leaves behind when it found it empty. *)
Definition seeded_InitNodes (o : Options) : gmap N string :=
  <[NodeId o := GoStr.ReplaceAll (Addr o) "tcp://" ""]> (seed_entry o).

End Seeding.

Module Scenario.
Import Cluster Life.

(** Options that leave InitNodes nil, and the same with a blank Seed. *)
Definition opts_nil : Options := set_InitNodes None Sample.opts4.

(** A heap in which the map of node 4's options exists and is empty. *)
Definition heap_empty : gmap positive (gmap N string) := {[ 1%positive := ∅ ]}.

(** Node 4 with room-42 marked as loading. *)
Definition server4_marked : Server :=
  set_channelLoadMap {[ "room-42" ]} Sample.server4.

(** Node 4 after Stop. *)
Definition server4_stopped : Server := state_of (Stop Sample.server4).

Definition join_error : error := errors_New "request timeout".

Definition join_resp : ClusterJoinResp :=
  mkJoinResp [mkJoinNode 1 "h1:11110"; mkJoinNode 2 "h2:11110";
              mkJoinNode 3 "h3:11110"].

End Scenario.

(* ===================================================================== *)
(** ** Traces: the vocabulary of the statements about calls *)
(* ===================================================================== *)

Module Trace.
Import Cluster.
Local Open Scope list_scope.

(** [emits s c a l]: from any state that is [s] up to its trace, [c]
    returns [a], adds the calls [l] and changes nothing else. *)
Definition emits {A} (s : Server) (c : M A) (a : A) (l : list Call) : Prop :=
  forall cs, c (set_calls cs s) = Return a (set_calls (cs ++ l) s).

(** The statistic AddChannelMessage records for every message. *)
Definition incoming (E : Env) (m : reactor.Message) : Call :=
  TraceIncomingMessage ClusterKindChannel (reactor.MsgType m) (reactor_Size E m).

(** The warning of a busy pool, as AddChannelMessage logs it. *)
Definition busy_warning (s : Server) : list Call :=
  if (wrap_int (ChannelLoadPoolSize (opts s) - 10) <? pool_running (channelLoadPool s))%Z
  then [Log WarnLevel "channelLoadPool is busy"
          [zap_Int "running" (pool_running (channelLoadPool s));
           zap_Int "size" (ChannelLoadPoolSize (opts s))]]
  else [].

(** One round of the loop whose join request fails. *)
Definition failed_round (seed : N) (req : ClusterJoinReq) (err : error)
  : list Call :=
  [Time_After 2000000000; RequestClusterJoin seed req;
   Log ErrorLevel "requestClusterJoin failed" [zap_Error err]].

Definition failing (errs : list error) : list SelectCase :=
  map (fun err => TimerFired (inl err)) errs.

(** The panic of an assignment to an entry of the nil map. *)
Definition nil_map_panic : PanicValue :=
  ErrorValue (runtime_Error "assignment to entry in nil map").

End Trace.

(* ===================================================================== *)
(** ** More of Go's strings package *)
(* ===================================================================== *)

Module GoStrMore.

(** strings.Contains(s, substr) *)
Fixpoint Contains (s substr : string) : bool :=
  String.prefix substr s
  || match s with
     | EmptyString => false
     | String _ rest => Contains rest substr
     end.

(** strings.HasSuffix(s, suffix):
    len(s) >= len(suffix) && s[len(s)-len(suffix):] == suffix *)
Definition HasSuffix (s suffix : string) : bool :=
  (String.length suffix <=? String.length s)%nat
  && String.eqb
       (String.substring (String.length s - String.length suffix)
          (String.length suffix) s)
       suffix.

(** The last element of a slice that is not empty: a[len(a)-1]. *)
Definition last_piece (pieces : list string) : string :=
  List.last pieces EmptyString.

(** strings.Join(pieces, sep) for a one-byte separator. *)
Fixpoint join (pieces : list string) (c : ascii) : string :=
  match pieces with
  | [] => EmptyString
  | [p] => p
  | p :: ps => (p ++ String c (join ps c))%string
  end.

End GoStrMore.

(* ===================================================================== *)
(** ** server.go: the methods the claims leave aside *)
(* ===================================================================== *)

Module ClusterMore.
Import Cluster.

(** func (s *Server) isSingleNode() bool *)
Definition isSingleNode (s : Server) : bool :=
  String.eqb (GoStr.TrimSpace (Seed (opts s))) ""
  && (map_len (InitNodes (opts s)) s =? 0)%nat.

(** func (s *Server) serverUid(id uint64) string *)
Definition serverUid (id : N) : string := GoStr.FormatUint id.

(** Whether a call hands a message to one of the three managers. *)
Definition manager_of (c : Call) : option (ClusterKind * reactor.Message) :=
  match c with
  | ClusterEventServer_AddMessage m => Some (ClusterKindConfig, m)
  | SlotManager_addMessage m => Some (ClusterKindSlot, m)
  | ChannelManager_addMessage m => Some (ClusterKindChannel, m)
  | _ => None
  end.

(** The frame type send gives to a shard type; [None] for a shard type
    that is none of the three. *)
Definition frame_type (E : Env) (shardType : N) : option N :=
  if (shardType =? ShardTypeSlot E)%N then Some MsgTypeSlot
  else if (shardType =? ShardTypeConfig E)%N then Some MsgTypeConfig
  else if (shardType =? ShardTypeChannel E)%N then Some MsgTypeChannel
  else None.

(** The loads in flight are sound: the tasks the pool holds are for
    distinct keys, and each of those keys is marked as loading. *)
Definition loads_sound (s : Server) : Prop :=
  NoDup (reactor.HandlerKey <$> loadTasks s)
  /\ forall m, m ∈ loadTasks s -> reactor.HandlerKey m ∈ channelLoadMap s.

End ClusterMore.

(* ===================================================================== *)
(** ** replica/options.go: the remaining options *)
(* ===================================================================== *)

Module ReplicaMore.
Import Replica.

Section Options.
Context {ITransport IStorage SyncInfo OnApplyFn OnCommitFn : Type}.

Abbreviation Options := (@Options ITransport IStorage SyncInfo OnApplyFn OnCommitFn).

Definition WithReplicas (replicas : list N) (o : Options) : Options :=
  mkOptions (NodeID o) (ShardNo o) replicas (Transport o) (SyncLimit o)
    (CheckInterval o) (AppliedIndex o) (CommitLimit o) (OnApply o)
    (OnCommit o) (Storage o) (LastSyncInfoMap o) (CurrentTerm o)
    (ProposeTimeout o).

(** WithTransport wraps the transport with newProxyTransport, which is
    outside options.go. *)
Definition WithTransport (newProxyTransport : ITransport -> ITransport)
  (t : ITransport) (o : Options) : Options :=
  mkOptions (NodeID o) (ShardNo o) (Replicas o) (Some (newProxyTransport t))
    (SyncLimit o) (CheckInterval o) (AppliedIndex o) (CommitLimit o)
    (OnApply o) (OnCommit o) (Storage o) (LastSyncInfoMap o) (CurrentTerm o)
    (ProposeTimeout o).

Definition WithAppliedIndex (appliedIndex : N) (o : Options) : Options :=
  mkOptions (NodeID o) (ShardNo o) (Replicas o) (Transport o) (SyncLimit o)
    (CheckInterval o) appliedIndex (CommitLimit o) (OnApply o)
    (OnCommit o) (Storage o) (LastSyncInfoMap o) (CurrentTerm o)
    (ProposeTimeout o).

Definition WithOnApply (onApply : option OnApplyFn) (o : Options) : Options :=
  mkOptions (NodeID o) (ShardNo o) (Replicas o) (Transport o) (SyncLimit o)
    (CheckInterval o) (AppliedIndex o) (CommitLimit o) onApply
    (OnCommit o) (Storage o) (LastSyncInfoMap o) (CurrentTerm o)
    (ProposeTimeout o).

Definition WithStorage (storage : option IStorage) (o : Options) : Options :=
  mkOptions (NodeID o) (ShardNo o) (Replicas o) (Transport o) (SyncLimit o)
    (CheckInterval o) (AppliedIndex o) (CommitLimit o) (OnApply o)
    (OnCommit o) storage (LastSyncInfoMap o) (CurrentTerm o)
    (ProposeTimeout o).

Definition WithOnCommit (onCommit : option OnCommitFn) (o : Options) : Options :=
  mkOptions (NodeID o) (ShardNo o) (Replicas o) (Transport o) (SyncLimit o)
    (CheckInterval o) (AppliedIndex o) (CommitLimit o) (OnApply o)
    onCommit (Storage o) (LastSyncInfoMap o) (CurrentTerm o)
    (ProposeTimeout o).

(** The options of the file, as values. *)
Inductive Opt :=
| OptNodeID (nodeID : N)
| OptReplicas (replicas : list N)
| OptTransport (t : ITransport)
| OptAppliedIndex (appliedIndex : N)
| OptOnApply (onApply : option OnApplyFn)
| OptStorage (storage : option IStorage)
| OptLastSyncInfoMap (m : option (gmap N SyncInfo))
| OptCurrentTerm (currentTerm : N)
| OptOnCommit (onCommit : option OnCommitFn).

Definition run_opt (newProxyTransport : ITransport -> ITransport) (opt : Opt)
  (o : Options) : Options :=
  match opt with
  | OptNodeID nodeID => WithNodeID nodeID o
  | OptReplicas replicas => WithReplicas replicas o
  | OptTransport t => WithTransport newProxyTransport t o
  | OptAppliedIndex appliedIndex => WithAppliedIndex appliedIndex o
  | OptOnApply onApply => WithOnApply onApply o
  | OptStorage storage => WithStorage storage o
  | OptLastSyncInfoMap m => WithLastSyncInfoMap m o
  | OptCurrentTerm currentTerm => WithCurrentTerm currentTerm o
  | OptOnCommit onCommit => WithOnCommit onCommit o
  end.

(** for _, opt := range opts { opt(o) } on the options NewOptions
    returns. *)
Definition configure (newProxyTransport : ITransport -> ITransport)
  (opts : list Opt) : Options :=
  fold_left (fun o opt => run_opt newProxyTransport opt o) opts NewOptions.

(** The term the last WithCurrentTerm of a list asks for. *)
Fixpoint last_term (opts : list Opt) (default : N) : N :=
  match opts with
  | [] => default
  | OptCurrentTerm t :: rest => last_term rest t
  | _ :: rest => last_term rest default
  end.

End Options.

End ReplicaMore.

(* ===================================================================== *)
(** ** internal/server2/options.go *)
(* ===================================================================== *)

Module ServerOptions.

(** type Node struct *)
Record Node := mkNode { Id : N; ServerAddr : string }.

(** The configuration object (viper), by what its getters return: the
    zero value for a key that is not set. *)
Record Viper := mkViper {
  GetString : string -> string;
  GetStringSlice : string -> list string;
  GetInt : string -> Z;
  GetInt64 : string -> Z;
  GetUint64 : string -> N;
  GetDuration : string -> Z
}.

Definition getString (vp : Viper) (key defaultValue : string) : string :=
  let v := GetString vp key in
  if String.eqb v "" then defaultValue else v.

Definition getStringSlice (vp : Viper) (key : string) : list string :=
  GetStringSlice vp key.

Definition getInt (vp : Viper) (key : string) (defaultValue : Z) : Z :=
  let v := GetInt vp key in
  if (v =? 0)%Z then defaultValue else v.

Definition getUint64 (vp : Viper) (key : string) (defaultValue : N) : N :=
  let v := GetUint64 vp key in
  if (v =? 0)%N then defaultValue else v.

Definition getInt64 (vp : Viper) (key : string) (defaultValue : Z) : Z :=
  let v := GetInt64 vp key in
  if (v =? 0)%Z then defaultValue else v.

Definition getDuration (vp : Viper) (key : string) (defaultValue : Z) : Z :=
  let v := GetDuration vp key in
  if (v =? 0)%Z then defaultValue else v.

(** type Role string, with its two constants. *)
Definition Role := string.
Definition RoleReplica : Role := "replica".
Definition RoleProxy : Role := "proxy".

(** The fields of Options that the functions below read. *)
Record Options := mkOptions {
  TmpChannel_Suffix : string;
  Cluster_NodeId : N;
  Cluster_Addr : string;
  Cluster_Role : Role;
  Cluster_Nodes : list Node
}.

(** The values NewOptions gives to these fields. *)
Definition NewOptions : Options :=
  {| TmpChannel_Suffix := "@tmp";
     Cluster_NodeId := 1;
     Cluster_Addr := "tcp://0.0.0.0:11110";
     Cluster_Role := RoleReplica;
     Cluster_Nodes := [] |}.

Definition ClusterOn (o : Options) : bool := negb (Cluster_NodeId o =? 0)%N.

Definition IsTmpChannel (o : Options) (channelID : string) : bool :=
  GoStrMore.HasSuffix channelID (TmpChannel_Suffix o).

Definition IsSingleNode (o : Options) : bool :=
  (length (Cluster_Nodes o) =? 0)%nat.

Definition GetCustomerServiceVisitorUID (channelID : string) : string * bool :=
  if negb (GoStrMore.Contains channelID "|") then ("", false)
  else (hd EmptyString (GoStr.Split channelID "|"), true).

Definition IsFakeChannel (channelID : string) : bool :=
  GoStrMore.Contains channelID "@".

(** ConfigureWithViper, the cluster part: the port the cluster address
    ends with, "" when the address has no colon. *)
Definition defaultPort_of (clusterAddr : string) : string :=
  let clusterAddrs := GoStr.Split clusterAddr ":" in
  if (2 <=? length clusterAddrs)%nat then GoStrMore.last_piece clusterAddrs
  else "".

(** ConfigureWithViper, the body of the loop over cluster.nodes: the node
    an entry "nodeID@addr" adds, [None] for an entry the loop skips. *)
Definition parse_node (defaultPort nodeStr : string) : option Node :=
  if negb (GoStrMore.Contains nodeStr "@") then None
  else
    let nodeStrs := GoStr.Split nodeStr "@" in
    match GoStr.ParseUint (nth 0 nodeStrs EmptyString) with
    | inl _ => None
    | inr nodeID =>
        let addr := nth 1 nodeStrs EmptyString in
        let hasPort := GoStrMore.Contains addr ":" in
        let addr := if negb hasPort then addr ++ ":" ++ defaultPort else addr in
        Some (mkNode nodeID addr)
    end.

(** ConfigureWithViper, the loop over cluster.nodes: the nodes of the
    entries, in order, appended to o.Cluster.Nodes. *)
Fixpoint append_nodes (defaultPort : string) (nodes : list string)
  (acc : list Node) : list Node :=
  match nodes with
  | [] => acc
  | nodeStr :: rest =>
      match parse_node defaultPort nodeStr with
      | None => append_nodes defaultPort rest acc
      | Some n => append_nodes defaultPort rest (acc ++ [n])
      end
  end.

(** ConfigureWithViper, the first statement of the cluster part:
    o.Cluster.NodeId = o.getUint64("cluster.nodeId", o.Cluster.NodeId) *)
Definition configureNodeId (vp : Viper) (o : Options) : Options :=
  mkOptions (TmpChannel_Suffix o)
    (getUint64 vp "cluster.nodeId" (Cluster_NodeId o))
    (Cluster_Addr o) (Cluster_Role o) (Cluster_Nodes o).

(** ConfigureWithViper, the cluster part, on the fields above, in the
    order of the statements: the node id, the default port (read from
    the address the options hold at that point), the address, the role
    and the nodes. [inl text] is the call wklog.Panic(text) of the
    default case of the switch on the role. *)
Definition configureCluster (vp : Viper) (o : Options) : string + Options :=
  let o := configureNodeId vp o in
  let defaultPort := defaultPort_of (Cluster_Addr o) in
  let addr := getString vp "cluster.addr" (Cluster_Addr o) in
  let role := getString vp "cluster.role" (Cluster_Role o) in
  if negb (String.eqb role RoleProxy || String.eqb role RoleReplica)
  then inl ("cluster.role must be proxy or replica, but got " ++ role)%string
  else
    let nodes := getStringSlice vp "cluster.nodes" in
    inr (mkOptions (TmpChannel_Suffix o) (Cluster_NodeId o) addr role
           (append_nodes defaultPort nodes (Cluster_Nodes o))).

(** ConfigureWithViper, the statement for the suffix of temporary
    channels:
    o.TmpChannel.Suffix = o.getString("tmpChannel.suffix", o.TmpChannel.Suffix) *)
Definition configureTmpSuffix (vp : Viper) (o : Options) : Options :=
  mkOptions (getString vp "tmpChannel.suffix" (TmpChannel_Suffix o))
    (Cluster_NodeId o) (Cluster_Addr o) (Cluster_Role o) (Cluster_Nodes o).

End ServerOptions.

(* ===================================================================== *)
(** ** The calls of send, by outcome; peers that know each other *)
(* ===================================================================== *)

Module Wire.
Import Cluster ClusterMore.
Local Open Scope list_scope.

(** The outgoing statistic send records before it looks for the node. *)
Definition outgoing_trace (E : Env) (shardType : N) (m : reactor.Message)
  : list Call :=
  if (shardType =? ShardTypeSlot E)%N then
    [TraceOutgoingMessage ClusterKindSlot (reactor.MsgType m) (reactor_Size E m)]
  else if (shardType =? ShardTypeChannel E)%N then
    [TraceOutgoingMessage ClusterKindChannel (reactor.MsgType m) (reactor_Size E m)]
  else [].

(** The byte and count metrics of a frame, by its type. *)
Definition frame_metrics (E : Env) (msg : proto.Message) : list Call :=
  if (proto.MsgType msg =? MsgTypeChannel)%N then
    [MessageOutgoingBytesAdd ClusterKindChannel (proto_Size E msg);
     MessageOutgoingCountAdd ClusterKindChannel 1]
  else if (proto.MsgType msg =? MsgTypeSlot)%N then
    [MessageOutgoingBytesAdd ClusterKindSlot (proto_Size E msg);
     MessageOutgoingCountAdd ClusterKindSlot 1]
  else if (proto.MsgType msg =? MsgTypeConfig)%N then
    [MessageOutgoingBytesAdd ClusterKindConfig (proto_Size E msg);
     MessageOutgoingCountAdd ClusterKindConfig 1]
  else [].

(** What send does after the outgoing statistic. *)
Definition send_tail (E : Env) (shardType : N) (m : reactor.Message)
  : list Call :=
  if negb (nodeManager_node E (reactor.To m)) then
    [Log WarnLevel "send failed, node not exist" [zap_Uint64 "to" (reactor.To m)]]
  else
    match reactor_Marshal E m with
    | inl err => [Log ErrorLevel "Marshal failed" [zap_Error err]]
    | inr data =>
        match frame_type E shardType with
        | None =>
            [Log ErrorLevel "send failed, invalid shardType"
               [zap_Uint8 "shardType" shardType]]
        | Some t =>
            let msg := proto.mkMessage t data in
            frame_metrics E msg ++ [Node_send (reactor.To m) msg]
            ++ match node_send E (reactor.To m) msg with
               | Some err => [Log ErrorLevel "send failed" [zap_Error err]]
               | None => []
               end
        end
    end.

(** The frames a trace transmits. *)
Definition transmissions (l : list Call) : list (N * proto.Message) :=
  omap (fun c => match c with
                 | Node_send to msg => Some (to, msg)
                 | _ => None
                 end) l.

(** The environment of node 4 with its peers known to the node manager,
    a codec that writes the body and reads it back as a message for
    room-42. *)
Definition env_peers : Env :=
  mkEnv (reactor_Size Sample.env_ok) (reactor_Marshal Sample.env_ok)
    (reactor_UnmarshalMessage Sample.env_ok) (reactor_MsgTypeString Sample.env_ok)
    (proto_Size Sample.env_ok) (ShardTypeSlot Sample.env_ok)
    (ShardTypeConfig Sample.env_ok) (ShardTypeChannel Sample.env_ok)
    (ChannelFromlKey Sample.env_ok) (path_Join Sample.env_ok)
    (channelManager_getWithHandleKey Sample.env_ok) (fun _ => true)
    (node_send Sample.env_ok) (loadOrCreateChannel Sample.env_ok)
    (onMessageFnc Sample.env_ok) (debug_Stack Sample.env_ok)
    (snowflake_NewNode Sample.env_ok) (ants_NewPool Sample.env_ok)
    (slotStorage_Open Sample.env_ok) (clusterEventServer_Nodes Sample.env_ok)
    (clusterEventServer_Slots Sample.env_ok) (clusterEventServer_Node Sample.env_ok)
    (channelElectionManager_start Sample.env_ok)
    (clusterEventServer_Start Sample.env_ok) (netServer_Start Sample.env_ok)
    (slotManager_start Sample.env_ok) (channelManager_start Sample.env_ok).

(** A message to node 1 that the codec of [env_peers] reads back. *)
Definition msg_to_1 : reactor.Message :=
  reactor.mkMessage 7 "room-42" 2 1 [1; 2; 3]%N.

End Wire.

Module Undo.
Import Cluster.

(** The calls by which Stop takes the server down. *)
Definition is_stop_call (c : Call) : bool :=
  match c with
  | Stopped_Store _ | CancelFnc | Stopper_Stop | NodeManager_stop
  | ChannelElectionManager_stop | NetServer_Stop | ClusterEventServer_Stop
  | SlotManager_stop | ChannelManager_stop | ChannelKeyLock_StopCleanLoop
  | SlotStorage_Close => true
  | _ => false
  end.

End Undo.

(* ===================================================================== *)
(** ** Configurations and options of node 4 *)
(* ===================================================================== *)

Module Cases.

(** The options of node 4 with a Seed that lacks the node id. *)
Definition opts_bad_seed : Cluster.Options :=
  Cluster.mkOptions 4 "tcp://h4:11110" "h4:11110" "replica" "h1:11110"
    (Some 1%positive) "/data" false 10 1.

(** A configuration that sets nothing. *)
Definition vp_unset : ServerOptions.Viper :=
  {| ServerOptions.GetString := fun _ => "";
     ServerOptions.GetStringSlice := fun _ => [];
     ServerOptions.GetInt := fun _ => 0%Z;
     ServerOptions.GetInt64 := fun _ => 0%Z;
     ServerOptions.GetUint64 := fun _ => 0%N;
     ServerOptions.GetDuration := fun _ => 0%Z |}.

(** A configuration of node 4 that moves the cluster address to port
    22220 and names node 2 without a port. *)
Definition vp_node4 : ServerOptions.Viper :=
  {| ServerOptions.GetString := fun key =>
       if String.eqb key "cluster.addr" then "tcp://0.0.0.0:22220" else "";
     ServerOptions.GetStringSlice := fun key =>
       if String.eqb key "cluster.nodes" then ["2@h2"] else [];
     ServerOptions.GetInt := fun _ => 0%Z;
     ServerOptions.GetInt64 := fun _ => 0%Z;
     ServerOptions.GetUint64 := fun key =>
       if String.eqb key "cluster.nodeId" then 4%N else 0%N;
     ServerOptions.GetDuration := fun _ => 0%Z |}.

End Cases.

(* ===================================================================== *)
(** ** AddChannelMessage, critical section by critical section *)
(* ===================================================================== *)

Module Sections.
Import Cluster.

(** AddChannelMessage up to the release of the read lock (lines 250 to
    264): the statistic, the replica in memory, the look at the loading
    mark under RLock. The result is whether the call goes on to the
    write lock. *)
Definition AddChannelMessage_check (E : Env) (m : reactor.Message) : M bool :=
  call (TraceIncomingMessage ClusterKindChannel (reactor.MsgType m)
          (reactor_Size E m)) ;;
  if channelManager_getWithHandleKey E (reactor.HandlerKey m) then
    call (ChannelManager_addMessage m) ;; mret false
  else
    loading ← get (fun s => bool_decide (reactor.HandlerKey m ∈ channelLoadMap s));
    mret (negb loading).

(** AddChannelMessage from the write lock on (lines 266 to 291): the mark
    is set without a second look, then the task is submitted. *)
Definition AddChannelMessage_mark (E : Env) (m : reactor.Message) : M unit :=
  modify (fun s =>
            set_channelLoadMap ({[reactor.HandlerKey m]} ∪ channelLoadMap s) s) ;;
  running ← Running LoadPool;
  size ← get (fun s => ChannelLoadPoolSize (opts s));
  when (wrap_int (size - 10) <? running)%Z
    (Warn "channelLoadPool is busy"
       [zap_Int "running" running; zap_Int "size" size]) ;;
  err ← channelLoadPool_Submit m;
  match err with
  | Some e => Error "channelLoadPool.Submit failed" [zap_Error e]
  | None => mret tt
  end.

(** One call, its two parts one after the other. *)
Definition in_sections (E : Env) (m : reactor.Message) : M unit :=
  go ← AddChannelMessage_check E m;
  when go (AddChannelMessage_mark E m).

(** Two calls on two goroutines that overlap: both have released the
    read lock before either takes the write lock. *)
Definition overlapped (E : Env) (m1 m2 : reactor.Message) : M unit :=
  go1 ← AddChannelMessage_check E m1;
  go2 ← AddChannelMessage_check E m2;
  when go1 (AddChannelMessage_mark E m1) ;;
  when go2 (AddChannelMessage_mark E m2).

(** The pool after a Submit it has accepted. *)
Definition pool_take (q : Pool) : Pool :=
  if (0 <? pool_idle q)%Z
  then mkPool (pool_cap q) (pool_running q) (pool_idle q - 1)
  else mkPool (pool_cap q) (pool_running q + 1) (pool_idle q).

End Sections.

(* ===================================================================== *)
(** ** The route of a Channel frame *)
(* ===================================================================== *)

Module Routes.
Import Cluster Life.

(** A frame of type Channel that decodes is fed to the ChannelManager;
    the third of the routes the demultiplexing is said to take for every
    inbound frame. *)
Definition channel_frame_is_fed (E : Env) (f : proto.Message) (s : Server)
  : Prop :=
  forall msg,
    proto.MsgType f = MsgTypeChannel ->
    reactor_UnmarshalMessage E (proto.Content f) = inr msg ->
    ChannelManager_addMessage msg ∈ calls (state_of (onMessage E f s)).

End Routes.

(* ===================================================================== *)
(** ** Node 4 before it has a cluster configuration *)
(* ===================================================================== *)

Module Fresh.
Import Cluster.

(** [Sample.env_ok] with a cluster configuration that holds no node yet. *)
Definition env_fresh : Env :=
  mkEnv (reactor_Size Sample.env_ok) (reactor_Marshal Sample.env_ok)
    (reactor_UnmarshalMessage Sample.env_ok) (reactor_MsgTypeString Sample.env_ok)
    (proto_Size Sample.env_ok) (ShardTypeSlot Sample.env_ok)
    (ShardTypeConfig Sample.env_ok) (ShardTypeChannel Sample.env_ok)
    (ChannelFromlKey Sample.env_ok) (path_Join Sample.env_ok)
    (channelManager_getWithHandleKey Sample.env_ok) (nodeManager_node Sample.env_ok)
    (node_send Sample.env_ok) (loadOrCreateChannel Sample.env_ok)
    (onMessageFnc Sample.env_ok) (debug_Stack Sample.env_ok)
    (snowflake_NewNode Sample.env_ok) (ants_NewPool Sample.env_ok)
    (slotStorage_Open Sample.env_ok) []
    (clusterEventServer_Slots Sample.env_ok) (clusterEventServer_Node Sample.env_ok)
    (channelElectionManager_start Sample.env_ok)
    (clusterEventServer_Start Sample.env_ok) (netServer_Start Sample.env_ok)
    (slotManager_start Sample.env_ok) (channelManager_start Sample.env_ok).

(** The same, the seed node 1 being in the committed cluster already. *)
Definition env_joined : Env :=
  mkEnv (reactor_Size Sample.env_ok) (reactor_Marshal Sample.env_ok)
    (reactor_UnmarshalMessage Sample.env_ok) (reactor_MsgTypeString Sample.env_ok)
    (proto_Size Sample.env_ok) (ShardTypeSlot Sample.env_ok)
    (ShardTypeConfig Sample.env_ok) (ShardTypeChannel Sample.env_ok)
    (ChannelFromlKey Sample.env_ok) (path_Join Sample.env_ok)
    (channelManager_getWithHandleKey Sample.env_ok) (nodeManager_node Sample.env_ok)
    (node_send Sample.env_ok) (loadOrCreateChannel Sample.env_ok)
    (onMessageFnc Sample.env_ok) (debug_Stack Sample.env_ok)
    (snowflake_NewNode Sample.env_ok) (ants_NewPool Sample.env_ok)
    (slotStorage_Open Sample.env_ok) (clusterEventServer_Nodes Sample.env_ok)
    (clusterEventServer_Slots Sample.env_ok) (fun id => (id =? 1)%N)
    (channelElectionManager_start Sample.env_ok)
    (clusterEventServer_Start Sample.env_ok) (netServer_Start Sample.env_ok)
    (slotManager_start Sample.env_ok) (channelManager_start Sample.env_ok).

(** [env_fresh] with a net server that does not start. *)
Definition net_error : error := errors_New "listen tcp: address already in use".

Definition env_net_down : Env :=
  mkEnv (reactor_Size Sample.env_ok) (reactor_Marshal Sample.env_ok)
    (reactor_UnmarshalMessage Sample.env_ok) (reactor_MsgTypeString Sample.env_ok)
    (proto_Size Sample.env_ok) (ShardTypeSlot Sample.env_ok)
    (ShardTypeConfig Sample.env_ok) (ShardTypeChannel Sample.env_ok)
    (ChannelFromlKey Sample.env_ok) (path_Join Sample.env_ok)
    (channelManager_getWithHandleKey Sample.env_ok) (nodeManager_node Sample.env_ok)
    (node_send Sample.env_ok) (loadOrCreateChannel Sample.env_ok)
    (onMessageFnc Sample.env_ok) (debug_Stack Sample.env_ok)
    (snowflake_NewNode Sample.env_ok) (ants_NewPool Sample.env_ok)
    (slotStorage_Open Sample.env_ok) []
    (clusterEventServer_Slots Sample.env_ok) (clusterEventServer_Node Sample.env_ok)
    (channelElectionManager_start Sample.env_ok)
    (clusterEventServer_Start Sample.env_ok) (Some net_error)
    (slotManager_start Sample.env_ok) (channelManager_start Sample.env_ok).

(** Node 4 with a load pool of ten workers. *)
Definition server4_pool10 : Server :=
  set_channelLoadPool (new_pool 10)
    (set_opts
       (mkOptions 4 "tcp://h4:11110" "h4:11110" "replica" "1@h1:11110"
          (Some 1%positive) "/data" true 10 10)
       Sample.server4).

End Fresh.

(* ===================================================================== *)
(** ** Reasoning about computations that only make calls *)
(* ===================================================================== *)

Module Emits.
Import Cluster Trace.
Local Open Scope list_scope.

Lemma set_calls_id (s : Server) : set_calls (calls s) s = s.
Proof. by destruct s. Qed.

Lemma set_calls_twice (l l' : list Call) (s : Server) :
  set_calls l (set_calls l' s) = set_calls l s.
Proof. by destruct s. Qed.

Lemma emits_run {A} (s : Server) (c : M A) (a : A) (l : list Call) :
  emits s c a l -> c s = Return a (set_calls (calls s ++ l) s).
Proof. intros H. rewrite <- (set_calls_id s) at 1. apply H. Qed.

Lemma emits_ret {A} (s : Server) (a : A) : emits s (mret a) a [].
Proof. intros cs. by rewrite app_nil_r. Qed.

Lemma emits_call (s : Server) (c : Call) : emits s (call c) tt [c].
Proof. intros cs. unfold call, modify. simpl. by rewrite set_calls_twice. Qed.

Lemma emits_get {A} (s : Server) (f : Server -> A) :
  (forall cs, f (set_calls cs s) = f s) -> emits s (get f) (f s) [].
Proof. intros Hf cs. unfold get. by rewrite Hf, app_nil_r. Qed.

Lemma emits_bind {A B} (s : Server) (c : M A) (k : A -> M B) a b l1 l2 :
  emits s c a l1 -> emits s (k a) b l2 -> emits s (c ≫= k) b (l1 ++ l2).
Proof.
  intros Hc Hk cs. unfold mbind, M_bind.
  by rewrite Hc, Hk, app_assoc.
Qed.

Lemma emits_seq {A B} (s : Server) (c : M A) (k : M B) a b l1 l2 :
  emits s c a l1 -> emits s k b l2 -> emits s (c ;; k) b (l1 ++ l2).
Proof. intros Hc Hk. by apply (emits_bind s c (fun _ => k) a b). Qed.

Lemma emits_when (s : Server) (b : bool) (c : M unit) l :
  emits s c tt l -> emits s (when b c) tt (if b then l else []).
Proof. intros Hc. destruct b; [done | apply emits_ret]. Qed.

Lemma emits_for_each {A} (s : Server) (xs : list A) (body : A -> M unit)
  (f : A -> list Call) :
  (forall x, emits s (body x) tt (f x)) ->
  emits s (for_each xs body) tt (flat_map f xs).
Proof.
  intros Hbody. induction xs as [| x xs IH]; simpl.
  - apply emits_ret.
  - eapply emits_bind; [apply Hbody | apply IH].
Qed.

Lemma emits_log (s : Server) lvl msg fields :
  emits s (call (Log lvl msg fields)) tt [Log lvl msg fields].
Proof. apply emits_call. Qed.

Lemma flat_map_skip {A B} (P : A -> Prop) `{!forall x, Decision (P x)}
  (g : A -> list B) (xs : list A) :
  flat_map (fun x => if decide (P x) then g x else []) xs
  = flat_map g (filter P xs).
Proof.
  induction xs as [| x xs IH]; [done |].
  simpl. rewrite filter_cons. destruct (decide (P x)); simpl; by rewrite IH.
Qed.

Lemma flat_map_single {A B} (f : A -> B) (xs : list A) :
  flat_map (fun x => [f x]) xs = map f xs.
Proof. induction xs; simpl; congruence. Qed.

Lemma flat_map_ext_eq {A B} (f g : A -> list B) (xs : list A) :
  (forall x, f x = g x) -> flat_map f xs = flat_map g xs.
Proof. intros H. induction xs; simpl; congruence. Qed.

Lemma existsb_elem_of (x : N) (l : list N) :
  ArrayContainsUint64 l x = bool_decide (x ∈ l).
Proof.
  unfold ArrayContainsUint64. induction l as [| y l IH]; cbn [existsb].
  - symmetry. apply bool_decide_eq_false_2. by intros ?%elem_of_nil.
  - rewrite IH. destruct (N.eqb_spec x y) as [-> | Hne]; cbn [orb].
    + symmetry. apply bool_decide_eq_true_2. by left.
    + apply bool_decide_ext. rewrite elem_of_cons.
      split; [by right | by intros [? | ?]].
Qed.

End Emits.

Module StartStop.
Import Cluster Sequence Trace Emits.
Local Open Scope list_scope.

Lemma addNode_emits (s : Server) (id : N) (addr : string) :
  emits s (addNode id addr) tt
    [NewNode_start id (GoStr.FormatUint (NodeId (opts s))) addr;
     NodeManager_addNode id].
Proof.
  unfold addNode, newNodeByNodeInfo.
  change [NewNode_start id (GoStr.FormatUint (NodeId (opts s))) addr;
          NodeManager_addNode id]
    with (([] ++ [NewNode_start id (GoStr.FormatUint (NodeId (opts s))) addr])
          ++ [NodeManager_addNode id]).
  eapply emits_bind; [| apply emits_call].
  eapply emits_bind; [apply (emits_get s opts); by destruct s |].
  apply emits_call.
Qed.

Lemma addSlot_emits (s : Server) (st : Slot) :
  emits s (addSlot st) tt [SlotManager_add st; Slot_update st].
Proof.
  unfold addSlot.
  change [SlotManager_add st; Slot_update st]
    with ([SlotManager_add st] ++ [Slot_update st]).
  eapply emits_bind; apply emits_call.
Qed.

Lemma map_range_len0 (r : option positive) (s : Server) :
  map_len r s = 0 -> map_range r s = [].
Proof.
  unfold map_len, map_range. destruct r as [l |]; [| done].
  intros H. apply map_size_empty_inv in H. rewrite H. apply map_to_list_empty.
Qed.

Lemma seedNodes_emits (E : Env) (s : Server) :
  emits s (seedNodes E) tt (seed_calls E s).
Proof.
  unfold seedNodes, seed_calls, seed_source.
  rewrite <- (app_nil_l (flat_map _ _)).
  eapply emits_bind; [apply (emits_get s opts); by destruct s |].
  destruct (clusterEventServer_Nodes E) as [| n0 nodes] eqn:Hnodes.
  - simpl length. simpl Nat.ltb.
    cbv iota.
    rewrite <- (app_nil_l (flat_map _ _)).
    eapply emits_bind;
      [apply (emits_get s (map_len (InitNodes (opts s)))); by destruct s |].
    destruct (map_len (InitNodes (opts s)) s) eqn:Hlen.
    + rewrite (map_range_len0 _ _ Hlen). apply emits_ret.
    + simpl Nat.ltb. cbv iota.
      rewrite <- (app_nil_l (flat_map _ _)).
      eapply emits_bind;
        [apply (emits_get s (map_range (InitNodes (opts s)))); by destruct s |].
      rewrite <- flat_map_skip.
      apply emits_for_each. intros [k v]. simpl.
      destruct (N.eqb_spec k (NodeId (opts s))) as [-> | Hne].
      * rewrite decide_False by (intros H; by apply H). apply emits_ret.
      * rewrite decide_True by done. apply addNode_emits.
  - change (0 <? length (n0 :: nodes))%nat with true. cbv iota.
    rewrite <- flat_map_skip.
    generalize (n0 :: nodes). intros l.
    rewrite flat_map_concat_map, map_map, <- flat_map_concat_map.
    apply emits_for_each. intros n. simpl.
    destruct (N.eqb_spec (Id n) (NodeId (opts s))) as [-> | Hne].
    * rewrite decide_False by (intros H; by apply H). apply emits_ret.
    * rewrite decide_True by done. apply addNode_emits.
Qed.

Lemma addLocalSlots_emits (E : Env) (s : Server) :
  emits s (addLocalSlots E) tt (slot_calls E s).
Proof.
  unfold addLocalSlots, slot_calls.
  rewrite <- (app_nil_l (flat_map _ _)).
  eapply emits_bind; [apply (emits_get s opts); by destruct s |].
  rewrite <- flat_map_skip.
  apply emits_for_each. intros st.
  rewrite existsb_elem_of.
  destruct (decide (NodeId (opts s) ∈ SlotReplicas st)) as [Hin | Hout].
  - rewrite bool_decide_eq_true_2 by done. apply addSlot_emits.
  - rewrite bool_decide_eq_false_2 by done. apply emits_ret.
Qed.

Lemma try_step_emits (s : Server) (c : Call) (r : option error)
  (k : M (option error)) res l :
  emits s k res l ->
  emits s (try_step c r k)
    (match r with Some err => Some err | None => res end)
    (c :: match r with Some _ => [] | None => l end).
Proof.
  intros Hk. unfold try_step.
  change (c :: match r with Some _ => [] | None => l end)
    with ([c] ++ match r with Some _ => [] | None => l end).
  eapply emits_bind; [apply emits_call |].
  destruct r; [apply emits_ret | apply Hk].
Qed.

Lemma needJoin_join_needed (E : Env) (s : Server) :
  needJoin E (opts s) = join_needed E s.
Proof.
  unfold needJoin, join_needed.
  by destruct (String.eqb (GoStr.TrimSpace (Seed (opts s))) "").
Qed.

Lemma join_step_emits (E : Env) (s : Server) :
  emits s
    (o ← get opts;
     when (needJoin E o)
       (call (ClusterEventServer_SetIsPrepared false) ;;
        call Stopper_RunWorker_joinLoop) ;;
     mret (@None error))
    None
    (if join_needed E s
     then [ClusterEventServer_SetIsPrepared false; Stopper_RunWorker_joinLoop]
     else []).
Proof.
  rewrite <- (app_nil_l (if join_needed E s then _ else _)).
  eapply emits_bind; [apply (emits_get s opts); by destruct s |].
  rewrite <- (app_nil_r (if join_needed E s then _ else _)).
  eapply emits_bind; [| apply emits_ret].
  rewrite <- needJoin_join_needed.
  apply emits_when.
  change [ClusterEventServer_SetIsPrepared false; Stopper_RunWorker_joinLoop]
    with ([ClusterEventServer_SetIsPrepared false] ++ [Stopper_RunWorker_joinLoop]).
  eapply emits_bind; apply emits_call.
Qed.

Lemma Start_emits (E : Env) (s : Server) :
  emits s (Start E) (snd (run_plan (Start_plan E s)))
    (fst (run_plan (Start_plan E s))).
Proof.
  unfold Start, Start_plan.
  pose proof (join_step_emits E s) as Hjoin.
  pose proof (try_step_emits s ChannelManager_start (channelManager_start E)
                _ _ _ Hjoin) as H9.
  pose proof (try_step_emits s SlotManager_start (slotManager_start E)
                _ _ _ H9) as H8.
  pose proof (try_step_emits s NetServer_Start (netServer_Start E)
                _ _ _ H8) as H7.
  pose proof (emits_seq s _ _ _ _ _ _ (emits_call s NetServer_OnMessage) H7)
    as H7b.
  pose proof (emits_seq s _ _ _ _ _ _ (emits_call s SetRoutes) H7b) as H7c.
  pose proof (try_step_emits s ClusterEventServer_Start
                (clusterEventServer_Start E) _ _ _ H7c) as H6.
  pose proof (try_step_emits s ChannelElectionManager_start
                (channelElectionManager_start E) _ _ _ H6) as H5.
  pose proof (emits_seq s _ _ _ _ _ _ (addLocalSlots_emits E s) H5) as H4.
  pose proof (emits_seq s _ _ _ _ _ _ (seedNodes_emits E s) H4) as H3.
  pose proof (emits_seq s _ _ _ _ _ _
                (emits_call s ChannelKeyLock_StartCleanLoop) H3) as H2.
  pose proof (try_step_emits s SlotStorage_Open (slotStorage_Open E)
                _ _ _ H2) as H1.
  pose proof (emits_seq s _ _ _ _ _ _ (emits_call s Uptime_Set) H1) as H0.
  clear - H0.
  destruct (slotStorage_Open E), (channelElectionManager_start E),
    (clusterEventServer_Start E), (netServer_Start E), (slotManager_start E),
    (channelManager_start E); simpl in *; rewrite ?app_nil_r; exact H0.
Qed.

End StartStop.

(* ===================================================================== *)
(** ** replica.NewOptions *)
(* ===================================================================== *)

Module ReplicaFacts.
Import Replica.

(** C8: NewOptions returns SyncLimit = 20, CommitLimit = 20,
    CurrentTerm = 1 (which is not the reserved term 0), CheckInterval =
    500ms and ProposeTimeout = 5s, both in nanoseconds, and a
    LastSyncInfoMap that is not nil and has no entry. *)
Theorem NewOptions_defaults (ITransport IStorage SyncInfo OnApplyFn OnCommitFn : Type) :
  let o := @NewOptions ITransport IStorage SyncInfo OnApplyFn OnCommitFn in
  SyncLimit o = 20%N /\ CommitLimit o = 20%N /\
  CurrentTerm o = 1%N /\ CurrentTerm o <> 0%N /\
  CheckInterval o = 500000000%Z /\ CheckInterval o = (500 * Millisecond)%Z /\
  ProposeTimeout o = 5000000000%Z /\ ProposeTimeout o = (5 * Second)%Z /\
  LastSyncInfoMap o = Some ∅ /\ LastSyncInfoMap o <> None /\
  map_len (LastSyncInfoMap o) = 0%nat /\
  (forall k : N, LastSyncInfoMap o ≫= (fun m => m !! k) = None).
Proof.
  cbv zeta. repeat split; try reflexivity; try discriminate.
Qed.

(** What NewOptions does not name is Go's zero value. *)
Lemma NewOptions_zero_fields (ITransport IStorage SyncInfo OnApplyFn OnCommitFn : Type) :
  let o := @NewOptions ITransport IStorage SyncInfo OnApplyFn OnCommitFn in
  NodeID o = 0%N /\ ShardNo o = "" /\ Replicas o = [] /\ Transport o = None /\
  AppliedIndex o = 0%N /\ OnApply o = None /\ OnCommit o = None /\
  Storage o = None.
Proof. cbv zeta. repeat split. Qed.

(** WithCurrentTerm is what can bring the reserved term back. *)
Lemma WithCurrentTerm_sets (ITransport IStorage SyncInfo OnApplyFn OnCommitFn : Type) (t : N) :
  CurrentTerm (WithCurrentTerm t
     (@NewOptions ITransport IStorage SyncInfo OnApplyFn OnCommitFn)) = t.
Proof. reflexivity. Qed.

End ReplicaFacts.

(* ===================================================================== *)
(** ** Start, Stop and the join loop *)
(* ===================================================================== *)

Module LifecycleFacts.
Import Cluster Sequence Trace Emits StartStop.
Local Open Scope list_scope.

(** The trace of a Start in which nothing fails. *)
Lemma Start_all_ok (E : Env) (s : Server) :
  slotStorage_Open E = None -> channelElectionManager_start E = None ->
  clusterEventServer_Start E = None -> netServer_Start E = None ->
  slotManager_start E = None -> channelManager_start E = None ->
  Start E s
  = Return None
      (set_calls
         (calls s ++ [Uptime_Set; SlotStorage_Open; ChannelKeyLock_StartCleanLoop]
          ++ seed_calls E s ++ slot_calls E s
          ++ [ChannelElectionManager_start; ClusterEventServer_Start; SetRoutes;
              NetServer_OnMessage; NetServer_Start; SlotManager_start;
              ChannelManager_start]
          ++ (if join_needed E s
              then [ClusterEventServer_SetIsPrepared false; Stopper_RunWorker_joinLoop]
              else [])) s).
Proof.
  intros H1 H2 H3 H4 H5 H6. rewrite (emits_run _ _ _ _ (Start_emits E s)).
  unfold Start_plan. simpl. rewrite H1, H2, H3, H4, H5, H6. simpl.
  rewrite app_nil_r. reflexivity.
Qed.

(** A LogStorage that does not open stops Start at once. *)
Lemma Start_storage_fails (E : Env) (s : Server) (err : error) :
  slotStorage_Open E = Some err ->
  Start E s = Return (Some err) (set_calls (calls s ++ [Uptime_Set; SlotStorage_Open]) s).
Proof.
  intros H. rewrite (emits_run _ _ _ _ (Start_emits E s)). unfold Start_plan. simpl.
  by rewrite H.
Qed.

(** A net server that does not start leaves the slot and channel
    managers unstarted and the join loop unlaunched. *)
Lemma Start_netServer_fails (E : Env) (s : Server) (err : error) :
  slotStorage_Open E = None -> channelElectionManager_start E = None ->
  clusterEventServer_Start E = None -> netServer_Start E = Some err ->
  exists l,
    Start E s = Return (Some err) (set_calls (calls s ++ l) s) /\
    (SlotManager_start ∉ l) /\ (ChannelManager_start ∉ l) /\
    (Stopper_RunWorker_joinLoop ∉ l).
Proof.
  intros H1 H2 H3 H4. eexists. split.
  - rewrite (emits_run _ _ _ _ (Start_emits E s)). unfold Start_plan. simpl.
    rewrite H1, H2, H3, H4. simpl. reflexivity.
  - unfold seed_calls, slot_calls.
    repeat split; intros Hin;
      repeat (apply elem_of_cons in Hin as [Hin | Hin]; [discriminate |]);
      repeat (apply elem_of_app in Hin as [Hin | Hin]);
      repeat (apply elem_of_cons in Hin as [Hin | Hin]; [discriminate |]);
      try (by apply elem_of_nil in Hin);
      apply list_elem_of_In, in_flat_map in Hin as [x [_ Hx]];
      apply list_elem_of_In in Hx;
      repeat (apply elem_of_cons in Hx as [Hx | Hx]; [discriminate |]);
      by apply elem_of_nil in Hx.
Qed.

(** The exact sequence of Stop. *)
Lemma Stop_trace (s : Server) :
  Stop s
  = Return tt
      (set_calls
         (calls s ++
          [Stopped_Store true; CancelFnc; Stopper_Stop; NodeManager_stop;
           ChannelElectionManager_stop; NetServer_Stop; ClusterEventServer_Stop;
           SlotManager_stop; ChannelManager_stop; ChannelKeyLock_StopCleanLoop;
           SlotStorage_Close])
         (set_stopped true s)).
Proof.
  destruct s. unfold Stop, mbind, M_bind, modify, call, modify. simpl.
  rewrite <- !app_assoc. reflexivity.
Qed.

(** C3, as amended: Stop sets the stopped flag, cancels the root context,
    stops the worker stopper, then the NodeManager, the
    ChannelElectionManager, the net server, the ClusterEventServer, the
    SlotManager, the ChannelManager and the key-lock clean loop, in that
    order, and closes the LogStorage last. *)
Theorem Stop_sequence (s : Server) :
  Stop s
  = Return tt
      (set_calls
         (calls s ++
          [Stopped_Store true; CancelFnc; Stopper_Stop; NodeManager_stop;
           ChannelElectionManager_stop; NetServer_Stop; ClusterEventServer_Stop;
           SlotManager_stop; ChannelManager_stop; ChannelKeyLock_StopCleanLoop;
           SlotStorage_Close])
         (set_stopped true s))
  /\ omap stopped_by (new_calls Stop s)
     = [ElectionManager; NetServer; EventServer; SlotMgr; ChannelMgr;
        KeyLockCleaner].
Proof.
  split; [apply Stop_trace |].
  unfold new_calls. rewrite Stop_trace. destruct s; simpl.
  by rewrite drop_app_length.
Qed.

(** C3, as stated, fails: on node 4 with every component starting, the
    managers are not stopped in the reverse of the order in which Start
    started them; the election, slot and channel managers are stopped in
    the order they were started. *)
Lemma Stop_not_reverse_of_Start :
  ~ stops_in_reverse Sample.env_ok Sample.server4.
Proof.
  unfold stops_in_reverse. intros H. vm_compute in H. discriminate H.
Qed.

Lemma joinLoop_from_retries (s : Server) seed req errs script r l :
  emits s (joinLoop_from seed req script) r l ->
  emits s (joinLoop_from seed req (failing errs ++ script)) r
    (flat_map (failed_round seed req) errs ++ l).
Proof.
  intros Hrest. induction errs as [| err errs IH]; [exact Hrest |].
  simpl.
  change (Time_After 2000000000 :: RequestClusterJoin seed req
          :: Log ErrorLevel "requestClusterJoin failed" [zap_Error err]
          :: flat_map (failed_round seed req) errs ++ l)
    with ([Time_After 2000000000] ++ [RequestClusterJoin seed req]
          ++ [Log ErrorLevel "requestClusterJoin failed" [zap_Error err]]
          ++ (flat_map (failed_round seed req) errs ++ l)).
  eapply emits_seq; [apply emits_call |].
  eapply emits_seq; [apply emits_call |].
  eapply emits_seq; [apply emits_call | apply IH].
Qed.

Lemma joinLoop_from_joined (s : Server) seed req resp rest :
  emits s (joinLoop_from seed req (TimerFired (inr resp) :: rest)) Exited
    ([Time_After 2000000000; RequestClusterJoin seed req]
     ++ map (fun n => AddOrUpdateNode (JoinNodeId n) (JoinServerAddr n))
          (RespNodes resp)
     ++ [ClusterEventServer_SetIsPrepared true]).
Proof.
  simpl.
  change (Time_After 2000000000 :: RequestClusterJoin seed req :: ?l)
    with ([Time_After 2000000000] ++ [RequestClusterJoin seed req] ++ l).
  eapply emits_seq; [apply emits_call |].
  eapply emits_seq; [apply emits_call |].
  eapply emits_seq.
  - destruct (RespNodes resp) as [| n ns] eqn:Hn; [apply emits_ret |].
    change (0 <? length (n :: ns))%nat with true. cbv iota. unfold when.
    rewrite <- flat_map_single.
    apply emits_for_each. intros x. apply emits_call.
  - change [ClusterEventServer_SetIsPrepared true]
      with ([ClusterEventServer_SetIsPrepared true] ++ []).
    eapply emits_seq; [apply emits_call | apply emits_ret].
Qed.

Lemma joinLoop_from_stopped (s : Server) seed req rest :
  emits s (joinLoop_from seed req (ShouldStop :: rest)) Exited
    [Time_After 2000000000].
Proof.
  simpl. change [Time_After 2000000000] with ([Time_After 2000000000] ++ []).
  eapply emits_seq; [apply emits_call | apply emits_ret].
Qed.

Lemma joinLoop_from_blocked (s : Server) seed req :
  emits s (joinLoop_from seed req []) Blocked [Time_After 2000000000].
Proof.
  simpl. change [Time_After 2000000000] with ([Time_After 2000000000] ++ []).
  eapply emits_seq; [apply emits_call | apply emits_ret].
Qed.

Lemma joinLoop_emits (s : Server) script r l :
  emits s (joinLoop_from (seedNodeId_of (Seed (opts s))) (joinReq (opts s)) script) r l ->
  joinLoop script s = Return r (set_calls (calls s ++ l) s).
Proof.
  intros H. apply emits_run. unfold joinLoop.
  rewrite <- (app_nil_l l).
  eapply emits_bind; [apply (emits_get s opts); by destruct s | exact H].
Qed.

(** C6: the join loop waits 2 seconds before each select and then sends
    ClusterJoinReq{NodeId, ServerAddr, Role} to the seed node; a request
    that fails is logged and the loop goes round again; the first answer
    makes it merge every returned node, set IsPrepared to true and exit;
    the stop signal makes it exit too; while every request fails it keeps
    waiting. Start, when it launches the loop, has set IsPrepared to false
    just before. *)
Theorem joinLoop_joins_or_stops (E : Env) (s : Server) (errs : list error) :
  join_needed E s = true ->
  snd (run_plan (Start_plan E s)) = None ->
  let seed := seedNodeId_of (Seed (opts s)) in
  let req := mkJoinReq (NodeId (opts s)) (ServerAddr (opts s)) (Role (opts s)) in
  let retries := flat_map (failed_round seed req) errs in
  (exists before,
     Start E s
     = Return None
         (set_calls (calls s ++ before
                     ++ [ClusterEventServer_SetIsPrepared false;
                         Stopper_RunWorker_joinLoop]) s)
     /\ Stopper_RunWorker_joinLoop ∉ before)
  /\ (forall resp rest,
        joinLoop (failing errs ++ TimerFired (inr resp) :: rest) s
        = Return Exited
            (set_calls
               (calls s ++ retries
                ++ [Time_After (2 * Replica.Second); RequestClusterJoin seed req]
                ++ map (fun n => AddOrUpdateNode (JoinNodeId n) (JoinServerAddr n))
                     (RespNodes resp)
                ++ [ClusterEventServer_SetIsPrepared true]) s))
  /\ (forall rest,
        joinLoop (failing errs ++ ShouldStop :: rest) s
        = Return Exited
            (set_calls (calls s ++ retries ++ [Time_After (2 * Replica.Second)]) s))
  /\ joinLoop (failing errs) s
     = Return Blocked
         (set_calls (calls s ++ retries ++ [Time_After (2 * Replica.Second)]) s).
Proof.
  intros Hjoin Hok seed req retries. repeat split.
  - assert (Hall : slotStorage_Open E = None /\ channelElectionManager_start E = None
                   /\ clusterEventServer_Start E = None /\ netServer_Start E = None
                   /\ slotManager_start E = None /\ channelManager_start E = None).
    { revert Hok. unfold Start_plan. simpl.
      destruct (slotStorage_Open E), (channelElectionManager_start E),
        (clusterEventServer_Start E), (netServer_Start E), (slotManager_start E),
        (channelManager_start E); simpl; intros; try discriminate; done. }
    destruct Hall as (H1 & H2 & H3 & H4 & H5 & H6).
    exists ([Uptime_Set; SlotStorage_Open; ChannelKeyLock_StartCleanLoop]
            ++ seed_calls E s ++ slot_calls E s
            ++ [ChannelElectionManager_start; ClusterEventServer_Start; SetRoutes;
                NetServer_OnMessage; NetServer_Start; SlotManager_start;
                ChannelManager_start]).
    split.
    + rewrite (Start_all_ok E s H1 H2 H3 H4 H5 H6), Hjoin.
      f_equal. f_equal. rewrite <- !app_assoc. reflexivity.
    + unfold seed_calls, slot_calls. intros Hin.
      repeat (apply elem_of_cons in Hin as [Hin | Hin]; [discriminate |]).
      repeat (apply elem_of_app in Hin as [Hin | Hin]);
        repeat (apply elem_of_cons in Hin as [Hin | Hin]; [discriminate |]);
        try (by apply elem_of_nil in Hin);
        apply list_elem_of_In, in_flat_map in Hin as [x [_ Hx]];
        apply list_elem_of_In in Hx;
        repeat (apply elem_of_cons in Hx as [Hx | Hx]; [discriminate |]);
        by apply elem_of_nil in Hx.
  - intros resp rest. apply joinLoop_emits.
    apply joinLoop_from_retries, joinLoop_from_joined.
  - intros rest. apply joinLoop_emits.
    apply joinLoop_from_retries, joinLoop_from_stopped.
  - rewrite <- (app_nil_r (failing errs)). apply joinLoop_emits.
    apply joinLoop_from_retries, joinLoop_from_blocked.
Qed.

End LifecycleFacts.

(* ===================================================================== *)
(** ** Messages: AddChannelMessage, onMessage, send *)
(* ===================================================================== *)

Module MessageFacts.
Import Cluster Sequence Trace Emits.
Local Open Scope list_scope.

Lemma AddChannelMessage_in_memory (E : Env) (m : reactor.Message) (s : Server) :
  channelManager_getWithHandleKey E (reactor.HandlerKey m) = true ->
  AddChannelMessage E m s
  = Return tt (set_calls (calls s ++ [incoming E m; ChannelManager_addMessage m]) s).
Proof.
  intros H. unfold AddChannelMessage, mbind, M_bind, call, modify.
  rewrite H. destruct s; simpl. by rewrite <- app_assoc.
Qed.

Lemma AddChannelMessage_loading (E : Env) (m : reactor.Message) (s : Server) :
  channelManager_getWithHandleKey E (reactor.HandlerKey m) = false ->
  reactor.HandlerKey m ∈ channelLoadMap s ->
  AddChannelMessage E m s = Return tt (set_calls (calls s ++ [incoming E m]) s).
Proof.
  intros H Hin. unfold AddChannelMessage, mbind, M_bind, call, modify, get.
  rewrite H. destruct s; simpl in *.
  by rewrite bool_decide_eq_true_2.
Qed.

(** C7: with a replica in memory for m.HandlerKey the message goes to the
    ChannelManager and, the incoming-traffic statistic apart, nothing
    else is done; without one and with the key marked as loading, the
    message is dropped: the statistic is all that happens, nothing is
    queued, logged or submitted and the loading marks stay as they are. *)
Theorem AddChannelMessage_replica_or_loading (E : Env) (m : reactor.Message) (s : Server) :
  (channelManager_getWithHandleKey E (reactor.HandlerKey m) = true ->
   AddChannelMessage E m s
   = Return tt
       (set_calls
          (calls s ++
           [TraceIncomingMessage ClusterKindChannel (reactor.MsgType m) (reactor_Size E m);
            ChannelManager_addMessage m]) s))
  /\ (channelManager_getWithHandleKey E (reactor.HandlerKey m) = false ->
      reactor.HandlerKey m ∈ channelLoadMap s ->
      AddChannelMessage E m s
      = Return tt
          (set_calls
             (calls s ++
              [TraceIncomingMessage ClusterKindChannel (reactor.MsgType m)
                 (reactor_Size E m)]) s)).
Proof.
  split; [apply AddChannelMessage_in_memory | apply AddChannelMessage_loading].
Qed.

(** A first message for a key whose channel is not in memory, the pool
    refusing the task: the key is marked, the refusal is logged, no task
    is queued, and the mark stays. *)
Lemma AddChannelMessage_refused (E : Env) (m : reactor.Message) (s : Server) :
  channelManager_getWithHandleKey E (reactor.HandlerKey m) = false ->
  reactor.HandlerKey m ∉ channelLoadMap s ->
  pool_full (channelLoadPool s) = true ->
  AddChannelMessage E m s
  = Return tt
      (set_calls
         (calls s ++ [incoming E m] ++ busy_warning s
          ++ [Log ErrorLevel "channelLoadPool.Submit failed" [zap_Error ErrPoolOverload]])
         (set_channelLoadMap ({[reactor.HandlerKey m]} ∪ channelLoadMap s) s)).
Proof.
  intros H Hout Hfull.
  unfold AddChannelMessage, mbind, M_bind, call, modify, get, Running, get.
  rewrite H. unfold busy_warning, pool_full in *.
  destruct s as [o h ss st lm ep lp lt cs]; simpl in *.
  rewrite bool_decide_eq_false_2 by done.
  unfold channelLoadPool_Submit, when, Warn, Error, call, modify; simpl.
  apply andb_prop in Hfull as [Hfull H3]. apply andb_prop in Hfull as [H1 H2].
  assert (Hidle : (0 <? pool_idle lp)%Z = false) by lia.
  assert (Hcap : (pool_cap lp =? -1)%Z = false) by (by destruct (pool_cap lp =? -1)%Z).
  assert (Hrun : (pool_running lp <? pool_cap lp)%Z = false) by lia.
  destruct (wrap_int (ChannelLoadPoolSize o - 10) <? pool_running lp)%Z; simpl;
    rewrite Hidle, Hcap, Hrun; simpl; by rewrite <- !app_assoc.
Qed.

(** The same first message, the pool taking the task. *)
Lemma AddChannelMessage_submitted (E : Env) (m : reactor.Message) (s : Server) :
  channelManager_getWithHandleKey E (reactor.HandlerKey m) = false ->
  reactor.HandlerKey m ∉ channelLoadMap s ->
  pool_full (channelLoadPool s) = false ->
  exists q,
    AddChannelMessage E m s
    = Return tt
        (set_calls (calls s ++ [incoming E m] ++ busy_warning s)
           (set_loadTasks (loadTasks s ++ [m])
              (set_channelLoadPool q
                 (set_channelLoadMap ({[reactor.HandlerKey m]} ∪ channelLoadMap s) s)))).
Proof.
  intros H Hout Hfull.
  unfold AddChannelMessage, mbind, M_bind, call, modify, get, Running, get.
  rewrite H. unfold busy_warning, pool_full in *.
  destruct s as [o h ss st lm ep lp lt cs]; simpl in *.
  rewrite bool_decide_eq_false_2 by done.
  unfold channelLoadPool_Submit, when, Warn, Error, call, modify; simpl.
  destruct (wrap_int (ChannelLoadPoolSize o - 10) <? pool_running lp)%Z; simpl;
    destruct (0 <? pool_idle lp)%Z eqn:Hidle; simpl;
    try (eexists; rewrite <- ?app_assoc; reflexivity);
    destruct ((pool_cap lp =? -1)%Z || (pool_running lp <? pool_cap lp)%Z) eqn:Hc;
    simpl; try (eexists; rewrite <- ?app_assoc; reflexivity);
    exfalso; apply orb_false_elim in Hc as [Hc1 Hc2];
    rewrite Hc1 in Hfull; simpl in Hfull;
    apply andb_false_iff in Hfull as [Hfull | Hfull]; lia.
Qed.

(** The load task, when the key names a channel: whether
    loadOrCreateChannel succeeds or fails, the mark of the key is
    cleared. *)
Lemma loadTask_clears_mark (E : Env) (m : reactor.Message) (s : Server) :
  fst (ChannelFromlKey E (reactor.HandlerKey m)) <> "" ->
  exists l,
    loadTask E m s
    = Return tt
        (set_calls (calls s ++ l)
           (set_channelLoadMap (channelLoadMap s ∖ {[reactor.HandlerKey m]}) s))
    /\ reactor.HandlerKey m ∉ channelLoadMap s ∖ {[reactor.HandlerKey m]}.
Proof.
  intros Hid. unfold loadTask.
  destruct (ChannelFromlKey E (reactor.HandlerKey m)) as [cid cty]; simpl in Hid.
  apply String.eqb_neq in Hid. rewrite Hid.
  unfold when, mbind, M_bind, call, modify, Error, Debug, call, modify.
  destruct s as [o h ss st lm ep lp lt cs]; simpl.
  destruct (loadOrCreateChannel E cid cty); simpl;
    (eexists; split;
       [rewrite <- ?app_assoc; reflexivity
       | intros Hin; apply elem_of_difference in Hin as [_ Hn];
         apply Hn; by apply elem_of_singleton]).
Qed.

(** The load task for a key without channel id panics before it reaches
    the clearing of the mark. *)
Lemma loadTask_empty_channelId (E : Env) (m : reactor.Message) (s : Server) :
  fst (ChannelFromlKey E (reactor.HandlerKey m)) = "" ->
  loadTask E m s
  = Panicking (OtherValue "channelId is empty")
      (set_calls
         (calls s ++ [Log PanicLevel "channelId is empty"
                        [zap_String "handlerKey" (reactor.HandlerKey m)]]) s).
Proof.
  intros Hid. unfold loadTask.
  destruct (ChannelFromlKey E (reactor.HandlerKey m)) as [cid cty]; simpl in Hid.
  subst cid. destruct s; reflexivity.
Qed.

End MessageFacts.

(* ===================================================================== *)
(** ** onMessage and send; the stopped flag *)
(* ===================================================================== *)

Module DispatchFacts.
Import Cluster Sequence Life Routes Trace Emits StartStop LifecycleFacts MessageFacts.
Local Open Scope list_scope.

Lemma send_stopped (E : Env) shardType (m : reactor.Message) (s : Server) :
  stopped s = true -> send E shardType m s = Return tt s.
Proof.
  intros H. unfold send, mbind, M_bind, get. by rewrite H.
Qed.

Lemma onMessage_stopped (E : Env) (f : proto.Message) (s : Server) :
  stopped s = true -> onMessage E f s = Return tt s.
Proof.
  intros H. unfold onMessage, mbind, M_bind, get. by rewrite H.
Qed.

Lemma onMessage_running (E : Env) (f : proto.Message) (s : Server) :
  stopped s = false ->
  onMessage E f s
  = (let msgSize := proto_Size E f in
     if (proto.MsgType f =? MsgTypeConfig)%N then
       match reactor_UnmarshalMessage E (proto.Content f) with
       | inl err => Error "UnmarshalMessage failed" [zap_Error err]
       | inr msg =>
           call (MessageIncomingCountAdd ClusterKindConfig 1) ;;
           call (MessageIncomingBytesAdd ClusterKindConfig msgSize) ;;
           AddConfigMessage msg
       end
     else if (proto.MsgType f =? MsgTypeSlot)%N then
       match reactor_UnmarshalMessage E (proto.Content f) with
       | inl err => Error "UnmarshalMessage failed" [zap_Error err]
       | inr msg =>
           call (MessageIncomingCountAdd ClusterKindSlot 1) ;;
           call (MessageIncomingBytesAdd ClusterKindSlot msgSize) ;;
           AddSlotMessage E msg
       end
     else if (proto.MsgType f =? MsgTypeChannel)%N then
       match reactor_UnmarshalMessage E (proto.Content f) with
       | inl err => Error "UnmarshalMessage failed" [zap_Error err]
       | inr msg =>
           call (MessageIncomingCountAdd ClusterKindChannel 1) ;;
           call (MessageIncomingBytesAdd ClusterKindChannel msgSize) ;;
           AddChannelMessage E msg
       end
     else
       call (MessageIncomingCountAdd ClusterKindUnknown 1) ;;
       call (MessageIncomingBytesAdd ClusterKindUnknown msgSize) ;;
       when (onMessageFnc E)
         (call (Println "msg.MsgType---->" (proto.MsgType f)) ;;
          call (Go_onMessageFnc f)))
      (set_calls (calls s ++ [IntranetIncomingAdd (proto_Size E f)]) s).
Proof.
  intros H. unfold onMessage at 1. unfold mbind at 1, M_bind at 1, get.
  rewrite H. reflexivity.
Qed.

Lemma set_calls_calls (l : list Call) (s : Server) : calls (set_calls l s) = l.
Proof. by destruct s. Qed.

Lemma step_calls_run (s : Server) (l1 : list Call) {A} (c : M A) a l2 :
  emits s c a l2 ->
  c (set_calls (calls s ++ l1) s) = Return a (set_calls (calls s ++ l1 ++ l2) s).
Proof. intros H. rewrite H. by rewrite <- app_assoc. Qed.

Lemma new_calls_appended {A} (c : M A) (s s' : Server) (a : A) (l : list Call) :
  c s = Return a (set_calls (calls s ++ l) s') -> new_calls c s = l.
Proof.
  intros H. unfold new_calls. rewrite H, set_calls_calls.
  by rewrite drop_app_length.
Qed.

(** A Channel frame that decodes, on a running server: onMessage counts
    it and calls AddChannelMessage. *)
Lemma onMessage_channel_frame (E : Env) (f : proto.Message)
  (msg : reactor.Message) (s : Server) :
  stopped s = false ->
  proto.MsgType f = MsgTypeChannel ->
  reactor_UnmarshalMessage E (proto.Content f) = inr msg ->
  onMessage E f s
  = AddChannelMessage E msg
      (set_calls
         (calls s ++
          [IntranetIncomingAdd (proto_Size E f);
           MessageIncomingCountAdd ClusterKindChannel 1;
           MessageIncomingBytesAdd ClusterKindChannel (proto_Size E f)]) s).
Proof.
  intros Hrun Ht Hd. rewrite (onMessage_running E f s Hrun). cbv zeta.
  rewrite Ht, Hd. simpl N.eqb. cbv iota.
  unfold mbind, M_bind, call, modify. destruct s; simpl.
  by rewrite <- !app_assoc.
Qed.

(** AddChannelMessage without a replica in memory: nothing reaches the
    ChannelManager; a key that is marked as loading is left alone, any
    other key is marked, and its load is queued when the pool takes it. *)
Lemma AddChannelMessage_not_in_memory (E : Env) (m : reactor.Message) (s : Server) :
  channelManager_getWithHandleKey E (reactor.HandlerKey m) = false ->
  exists l s',
    AddChannelMessage E m s = Return tt (set_calls (calls s ++ l) s')
    /\ (forall m', ChannelManager_addMessage m' ∉ l)
    /\ (reactor.HandlerKey m ∈ channelLoadMap s -> l = [incoming E m] /\ s' = s)
    /\ (reactor.HandlerKey m ∉ channelLoadMap s ->
        channelLoadMap s' = {[reactor.HandlerKey m]} ∪ channelLoadMap s
        /\ loadTasks s'
           = if pool_full (channelLoadPool s) then loadTasks s
             else loadTasks s ++ [m]).
Proof.
  intros Hmem.
  assert (Hbusy : forall m', ChannelManager_addMessage m' ∉ busy_warning s).
  { intros m' Hin. unfold busy_warning in Hin.
    destruct (wrap_int (ChannelLoadPoolSize (opts s) - 10)
              <? pool_running (channelLoadPool s))%Z.
    - apply list_elem_of_singleton in Hin. discriminate Hin.
    - by apply elem_of_nil in Hin. }
  destruct (decide (reactor.HandlerKey m ∈ channelLoadMap s)) as [Hin | Hout].
  - exists [incoming E m], s. split; [by apply AddChannelMessage_loading |].
    split; [| split; [done | done]].
    intros m' Hm'. apply list_elem_of_singleton in Hm'. discriminate Hm'.
  - destruct (pool_full (channelLoadPool s)) eqn:Hfull.
    + eexists _, _. split; [by apply AddChannelMessage_refused |].
      split; [| split; [done |]].
      * intros m' Hm'. apply elem_of_app in Hm' as [Hm' | Hm'].
        -- apply list_elem_of_singleton in Hm'. discriminate Hm'.
        -- apply elem_of_app in Hm' as [Hm' | Hm']; [by apply Hbusy in Hm' |].
           apply list_elem_of_singleton in Hm'. discriminate Hm'.
      * intros _. by destruct s.
    + destruct (AddChannelMessage_submitted E m s Hmem Hout Hfull) as [q Hq].
      eexists _, _. split; [exact Hq |].
      split; [| split; [done |]].
      * intros m' Hm'. apply elem_of_app in Hm' as [Hm' | Hm'].
        -- apply list_elem_of_singleton in Hm'. discriminate Hm'.
        -- by apply Hbusy in Hm'.
      * intros _. by destruct s.
Qed.

(** C5, as amended: while the stopped flag is not set, onMessage counts
    the frame and dispatches by MsgType: a Config frame is decoded and fed
    to the ClusterEventServer, a Slot frame to the SlotManager, a Channel
    frame to the ChannelManager when a replica for the HandlerKey of its
    message is in memory; without one the message never reaches the
    ChannelManager: it is dropped, after the key has been marked and a
    load of the channel submitted to the pool, unless the key was marked
    already. A frame of one of these types whose content does not decode
    is logged and dropped; a frame of any other type is handed,
    undecoded, to onMessageFnc in a goroutine of its own, when
    onMessageFnc is set. *)
Theorem onMessage_dispatches (E : Env) (f : proto.Message) (s : Server) :
  stopped s = false ->
  let size := proto_Size E f in
  let t := proto.MsgType f in
  let decoded := reactor_UnmarshalMessage E (proto.Content f) in
  (forall msg, t = MsgTypeConfig -> decoded = inr msg ->
     onMessage E f s
     = Return tt
         (set_calls
            (calls s ++
             [IntranetIncomingAdd size;
              MessageIncomingCountAdd ClusterKindConfig 1;
              MessageIncomingBytesAdd ClusterKindConfig size;
              ClusterEventServer_AddMessage msg]) s))
  /\ (forall msg, t = MsgTypeSlot -> decoded = inr msg ->
        onMessage E f s
        = Return tt
            (set_calls
               (calls s ++
                [IntranetIncomingAdd size;
                 MessageIncomingCountAdd ClusterKindSlot 1;
                 MessageIncomingBytesAdd ClusterKindSlot size;
                 TraceIncomingMessage ClusterKindSlot (reactor.MsgType msg)
                   (reactor_Size E msg);
                 SlotManager_addMessage msg]) s))
  /\ (forall msg, t = MsgTypeChannel -> decoded = inr msg ->
        let counted :=
          calls s ++
          [IntranetIncomingAdd size;
           MessageIncomingCountAdd ClusterKindChannel 1;
           MessageIncomingBytesAdd ClusterKindChannel size;
           TraceIncomingMessage ClusterKindChannel (reactor.MsgType msg)
             (reactor_Size E msg)] in
        let key := reactor.HandlerKey msg in
        (channelManager_getWithHandleKey E key = true ->
         onMessage E f s
         = Return tt (set_calls (counted ++ [ChannelManager_addMessage msg]) s))
        /\ (channelManager_getWithHandleKey E key = false ->
            (forall m', ChannelManager_addMessage m' ∉ new_calls (onMessage E f) s)
            /\ (key ∈ channelLoadMap s ->
                onMessage E f s = Return tt (set_calls counted s))
            /\ (key ∉ channelLoadMap s ->
                exists s',
                  onMessage E f s = Return tt s'
                  /\ channelLoadMap s' = {[key]} ∪ channelLoadMap s
                  /\ loadTasks s'
                     = if pool_full (channelLoadPool s) then loadTasks s
                       else loadTasks s ++ [msg])))
  /\ (forall err, t ∈ [MsgTypeConfig; MsgTypeSlot; MsgTypeChannel] ->
        decoded = inl err ->
        onMessage E f s
        = Return tt
            (set_calls
               (calls s ++
                [IntranetIncomingAdd size;
                 Log ErrorLevel "UnmarshalMessage failed" [zap_Error err]]) s))
  /\ (t ∉ [MsgTypeConfig; MsgTypeSlot; MsgTypeChannel] ->
      onMessage E f s
      = Return tt
          (set_calls
             (calls s ++
              [IntranetIncomingAdd size;
               MessageIncomingCountAdd ClusterKindUnknown 1;
               MessageIncomingBytesAdd ClusterKindUnknown size]
              ++ (if onMessageFnc E
                  then [Println "msg.MsgType---->" t; Go_onMessageFnc f]
                  else [])) s)).
Proof.
  intros Hrun size t decoded. subst size t decoded.
  split; [| split; [| split; [| split]]].
  - intros msg Ht Hd. rewrite (onMessage_running E f s Hrun). cbv zeta.
    rewrite Ht, Hd. simpl N.eqb. cbv iota.
    apply (step_calls_run s [_]).
    change [?a; ?b; ?c] with ([a] ++ [b] ++ [c]).
    eapply emits_seq; [apply emits_call |].
    eapply emits_seq; apply emits_call.
  - intros msg Ht Hd. rewrite (onMessage_running E f s Hrun). cbv zeta.
    rewrite Ht, Hd. simpl N.eqb. cbv iota.
    apply (step_calls_run s [_]).
    change [?a; ?b; ?c; ?d] with ([a] ++ [b] ++ [c] ++ [d]).
    eapply emits_seq; [apply emits_call |].
    eapply emits_seq; [apply emits_call |].
    unfold AddSlotMessage. eapply emits_seq; apply emits_call.
  - intros msg Ht Hd. cbv zeta.
    pose proof (onMessage_channel_frame E f msg s Hrun Ht Hd) as Hon.
    set (s0 := set_calls
                 (calls s ++
                  [IntranetIncomingAdd (proto_Size E f);
                   MessageIncomingCountAdd ClusterKindChannel 1;
                   MessageIncomingBytesAdd ClusterKindChannel (proto_Size E f)]) s)
      in Hon.
    assert (Hcalls : calls s0
                     = calls s ++
                       [IntranetIncomingAdd (proto_Size E f);
                        MessageIncomingCountAdd ClusterKindChannel 1;
                        MessageIncomingBytesAdd ClusterKindChannel (proto_Size E f)])
      by apply set_calls_calls.
    assert (Hmap : channelLoadMap s0 = channelLoadMap s) by by destruct s.
    assert (Hpool : channelLoadPool s0 = channelLoadPool s) by by destruct s.
    assert (Htasks : loadTasks s0 = loadTasks s) by by destruct s.
    split.
    + intros Hmem. rewrite Hon, (AddChannelMessage_in_memory E msg s0 Hmem).
      unfold s0 at 2. rewrite set_calls_twice, Hcalls.
      by rewrite <- !app_assoc.
    + intros Hmem.
      destruct (AddChannelMessage_not_in_memory E msg s0 Hmem)
        as (l & s' & Hrun' & Hnot & Hloading & Hfirst).
      rewrite Hmap in Hloading, Hfirst. rewrite Hpool, Htasks in Hfirst.
      split; [| split].
      * intros m' Hm'.
        rewrite (new_calls_appended (onMessage E f) s s' tt (_ ++ l)) in Hm'
          by (by rewrite Hon, Hrun', Hcalls, <- app_assoc).
        apply elem_of_app in Hm' as [Hm' | Hm']; [| by apply Hnot in Hm'].
        repeat (apply elem_of_cons in Hm' as [Hm' | Hm']; [discriminate Hm' |]).
        by apply elem_of_nil in Hm'.
      * intros Hin. destruct (Hloading Hin) as [-> ->].
        rewrite Hon, Hrun'. unfold s0 at 2. rewrite set_calls_twice, Hcalls.
        by rewrite <- !app_assoc.
      * intros Hout. destruct (Hfirst Hout) as [Hmarked Hqueued].
        eexists. split; [by rewrite Hon, Hrun' |].
        split; [by destruct s' | by destruct s'].
  - intros err Ht Hd. rewrite (onMessage_running E f s Hrun). cbv zeta.
    rewrite Hd.
    repeat (apply elem_of_cons in Ht as [Ht | Ht]);
      try (by apply elem_of_nil in Ht);
      rewrite Ht; simpl N.eqb; cbv iota;
      apply (step_calls_run s [_]); apply emits_call.
  - intros Ht. rewrite (onMessage_running E f s Hrun). cbv zeta.
    assert (H1 : (proto.MsgType f =? MsgTypeConfig)%N = false)
      by (apply N.eqb_neq; intros Heq; apply Ht; rewrite Heq; set_solver).
    assert (H2 : (proto.MsgType f =? MsgTypeSlot)%N = false)
      by (apply N.eqb_neq; intros Heq; apply Ht; rewrite Heq; set_solver).
    assert (H3 : (proto.MsgType f =? MsgTypeChannel)%N = false)
      by (apply N.eqb_neq; intros Heq; apply Ht; rewrite Heq; set_solver).
    rewrite H1, H2, H3.
    apply (step_calls_run s [_]).
    change (?a :: ?b :: ?l) with ([a] ++ [b] ++ l).
    eapply emits_seq; [apply emits_call |].
    eapply emits_seq; [apply emits_call |].
    apply emits_when.
    change [?a; ?b] with ([a] ++ [b]).
    eapply emits_seq; apply emits_call.
Qed.

(** Every operation of the server leaves a set stopped flag set. *)

Lemma emits_stopped {A} (s : Server) (c : M A) a l :
  emits s c a l -> stopped (state_of (c s)) = stopped s.
Proof. intros H. rewrite (emits_run s c a l H). by destruct s. Qed.

Lemma joinLoop_from_emits (s : Server) seed req script :
  exists r l, emits s (joinLoop_from seed req script) r l.
Proof.
  induction script as [| [answer |] script IH].
  - eexists _, _. apply joinLoop_from_blocked.
  - destruct answer as [err | resp].
    + destruct IH as (r & l & IH). eexists _, _.
      apply (joinLoop_from_retries s seed req [err] script r l IH).
    + eexists _, _. apply joinLoop_from_joined.
  - eexists _, _. apply joinLoop_from_stopped.
Qed.

Lemma AddChannelMessage_stopped (E : Env) (m : reactor.Message) (s : Server) :
  stopped (state_of (AddChannelMessage E m s)) = stopped s.
Proof.
  destruct (channelManager_getWithHandleKey E (reactor.HandlerKey m)) eqn:Hch.
  - rewrite (AddChannelMessage_in_memory E m s Hch). by destruct s.
  - destruct (decide (reactor.HandlerKey m ∈ channelLoadMap s)) as [Hin | Hout].
    + rewrite (AddChannelMessage_loading E m s Hch Hin). by destruct s.
    + destruct (pool_full (channelLoadPool s)) eqn:Hfull.
      * rewrite (AddChannelMessage_refused E m s Hch Hout Hfull). by destruct s.
      * destruct (AddChannelMessage_submitted E m s Hch Hout Hfull) as [q ->].
        by destruct s.
Qed.

Lemma loadTask_stopped (E : Env) (m : reactor.Message) (s : Server) :
  stopped (state_of (loadTask E m s)) = stopped s.
Proof.
  destruct (decide (fst (ChannelFromlKey E (reactor.HandlerKey m)) = "")) as [He | Hne].
  - rewrite (loadTask_empty_channelId E m s He). by destruct s.
  - destruct (loadTask_clears_mark E m s Hne) as (l & -> & _). by destruct s.
Qed.

Lemma worker_run_stopped (E : Env) (p : PoolId) (task : M unit) (s : Server) :
  stopped (state_of (task s)) = stopped s ->
  stopped (process_state (worker_run E p task s)) = stopped s.
Proof.
  unfold worker_run. destruct (task s) as [[] s' | v s']; simpl; intros <-.
  - by destruct p, s'.
  - unfold PanicHandler, channelElectionPool_PanicHandler,
      channelLoadPool_PanicHandler, assert_error, Panic, panic, mbind, M_bind,
      call, modify.
    by destruct p, v, s'.
Qed.

Lemma run_op_stopped (E : Env) (op : Op) (s : Server) :
  stopped s = true -> stopped (run_op E op s) = true.
Proof.
  intros H. destruct op; cbn [run_op].
  - rewrite (emits_run _ _ _ _ (Start_emits E s)). by destruct s.
  - rewrite Stop_trace. by destruct s.
  - unfold AddSlotMessage, mbind, M_bind, call, modify. by destruct s.
  - unfold AddConfigMessage, call, modify. by destruct s.
  - by rewrite AddChannelMessage_stopped.
  - by rewrite send_stopped.
  - unfold onSend. by rewrite send_stopped.
  - by rewrite onMessage_stopped.
  - unfold channelLoadPool_run. destruct (loadTasks s) as [| m rest] eqn:Ht; [done |].
    rewrite worker_run_stopped; rewrite ?loadTask_stopped; by destruct s.
  - destruct (joinLoop_from_emits s (seedNodeId_of (Seed (opts s)))
                (joinReq (opts s)) script) as (r & l & Hl).
    rewrite (joinLoop_emits s script r l Hl). by destruct s.
Qed.

Lemma run_ops_stopped (E : Env) (ops : list Op) (s : Server) :
  stopped s = true -> stopped (run_ops E ops s) = true.
Proof.
  revert s. induction ops as [| op ops IH]; intros s H; [done |].
  simpl. apply IH. by apply run_op_stopped.
Qed.

(** C10: Stop sets the stopped flag before anything else; once the flag
    is set it stays set whatever the server does next, and from then on
    send returns without a metric, a node lookup or a transmission, and
    onMessage returns without counting, decoding or dispatching: neither
    changes the server or adds a call. *)
Theorem stopped_server_is_silent (E : Env) (s0 s : Server) (ops : list Op)
  (shardType : N) (m : reactor.Message) (f : proto.Message) :
  stopped s = true ->
  (exists s1,
     (Stop s0 = Return tt s1) /\ (stopped s1 = true) /\
     (head (new_calls Stop s0) = Some (Stopped_Store true)))
  /\ (let s' := run_ops E ops s in
      (stopped s' = true) /\
      (send E shardType m s' = Return tt s') /\
      (onMessage E f s' = Return tt s')).
Proof.
  intros H. split.
  - eexists. split; [apply Stop_trace |]. split; [by destruct s0 |].
    unfold new_calls. rewrite Stop_trace. destruct s0; simpl.
    by rewrite drop_app_length.
  - cbv zeta. pose proof (run_ops_stopped E ops s H) as H'.
    split; [done |]. split; [by apply send_stopped | by apply onMessage_stopped].
Qed.

(** C5, as stated, fails twice on node 4. After Stop, a Config frame
    that decodes is not fed to the ClusterEventServer. And while node 4
    runs, a Channel frame that decodes, for a channel that has no
    replica in memory, is not fed to the ChannelManager: its message is
    dropped and a load of room-42 is queued instead. *)
Lemma onMessage_not_always_dispatched :
  ~ config_frame_is_fed Sample.env_ok (Sample.frame MsgTypeConfig)
      (state_of (Stop Sample.server4))
  /\ ~ channel_frame_is_fed Sample.env_ok (Sample.frame MsgTypeChannel)
         Sample.server4.
Proof.
  split.
  - unfold config_frame_is_fed. intros H.
    specialize (H (reactor.mkMessage 7 "room-42" 2 1 [1; 2; 3]%N) eq_refl eq_refl).
    rewrite onMessage_stopped in H by reflexivity.
    vm_compute in H.
    repeat (apply elem_of_cons in H as [H | H]; [discriminate H |]).
    by apply elem_of_nil in H.
  - unfold channel_frame_is_fed. intros H.
    specialize (H (reactor.mkMessage 7 "room-42" 2 1 [1; 2; 3]%N) eq_refl eq_refl).
    vm_compute in H.
    repeat (apply elem_of_cons in H as [H | H]; [discriminate H |]).
    by apply elem_of_nil in H.
Qed.

(** The same frame on the running node is fed. *)
Lemma onMessage_running_feeds_config :
  config_frame_is_fed Sample.env_ok (Sample.frame MsgTypeConfig) Sample.server4.
Proof.
  intros msg _ Hd. injection Hd as <-. vm_compute. set_solver.
Qed.

End DispatchFacts.

(* ===================================================================== *)
(** ** The load pool when it is full; panics in the pools; New *)
(* ===================================================================== *)

Module PoolFacts.
Import Cluster Sequence Life Seeding Trace Emits MessageFacts.
Local Open Scope list_scope.

(** C2 on the code: node 4 with its one load worker busy receives the
    first message for room-42. Submit is refused with ErrPoolOverload,
    which is only logged; the key stays marked as loading with no task
    queued that would clear it, and the next message for the key is
    dropped. *)
Theorem AddChannelMessage_saturated_pool_keeps_mark :
  let s1 := state_of (AddChannelMessage Sample.env_ok Sample.msg42 Sample.server4_busy) in
  AddChannelMessage Sample.env_ok Sample.msg42 Sample.server4_busy = Return tt s1
  /\ "room-42" ∈ channelLoadMap s1
  /\ loadTasks s1 = []
  /\ channelLoadPool_run Sample.env_ok s1 = None
  /\ Log ErrorLevel "channelLoadPool.Submit failed" [zap_Error ErrPoolOverload]
     ∈ calls s1
  /\ AddChannelMessage Sample.env_ok Sample.msg42 s1
     = Return tt (set_calls (calls s1 ++ [incoming Sample.env_ok Sample.msg42]) s1).
Proof.
  assert (Hout : reactor.HandlerKey Sample.msg42 ∉ channelLoadMap Sample.server4_busy)
    by (simpl; set_solver).
  pose proof (AddChannelMessage_refused Sample.env_ok Sample.msg42
                Sample.server4_busy eq_refl Hout eq_refl) as Hrefused.
  cbv zeta. rewrite Hrefused. cbn [state_of].
  split; [reflexivity |].
  split; [simpl; set_solver |].
  split; [reflexivity |].
  split; [reflexivity |].
  split; [simpl; set_solver |].
  apply AddChannelMessage_loading; [reflexivity | simpl; set_solver].
Qed.

(** While the key is marked and no replica appears, every further
    message for it is dropped, however many arrive. *)
Lemma marked_key_drops_all (E : Env) (m : reactor.Message) (n : nat) (s : Server) :
  channelManager_getWithHandleKey E (reactor.HandlerKey m) = false ->
  reactor.HandlerKey m ∈ channelLoadMap s ->
  run_ops E (repeat (OpAddChannelMessage m) n) s
  = set_calls (calls s ++ repeat (incoming E m) n) s.
Proof.
  intros Hch. revert s. induction n as [| n IH]; intros s Hin.
  - simpl. rewrite app_nil_r. by destruct s.
  - cbn [repeat run_ops fold_left run_op].
    rewrite (AddChannelMessage_loading E m s Hch Hin). cbn [state_of].
    change (fold_left _ ?l ?x) with (run_ops E l x).
    rewrite IH by (by destruct s).
    destruct s; simpl. by rewrite <- app_assoc.
Qed.

Lemma PanicHandler_error (E : Env) (p : PoolId) (e : error) (s : Server) :
  PanicHandler E p (ErrorValue e) s
  = Panicking (OtherValue (handler_message p))
      (set_calls
         (calls s ++ [Log PanicLevel (handler_message p)
                        [zap_Error e; zap_String "stack" (debug_Stack E)]]) s).
Proof. by destruct p, s. Qed.

Lemma PanicHandler_other (E : Env) (p : PoolId) (v : string) (s : Server) :
  PanicHandler E p (OtherValue v) s
  = Panicking
      (ErrorValue (runtime_Error "interface conversion: interface {} is not error"))
      s.
Proof. by destruct p. Qed.

(** A task that panics with an error value: the worker retires, the
    handler logs and panics. *)
Lemma worker_run_error_panic (E : Env) (p : PoolId) (task : M unit)
  (s s1 : Server) (e : error) :
  task s = Panicking (ErrorValue e) s1 ->
  worker_run E p task s
  = Crashed (OtherValue (handler_message p))
      (set_calls
         (calls s1 ++ [Log PanicLevel (handler_message p)
                         [zap_Error e; zap_String "stack" (debug_Stack E)]])
         (set_pool p
            (mkPool (pool_cap (get_pool p s1)) (pool_running (get_pool p s1) - 1)
               (pool_idle (get_pool p s1))) s1)).
Proof.
  intros Htask. unfold worker_run. rewrite Htask, PanicHandler_error.
  by destruct p, s1.
Qed.

(** C1, as amended: a panic with an error value in a task of either pool
    is recovered by the worker, which retires, and handed to the pool's
    handler; the handler logs the error and the stack at panic level, and
    that log call panics in turn, with nobody left to recover it: the
    process terminates, for the load pool as for the election pool. *)
Theorem pool_panic_is_logged_and_fatal (E : Env) (p : PoolId) (task : M unit)
  (s s1 : Server) (e : error) :
  task s = Panicking (ErrorValue e) s1 ->
  worker_run E p task s
  = Crashed (OtherValue (handler_message p))
      (set_calls
         (calls s1 ++ [Log PanicLevel (handler_message p)
                         [zap_Error e; zap_String "stack" (debug_Stack E)]])
         (set_pool p
            (mkPool (pool_cap (get_pool p s1)) (pool_running (get_pool p s1) - 1)
               (pool_idle (get_pool p s1))) s1))
  /\ Log PanicLevel (handler_message p)
       [zap_Error e; zap_String "stack" (debug_Stack E)]
     ∈ calls (process_state (worker_run E p task s))
  /\ (forall s', worker_run E p task s <> Alive s').
Proof.
  intros Htask. rewrite (worker_run_error_panic E p task s s1 e Htask).
  split; [reflexivity |]. split; [| discriminate].
  destruct p, s1; simpl; apply elem_of_app; right; by left.
Qed.

(** A panic with a value that is no error does not even reach the log:
    the handler's own type assertion panics. *)
Lemma pool_panic_other_value (E : Env) (p : PoolId) (task : M unit)
  (s s1 : Server) (v : string) :
  task s = Panicking (OtherValue v) s1 ->
  worker_run E p task s
  = Crashed
      (ErrorValue (runtime_Error "interface conversion: interface {} is not error"))
      (set_pool p
         (mkPool (pool_cap (get_pool p s1)) (pool_running (get_pool p s1) - 1)
            (pool_idle (get_pool p s1))) s1).
Proof.
  intros Htask. unfold worker_run. by rewrite Htask, PanicHandler_other.
Qed.

(** No panic of a pool task leaves the process alive. *)
Lemma pool_panic_never_survives (E : Env) (p : PoolId) (task : M unit)
  (s s1 : Server) (v : PanicValue) :
  task s = Panicking v s1 -> forall s', worker_run E p task s <> Alive s'.
Proof.
  intros Htask s'. destruct v as [e | v].
  - by rewrite (worker_run_error_panic E p task s s1 e Htask).
  - by rewrite (pool_panic_other_value E p task s s1 v Htask).
Qed.

(** C1, as stated, fails: on node 4 a load task that panics with an
    error is logged with its stack, and the process terminates. *)
Lemma channelLoadPool_panic_terminates :
  ~ panic_is_contained Sample.env_ok LoadPool
      (ErrorValue (errors_New "boom")) Sample.server4_busy.
Proof.
  intros (s' & Halive & _).
  by rewrite (worker_run_error_panic Sample.env_ok LoadPool
                (panic (ErrorValue (errors_New "boom")))
                Sample.server4_busy Sample.server4_busy (errors_New "boom") eq_refl)
    in Halive.
Qed.

End PoolFacts.

Module NewFacts.
Import Cluster Sequence Life Seeding Trace Emits.
Local Open Scope list_scope.

(** A panic ends the computation it occurs in. *)
Lemma bind_panicking {A B} (c : M A) (k : A -> M B) (s s' : Server) v :
  c s = Panicking v s' -> (c ≫= k) s = Panicking v s'.
Proof. intros H. unfold mbind, M_bind. by rewrite H. Qed.

Lemma bind_return {A B} (c : M A) (k : A -> M B) (s s' : Server) a :
  c s = Return a s' -> (c ≫= k) s = k a s'.
Proof. intros H. unfold mbind, M_bind. by rewrite H. Qed.

Ltac run_New :=
  unfold New, New_body, Server_literal, when, Panic, panic, map_assign,
    map_len, call, modify, get, mbind, M_bind, mret, M_ret;
  cbn [opts heap slotStorage stopped channelLoadMap channelElectionPool
       channelLoadPool loadTasks calls set_opts set_heap set_slotStorage
       set_stopped set_channelLoadMap set_channelElectionPool
       set_channelLoadPool set_loadTasks set_calls
       NodeId Addr ServerAddr Role Seed InitNodes DataDir SlotLogStorage
       ChannelElectionPoolSize ChannelLoadPoolSize set_SlotLogStorage].

Lemma New_nil_panics (E : Env) (h : gmap positive (gmap N string)) (o : Options) :
  InitNodes o = None -> exists v s, New E h o = Panicking v s.
Proof.
  intros Hnil. run_New. rewrite Hnil.
  destruct (SlotLogStorage o);
    destruct (snowflake_NewNode E (to_int64 (NodeId o)));
    cbn [size]; try (by eexists _, _);
    cbn [Nat.eqb];
    destruct (String.eqb (GoStr.TrimSpace (Seed o)) "");
    try (by eexists _, _);
    destruct (seedNode (Seed o)) as [err | [id addr]]; by eexists _, _.
Qed.

Lemma New_nil_map_assignment (E : Env) (h : gmap positive (gmap N string))
  (o : Options) :
  InitNodes o = None ->
  snowflake_NewNode E (to_int64 (NodeId o)) = None ->
  GoStr.TrimSpace (Seed o) = "" \/ (exists id addr, seedNode (Seed o) = inr (id, addr)) ->
  exists s, New E h o = Panicking nil_map_panic s.
Proof.
  intros Hnil Hsnow Hseed. run_New. rewrite Hnil, Hsnow.
  destruct Hseed as [Hblank | (id & addr & Hparse)].
  - rewrite Hblank. destruct (SlotLogStorage o); by eexists.
  - rewrite Hparse.
    destruct (SlotLogStorage o);
      destruct (String.eqb (GoStr.TrimSpace (Seed o)) ""); by eexists.
Qed.

Lemma New_returns_seeded (E : Env) (h : gmap positive (gmap N string))
  (o : Options) (s : Server) :
  New E h o = Return tt s ->
  map_len (InitNodes o) (Server_literal h o) = 0 ->
  exists r,
    InitNodes o = Some r /\
    InitNodes (opts s) = Some r /\
    heap s !! r = Some (seeded_InitNodes o) /\
    heap s !! r <> h !! r.
Proof.
  intros Hret Hlen.
  destruct (InitNodes o) as [r |] eqn:Hinit; cycle 1.
  { destruct (New_nil_panics E h o Hinit) as (v & s' & Hp). congruence. }
  exists r. split; [done |].
  assert (Hempty : default ∅ (h !! r) = (∅ : gmap N string)).
  { unfold map_len in Hlen. simpl in Hlen. by apply map_size_empty_inv in Hlen. }
  revert Hret. unfold seeded_InitNodes, seed_entry. run_New.
  rewrite Hinit.
  destruct (SlotLogStorage o) eqn:Hsl;
    destruct (snowflake_NewNode E (to_int64 (NodeId o)));
    cbn [heap set_calls set_opts set_slotStorage calls opts];
    try discriminate;
    rewrite Hempty, map_size_empty; cbn [Nat.eqb];
    destruct (String.eqb (GoStr.TrimSpace (Seed o)) "");
    try destruct (seedNode (Seed o)) as [err | [id addr]];
    try discriminate;
    cbn [heap set_heap set_calls];
    rewrite ?lookup_insert_eq, ?Hempty, ?insert_insert_eq;
    cbn [default];
    destruct (ants_NewPool E ElectionPool); try discriminate;
    destruct (ants_NewPool E LoadPool); try discriminate;
    intros Hret; injection Hret as <-;
    cbn [heap opts set_heap set_calls set_channelElectionPool set_channelLoadPool
         InitNodes set_SlotLogStorage].
  all: split; [by (simpl; rewrite ?Hinit) |].
  all: rewrite ?lookup_insert_eq, ?Hempty.
  all: split; [by rewrite ?insert_empty |].
  all: intros Heq; rewrite <- Heq in Hempty; simpl in Hempty.
  all: by apply insert_non_empty in Hempty.
Qed.

(** C9: with a nil InitNodes New never returns: it panics, and when the
    id generator is created and Seed is blank or well formed the panic is
    the assignment to an entry of the nil map. When New does return after
    it found InitNodes empty, the map was the caller's own, not nil, and
    New has written into it: this node's address (tcp:// removed) and,
    with a Seed, the seed node's. *)
Theorem New_writes_into_InitNodes (E : Env) (h : gmap positive (gmap N string))
  (o : Options) :
  (InitNodes o = None ->
   (exists v s, New E h o = Panicking v s) /\
   (snowflake_NewNode E (to_int64 (NodeId o)) = None ->
    GoStr.TrimSpace (Seed o) = "" \/
      (exists id addr, seedNode (Seed o) = inr (id, addr)) ->
    exists s,
      New E h o
      = Panicking (ErrorValue (runtime_Error "assignment to entry in nil map")) s))
  /\ (forall s,
        New E h o = Return tt s ->
        map_len (InitNodes o) (Server_literal h o) = 0 ->
        exists r,
          InitNodes o = Some r /\
          InitNodes (opts s) = Some r /\
          heap s !! r = Some (seeded_InitNodes o) /\
          heap s !! r <> h !! r).
Proof.
  split.
  - intros Hnil. split; [exact (New_nil_panics E h o Hnil) |].
    intros Hsnow Hseed. exact (New_nil_map_assignment E h o Hnil Hsnow Hseed).
  - intros s Hret Hlen. exact (New_returns_seeded E h o s Hret Hlen).
Qed.

End NewFacts.

(* ===================================================================== *)
(** ** The theorems at work on node 4 *)
(* ===================================================================== *)

Module Witnesses.
Import Cluster Sequence Life Seeding Trace Scenario.
Local Open Scope list_scope.

Lemma New_writes_into_InitNodes_witness :
  InitNodes opts_nil = None
  /\ (exists v s, New Sample.env_ok ∅ opts_nil = Panicking v s)
  /\ (exists s,
        New Sample.env_ok ∅ opts_nil
        = Panicking (ErrorValue (runtime_Error "assignment to entry in nil map")) s)
  /\ (forall s,
        New Sample.env_ok heap_empty Sample.opts4 = Return tt s ->
        heap s !! 1%positive
        = Some (<[4%N := "h4:11110"]> {[ 1%N := "h1:11110" ]})).
Proof.
  split; [reflexivity |].
  destruct (NewFacts.New_writes_into_InitNodes Sample.env_ok ∅ opts_nil)
    as [Hnil _].
  destruct (Hnil eq_refl) as [Hpanics Hassign].
  split; [exact Hpanics |].
  split.
  - apply Hassign; [reflexivity |].
    right. exists 1%N, "h1:11110". vm_compute. reflexivity.
  - intros s Hret.
    destruct (NewFacts.New_writes_into_InitNodes Sample.env_ok heap_empty
                Sample.opts4) as [_ Hseeded].
    destruct (Hseeded s Hret eq_refl) as (r & Hr & _ & Hheap & _).
    injection Hr as <-. rewrite Hheap. reflexivity.
Defined.

Lemma pool_panic_is_logged_and_fatal_witness :
  panic (ErrorValue (errors_New "boom")) Sample.server4_busy
  = Panicking (A := unit) (ErrorValue (errors_New "boom")) Sample.server4_busy
  /\ worker_run Sample.env_ok LoadPool (panic (ErrorValue (errors_New "boom")))
       Sample.server4_busy
     = Crashed (OtherValue (handler_message LoadPool))
         (set_calls
            [Log PanicLevel (handler_message LoadPool)
               [zap_Error (errors_New "boom");
                zap_String "stack" "goroutine 7 [running]"]]
            (set_channelLoadPool (mkPool 1 0 0) Sample.server4_busy)).
Proof.
  split; [reflexivity |].
  apply (proj1 (PoolFacts.pool_panic_is_logged_and_fatal Sample.env_ok LoadPool
                  (panic (ErrorValue (errors_New "boom")))
                  Sample.server4_busy Sample.server4_busy (errors_New "boom")
                  eq_refl)).
Defined.

Lemma onMessage_dispatches_witness :
  stopped Sample.server4 = false
  /\ onMessage Sample.env_ok (Sample.frame MsgTypeConfig) Sample.server4
     = Return tt
         (set_calls
            [IntranetIncomingAdd 3;
             MessageIncomingCountAdd ClusterKindConfig 1;
             MessageIncomingBytesAdd ClusterKindConfig 3;
             ClusterEventServer_AddMessage
               (reactor.mkMessage 7 "room-42" 2 1 [1; 2; 3]%N)]
            Sample.server4)
  /\ onMessage Sample.env_loaded (Sample.frame MsgTypeChannel) Sample.server4
     = Return tt
         (set_calls
            [IntranetIncomingAdd 3;
             MessageIncomingCountAdd ClusterKindChannel 1;
             MessageIncomingBytesAdd ClusterKindChannel 3;
             TraceIncomingMessage ClusterKindChannel 7 3;
             ChannelManager_addMessage
               (reactor.mkMessage 7 "room-42" 2 1 [1; 2; 3]%N)]
            Sample.server4)
  /\ (forall m',
        ChannelManager_addMessage m'
        ∉ new_calls (onMessage Sample.env_ok (Sample.frame MsgTypeChannel))
            Sample.server4).
Proof.
  split; [reflexivity |].
  split.
  - apply (proj1 (DispatchFacts.onMessage_dispatches Sample.env_ok
                    (Sample.frame MsgTypeConfig) Sample.server4 eq_refl)
             (reactor.mkMessage 7 "room-42" 2 1 [1; 2; 3]%N) eq_refl eq_refl).
  - destruct (DispatchFacts.onMessage_dispatches Sample.env_loaded
                (Sample.frame MsgTypeChannel) Sample.server4 eq_refl)
      as (_ & _ & Hloaded & _).
    destruct (DispatchFacts.onMessage_dispatches Sample.env_ok
                (Sample.frame MsgTypeChannel) Sample.server4 eq_refl)
      as (_ & _ & Habsent & _).
    split.
    + exact (proj1 (Hloaded (reactor.mkMessage 7 "room-42" 2 1 [1; 2; 3]%N)
                      eq_refl eq_refl) eq_refl).
    + exact (proj1 (proj2 (Habsent (reactor.mkMessage 7 "room-42" 2 1 [1; 2; 3]%N)
                             eq_refl eq_refl) eq_refl)).
Defined.

Lemma joinLoop_joins_or_stops_witness :
  join_needed Sample.env_ok Sample.server4 = true
  /\ snd (run_plan (Start_plan Sample.env_ok Sample.server4)) = None
  /\ joinLoop [TimerFired (inl join_error); TimerFired (inr join_resp)]
       Sample.server4
     = Return Exited
         (set_calls
            [Time_After 2000000000;
             RequestClusterJoin 1 (mkJoinReq 4 "h4:11110" "replica");
             Log ErrorLevel "requestClusterJoin failed" [zap_Error join_error];
             Time_After 2000000000;
             RequestClusterJoin 1 (mkJoinReq 4 "h4:11110" "replica");
             AddOrUpdateNode 1 "h1:11110"; AddOrUpdateNode 2 "h2:11110";
             AddOrUpdateNode 3 "h3:11110";
             ClusterEventServer_SetIsPrepared true]
            Sample.server4).
Proof.
  assert (Hjoin : join_needed Sample.env_ok Sample.server4 = true)
    by (vm_compute; reflexivity).
  assert (Hok : snd (run_plan (Start_plan Sample.env_ok Sample.server4)) = None)
    by reflexivity.
  split; [exact Hjoin |]. split; [exact Hok |].
  destruct (LifecycleFacts.joinLoop_joins_or_stops Sample.env_ok Sample.server4
              [join_error] Hjoin Hok) as (_ & Hjoined & _).
  etransitivity; [exact (Hjoined join_resp []) |].
  vm_compute. reflexivity.
Defined.

Lemma AddChannelMessage_replica_or_loading_witness :
  channelManager_getWithHandleKey Sample.env_loaded "room-42" = true
  /\ AddChannelMessage Sample.env_loaded Sample.msg42 Sample.server4
     = Return tt
         (set_calls
            [TraceIncomingMessage ClusterKindChannel 7 3;
             ChannelManager_addMessage Sample.msg42] Sample.server4)
  /\ channelManager_getWithHandleKey Sample.env_ok "room-42" = false
  /\ "room-42" ∈ channelLoadMap server4_marked
  /\ AddChannelMessage Sample.env_ok Sample.msg42 server4_marked
     = Return tt
         (set_calls [TraceIncomingMessage ClusterKindChannel 7 3] server4_marked).
Proof.
  assert (Hin : "room-42" ∈ channelLoadMap server4_marked)
    by (vm_compute; reflexivity).
  split; [reflexivity |].
  split.
  - apply (proj1 (MessageFacts.AddChannelMessage_replica_or_loading
                    Sample.env_loaded Sample.msg42 Sample.server4) eq_refl).
  - split; [reflexivity |]. split; [exact Hin |].
    apply (proj2 (MessageFacts.AddChannelMessage_replica_or_loading
                    Sample.env_ok Sample.msg42 server4_marked) eq_refl Hin).
Defined.

Lemma stopped_server_is_silent_witness :
  stopped server4_stopped = true
  /\ send Sample.env_ok 1 Sample.msg42
       (run_ops Sample.env_ok
          [OpAddChannelMessage Sample.msg42; OpOnMessage (Sample.frame 2)]
          server4_stopped)
     = Return tt
         (run_ops Sample.env_ok
            [OpAddChannelMessage Sample.msg42; OpOnMessage (Sample.frame 2)]
            server4_stopped).
Proof.
  split; [reflexivity |].
  destruct (DispatchFacts.stopped_server_is_silent Sample.env_ok Sample.server4
              server4_stopped
              [OpAddChannelMessage Sample.msg42; OpOnMessage (Sample.frame 2)]
              1%N Sample.msg42 (Sample.frame 3) eq_refl) as (_ & _ & Hsend & _).
  exact Hsend.
Defined.

End Witnesses.

(* ===================================================================== *)
(** ** Facts about the string functions *)
(* ===================================================================== *)

Module GoStrFacts.
Import GoStr GoStrMore.
Local Open Scope list_scope.

Lemma prefix_char (c x : ascii) (rest : string) :
  String.prefix (String c EmptyString) (String x rest) = Ascii.eqb x c.
Proof.
  simpl. destruct (ascii_dec c x) as [-> | Hne].
  - rewrite Ascii.eqb_refl. by destruct rest.
  - symmetry. apply Ascii.eqb_neq. congruence.
Qed.

Lemma Contains_char_cons (c x : ascii) (rest : string) :
  Contains (String x rest) (String c EmptyString)
  = Ascii.eqb x c || Contains rest (String c EmptyString).
Proof. cbn [Contains]. by rewrite prefix_char. Qed.

Lemma Contains_char_nil (c : ascii) : Contains EmptyString (String c EmptyString) = false.
Proof. reflexivity. Qed.

Lemma Contains_char_app (c : ascii) (a b : string) :
  Contains (a ++ b)%string (String c EmptyString)
  = Contains a (String c EmptyString) || Contains b (String c EmptyString).
Proof.
  induction a as [| x a IH]; [done |].
  change (String x a ++ b)%string with (String x (a ++ b)%string).
  rewrite !Contains_char_cons, IH. by rewrite orb_assoc.
Qed.

Lemma Split_nonempty (s : string) (c : ascii) : Split s c <> [].
Proof.
  destruct s as [| x s]; simpl; [done |].
  destruct (Ascii.eqb x c); [done |]. by destruct (Split s c).
Qed.

Lemma Split_without (s : string) (c : ascii) :
  Contains s (String c EmptyString) = false -> Split s c = [s].
Proof.
  induction s as [| x s IH]; [done |].
  rewrite Contains_char_cons. intros [Hx Hs]%orb_false_elim.
  simpl. rewrite Hx, (IH Hs). reflexivity.
Qed.

Lemma Split_app (a rest : string) (c : ascii) :
  Contains a (String c EmptyString) = false ->
  Split (a ++ String c rest)%string c = a :: Split rest c.
Proof.
  induction a as [| x a IH].
  - intros _. simpl. by rewrite Ascii.eqb_refl.
  - rewrite Contains_char_cons. intros [Hx Ha]%orb_false_elim.
    change (String x a ++ String c rest)%string
      with (String x (a ++ String c rest)%string).
    cbn [Split]. rewrite Hx, (IH Ha). reflexivity.
Qed.

Lemma Contains_split (s : string) (c : ascii) :
  Contains s (String c EmptyString) = true ->
  exists a rest,
    s = (a ++ String c rest)%string /\ Contains a (String c EmptyString) = false.
Proof.
  induction s as [| x s IH]; [done |].
  rewrite Contains_char_cons.
  destruct (Ascii.eqb_spec x c) as [-> | Hne].
  - intros _. by exists EmptyString, s.
  - simpl. intros (a & rest & -> & Ha)%IH.
    exists (String x a), rest. split; [done |].
    rewrite Contains_char_cons, Ha.
    by destruct (Ascii.eqb_spec x c).
Qed.

Lemma Split_pieces_without (s : string) (c : ascii) :
  Forall (fun p => Contains p (String c EmptyString) = false) (Split s c).
Proof.
  induction s as [| x s IH]; [by repeat constructor |].
  simpl. destruct (Ascii.eqb_spec x c) as [-> | Hne].
  - by constructor.
  - destruct (Split s c) as [| p ps] eqn:Hs.
    { constructor; [| constructor].
      rewrite Contains_char_cons. by destruct (Ascii.eqb_spec x c). }
    inversion IH as [| ? ? Hp Hps]; subst. constructor; [| done].
    rewrite Contains_char_cons, Hp. by destruct (Ascii.eqb_spec x c).
Qed.

Lemma join_Split (s : string) (c : ascii) : join (Split s c) c = s.
Proof.
  induction s as [| x s IH]; [done |].
  simpl. destruct (Ascii.eqb_spec x c) as [-> | Hne].
  - pose proof (Split_nonempty s c). cbn [join].
    destruct (Split s c) as [| p ps] eqn:Hs; [done |]. by rewrite IH.
  - pose proof (Split_nonempty s c).
    destruct (Split s c) as [| p ps] eqn:Hs; [done |].
    destruct ps as [| q ps]; simpl in *; by rewrite <- IH.
Qed.

(** *** Decimal numbers *)

Lemma parse_digits_step (c : ascii) (k acc : N) (s : string) :
  digit_of c = Some k ->
  parse_digits acc (String c s) = parse_digits (acc * 10 + k) s.
Proof. intros H. cbn [parse_digits]. by rewrite H. Qed.

Lemma parse_digits_uint_pos (d : Decimal.uint) (p : positive) :
  parse_digits (Npos p) (NilEmpty.string_of_uint d)
  = Some (Npos (Pos.of_uint_acc d p)).
Proof.
  revert p. induction d; intros p;
    cbn [NilEmpty.string_of_uint Pos.of_uint_acc]; [done | ..];
    erewrite parse_digits_step by reflexivity; rewrite <- IHd; f_equal;
    match goal with
    | |- context [(N_of_ascii ?c - 48)%N] =>
        let v := eval vm_compute in (N_of_ascii c - 48)%N in
        change (N_of_ascii c - 48)%N with v
    end; lia.
Qed.

Lemma parse_digits_uint_zero (d : Decimal.uint) :
  parse_digits 0 (NilEmpty.string_of_uint d) = Some (N.of_uint d).
Proof.
  induction d; cbn [NilEmpty.string_of_uint]; [done | ..];
    erewrite parse_digits_step by reflexivity;
    [exact IHd | unfold N.of_uint; cbn [Pos.of_uint];
                 rewrite <- parse_digits_uint_pos; f_equal ..].
Qed.

Lemma string_of_uint_not_empty (n : N) : FormatUint n <> EmptyString.
Proof.
  unfold FormatUint, NilZero.string_of_uint.
  destruct (N.to_uint n) eqn:Hn; done.
Qed.

Lemma digit_of_bound (c : ascii) (d : N) : digit_of c = Some d -> (d <= 9)%N.
Proof.
  unfold digit_of.
  destruct (N.leb_spec 48 (N_of_ascii c)), (N.leb_spec (N_of_ascii c) 57);
    cbn [andb]; try done.
  intros [= <-]. lia.
Qed.

Lemma parse_digits_grows (s : string) (acc v : N) :
  parse_digits acc s = Some v -> (acc <= v)%N.
Proof.
  revert acc. induction s as [| c s IH]; intros acc; cbn [parse_digits].
  - intros [= <-]. lia.
  - destruct (digit_of c) as [d |]; [| done].
    intros H. apply IH in H. lia.
Qed.

Lemma maxUint64_value : maxUint64 = 18446744073709551615%N.
Proof. reflexivity. Qed.

Lemma cutoff_value : cutoff = 1844674407370955162%N.
Proof. reflexivity. Qed.

Lemma pow64_value : (2 ^ 64 = 18446744073709551616)%N.
Proof. reflexivity. Qed.

(** One round of the loop of ParseUint: it goes on exactly when the
    number read so far stays below 2^64, and then with that number. *)
Lemma ParseUint_loop_step (c : ascii) (d n : N) (rest : string) :
  digit_of c = Some d -> (n < 2 ^ 64)%N ->
  ParseUint_loop n (String c rest)
  = if (n * 10 + d <? 2 ^ 64)%N then ParseUint_loop (n * 10 + d) rest
    else inl ErrRange.
Proof.
  intros Hc Hn. cbn [ParseUint_loop]. rewrite Hc.
  pose proof (digit_of_bound c d Hc) as Hd.
  rewrite cutoff_value, maxUint64_value, pow64_value in *.
  destruct (N.leb_spec 1844674407370955162 n) as [Hcut | Hcut].
  - destruct (N.ltb_spec (n * 10 + d) 18446744073709551616); [lia | done].
  - cbv zeta. rewrite (N.mod_small (n * 10)) by lia.
    destruct (N.ltb_spec (n * 10 + d) 18446744073709551616) as [Hfit | Hover].
    + rewrite (N.mod_small (n * 10 + d)) by lia.
      destruct (N.ltb_spec (n * 10 + d) (n * 10)); [lia |].
      by destruct (N.ltb_spec 18446744073709551615 (n * 10 + d)); [lia |].
    + assert (Hwrap : ((n * 10 + d) mod 18446744073709551616
                       = n * 10 + d - 18446744073709551616)%N).
      { symmetry. apply (N.mod_unique _ _ 1); lia. }
      rewrite Hwrap.
      by destruct (N.ltb_spec (n * 10 + d - 18446744073709551616) (n * 10));
        [| lia].
Qed.

(** The loop returns the number the digits denote when that number is
    below 2^64, and nothing else. *)
Lemma ParseUint_loop_value (s : string) (n v : N) :
  (n < 2 ^ 64)%N ->
  ParseUint_loop n s = inr v <-> parse_digits n s = Some v /\ (v < 2 ^ 64)%N.
Proof.
  revert n. induction s as [| c s IH]; intros n Hn.
  - cbn [ParseUint_loop parse_digits]. split.
    + by intros [= <-].
    + by intros [[= <-] _].
  - destruct (digit_of c) as [d |] eqn:Hc.
    + rewrite (ParseUint_loop_step c d n s Hc Hn). cbn [parse_digits]. rewrite Hc.
      destruct (N.ltb_spec (n * 10 + d) (2 ^ 64)) as [Hfit | Hover].
      * by apply IH.
      * split; [done |]. intros [Hv Hlt]. apply parse_digits_grows in Hv. lia.
    + cbn [ParseUint_loop parse_digits]. rewrite Hc. split; [done | by intros [? _]].
Qed.

Lemma ParseUint_value (s : string) (v : N) :
  ParseUint s = inr v
  <-> s <> EmptyString /\ parse_digits 0 s = Some v /\ (v < 2 ^ 64)%N.
Proof.
  unfold ParseUint. destruct s as [| c s].
  - split; [done | by intros [? _]].
  - rewrite (ParseUint_loop_value (String c s) 0 v) by done.
    split; [by intros [? ?] | by intros (_ & ? & ?)].
Qed.

(** ParseUint reads back what Sprintf("%d") prints, for every 64-bit
    value. *)
Lemma ParseUint_FormatUint (n : N) :
  (n < 2 ^ 64)%N -> ParseUint (FormatUint n) = inr n.
Proof.
  intros Hn. apply ParseUint_value.
  split; [apply string_of_uint_not_empty |]. split; [| done].
  unfold FormatUint, NilZero.string_of_uint.
  destruct (N.to_uint n) eqn:Hd.
  - exfalso. destruct n as [| p]; [done |].
    simpl in Hd. pose proof (DecimalPos.Unsigned.to_uint_nonnil p). congruence.
  - rewrite <- Hd, parse_digits_uint_zero. by rewrite DecimalN.Unsigned.of_to.
  - rewrite <- Hd, parse_digits_uint_zero. by rewrite DecimalN.Unsigned.of_to.
  - rewrite <- Hd, parse_digits_uint_zero. by rewrite DecimalN.Unsigned.of_to.
  - rewrite <- Hd, parse_digits_uint_zero. by rewrite DecimalN.Unsigned.of_to.
  - rewrite <- Hd, parse_digits_uint_zero. by rewrite DecimalN.Unsigned.of_to.
  - rewrite <- Hd, parse_digits_uint_zero. by rewrite DecimalN.Unsigned.of_to.
  - rewrite <- Hd, parse_digits_uint_zero. by rewrite DecimalN.Unsigned.of_to.
  - rewrite <- Hd, parse_digits_uint_zero. by rewrite DecimalN.Unsigned.of_to.
  - rewrite <- Hd, parse_digits_uint_zero. by rewrite DecimalN.Unsigned.of_to.
  - rewrite <- Hd, parse_digits_uint_zero. by rewrite DecimalN.Unsigned.of_to.
Qed.

(** *** TrimSpace keeps a string that starts with a digit *)

Lemma strip_prefix_app (p l r : list N) :
  strip_prefix p l = Some r -> l = p ++ r.
Proof.
  revert l. induction p as [| a p IH]; intros l; cbn [strip_prefix].
  - by intros [= ->].
  - destruct l as [| b l]; [done |].
    destruct (N.eqb_spec a b) as [-> | _]; [| done].
    intros H. by rewrite (IH l H).
Qed.

Lemma strip_space_app (encs : list (list N)) (l r : list N) :
  strip_space encs l = Some r -> exists e, In e encs /\ l = e ++ r.
Proof.
  induction encs as [| e encs IH]; cbn [strip_space]; [done |].
  destruct (strip_prefix e l) as [r' |] eqn:He.
  - intros [= ->]. exists e. split; [by left | by apply strip_prefix_app].
  - intros H. destruct (IH H) as (e' & Hin & Heq). exists e'. split; [by right | done].
Qed.

Lemma strip_space_digit (encs : list (list N)) (d : N) (l : list N) :
  Forall (fun e => hd d e <> d) encs -> strip_space encs (d :: l) = None.
Proof.
  induction 1 as [| e encs He _ IH]; cbn [strip_space]; [done |].
  destruct e as [| b e]; [done |]. cbn [strip_prefix hd] in *.
  destruct (N.eqb_spec b d); [done | exact IH].
Qed.

Lemma trim_left_fuel_keeps_last (encs : list (list N)) (d : N) :
  Forall (fun e => e <> [] /\ ~ In d e) encs ->
  forall fuel pre, exists pre',
    trim_left_fuel encs fuel (pre ++ [d]) = pre' ++ [d].
Proof.
  intros Hencs fuel. induction fuel as [| fuel IH]; intros pre; cbn [trim_left_fuel].
  - by exists pre.
  - destruct (strip_space encs (pre ++ [d])) as [r |] eqn:Hs; [| by exists pre].
    destruct (strip_space_app _ _ _ Hs) as (e & He & Heq).
    rewrite List.Forall_forall in Hencs. destruct (Hencs e He) as [Hne Hd].
    destruct (exists_last (l := r)) as (r' & x & ->).
    + intros ->. rewrite app_nil_r in Heq. subst e.
      apply Hd, in_or_app. right. by left.
    + rewrite app_assoc in Heq. apply app_inj_tail in Heq as [_ <-]. apply IH.
Qed.

Lemma space_encodings_no_digit (d : N) :
  (48 <= d <= 57)%N ->
  Forall (fun e => hd d e <> d) space_encodings
  /\ Forall (fun e => e <> [] /\ ~ In d e) (map (@rev N) space_encodings).
Proof.
  intros Hd. split.
  - unfold space_encodings.
    repeat (constructor; [cbn [hd]; lia |]). constructor.
  - unfold space_encodings. cbn [map rev app].
    repeat (constructor;
            [split; [discriminate | cbn [In]; lia] |]).
    constructor.
Qed.

Lemma of_bytes_cons (b : N) (l : list N) : of_bytes (b :: l) <> EmptyString.
Proof. done. Qed.

(** A string that starts with a decimal digit is not blank. *)
Lemma TrimSpace_digit (c : ascii) (d : N) (rest : string) :
  digit_of c = Some d -> TrimSpace (String c rest) <> EmptyString.
Proof.
  unfold digit_of. intros Hc.
  assert (Hd : (48 <= N_of_ascii c <= 57)%N).
  { destruct (N.leb_spec 48 (N_of_ascii c)), (N.leb_spec (N_of_ascii c) 57);
      cbn [andb] in Hc; done. }
  clear Hc. destruct (space_encodings_no_digit _ Hd) as [Hleft Hright].
  unfold TrimSpace.
  change (bytes_of (String c rest)) with (N_of_ascii c :: bytes_of rest).
  assert (Hl : trim_left (N_of_ascii c :: bytes_of rest)
               = N_of_ascii c :: bytes_of rest).
  { unfold trim_left. cbn [length trim_left_fuel].
    by rewrite (strip_space_digit _ _ _ Hleft). }
  rewrite Hl. unfold trim_right.
  change (rev (N_of_ascii c :: bytes_of rest))
    with (rev (bytes_of rest) ++ [N_of_ascii c]).
  destruct (trim_left_fuel_keeps_last _ _ Hright
              (length (N_of_ascii c :: bytes_of rest)) (rev (bytes_of rest)))
    as [pre' ->].
  rewrite rev_unit. apply of_bytes_cons.
Qed.

(** What Sprintf("%d") prints starts with a digit, so it is not blank,
    whatever follows it. *)
Lemma TrimSpace_FormatUint (n : N) (rest : string) :
  (n < 2 ^ 64)%N -> TrimSpace (FormatUint n ++ rest) <> EmptyString.
Proof.
  intros Hn. pose proof (ParseUint_FormatUint n Hn) as Hp.
  apply ParseUint_value in Hp as (Hne & Hp & _).
  destruct (FormatUint n) as [| c s]; [done |].
  cbn [parse_digits] in Hp. destruct (digit_of c) as [d |] eqn:Hc; [| done].
  change (String c s ++ rest)%string with (String c (s ++ rest)).
  by apply (TrimSpace_digit c d).
Qed.

End GoStrFacts.

(* ===================================================================== *)
(** ** seedNode, needJoin, isSingleNode *)
(* ===================================================================== *)

Module SeedFacts.
Import GoStr GoStrMore GoStrFacts Cluster ClusterMore.
Local Open Scope list_scope.

Lemma uint_string_no_at (d : Decimal.uint) :
  Contains (NilEmpty.string_of_uint d) "@" = false.
Proof.
  induction d; cbn [NilEmpty.string_of_uint]; [done | ..];
    by rewrite Contains_char_cons, IHd.
Qed.

Lemma FormatUint_no_at (n : N) : Contains (FormatUint n) "@" = false.
Proof.
  unfold FormatUint, NilZero.string_of_uint.
  destruct (N.to_uint n) eqn:Hd; [done | rewrite <- Hd; apply uint_string_no_at ..].
Qed.

(** The shape of a split at the first separator. *)
Lemma Split_first (s : string) (c : ascii) :
  Contains s (String c EmptyString) = true ->
  exists a rest b more,
    s = (a ++ String c rest)%string /\
    Contains a (String c EmptyString) = false /\
    Split rest c = b :: more /\
    Split s c = a :: b :: more.
Proof.
  intros (a & rest & -> & Ha)%Contains_split.
  pose proof (Split_nonempty rest c) as Hne.
  destruct (Split rest c) as [| b more] eqn:Hrest; [done |].
  exists a, rest, b, more. repeat split; try done.
  by rewrite (Split_app a rest c Ha), Hrest.
Qed.

(** X1: seedNode reports "seed format error" exactly for the seeds that
    hold no "@". *)
Theorem seedNode_format_error_iff (seed : string) :
  seedNode seed = inl (errors_New "seed format error")
  <-> Contains seed "@" = false.
Proof.
  unfold seedNode. split.
  - intros H. destruct (Contains seed "@") eqn:Hc; [| done].
    destruct (Split_first seed "@" Hc) as (a & rest & b & more & _ & _ & _ & Hs).
    rewrite Hs in H. by destruct (ParseUint a).
  - intros Hc. by rewrite (Split_without seed "@" Hc).
Qed.

(** X2: seedNode reads back a seed written as <nodeId>@<addr>, for every
    64-bit node id and every address without "@"; whatever follows a
    second "@" is ignored. *)
Theorem seedNode_reads_seed (id : N) (addr tail : string) :
  (id < 2 ^ 64)%N ->
  Contains addr "@" = false ->
  seedNode (FormatUint id ++ "@" ++ addr)%string = inr (id, addr)
  /\ seedNode (FormatUint id ++ "@" ++ addr ++ "@" ++ tail)%string = inr (id, addr).
Proof.
  intros Hid Haddr. unfold seedNode. split.
  - change (FormatUint id ++ "@" ++ addr)%string
      with (FormatUint id ++ String "@" addr)%string.
    rewrite (Split_app _ _ _ (FormatUint_no_at id)), (Split_without addr "@" Haddr).
    by rewrite (ParseUint_FormatUint id Hid).
  - change (FormatUint id ++ "@" ++ addr ++ "@" ++ tail)%string
      with (FormatUint id ++ String "@" (addr ++ String "@" tail))%string.
    rewrite (Split_app _ _ _ (FormatUint_no_at id)), (Split_app addr tail "@" Haddr).
    by rewrite (ParseUint_FormatUint id Hid).
Qed.

Lemma parse_digits_bound_irrelevant (s : string) (n : N) :
  ParseUint s = inr n -> (n < 2 ^ 64)%N.
Proof. by intros (_ & _ & ?)%ParseUint_value. Qed.

(** X3: what seedNode returns is a node id below 2^64, parsed from the
    text before the first "@", and an address that holds no "@": the
    text between the first "@" and the second, or the end. *)
Theorem seedNode_result (seed : string) (id : N) (addr : string) :
  seedNode seed = inr (id, addr) ->
  (id < 2 ^ 64)%N
  /\ Contains addr "@" = false
  /\ exists idText rest,
       seed = (idText ++ "@" ++ rest)%string
       /\ Contains idText "@" = false
       /\ ParseUint idText = inr id
       /\ (rest = addr \/ exists more, rest = (addr ++ "@" ++ more)%string).
Proof.
  unfold seedNode. intros H.
  destruct (Contains seed "@") eqn:Hc; cycle 1.
  { by rewrite (Split_without seed "@" Hc) in H. }
  destruct (Split_first seed "@" Hc) as (a & rest & b & more & -> & Ha & Hrest & Hs).
  rewrite Hs in H.
  destruct (ParseUint a) as [e | n] eqn:Hp; [done |].
  injection H as -> ->.
  split; [by apply (parse_digits_bound_irrelevant a) |].
  pose proof (Split_pieces_without rest "@") as Hall. rewrite Hrest in Hall.
  inversion Hall as [| ? ? Haddr _]; subst.
  split; [done |].
  exists a, rest. repeat split; try done.
  destruct (Contains rest "@") eqn:Hr.
  - right. destruct (Contains_split rest "@" Hr) as (p & q & -> & Hp').
    rewrite (Split_app p q "@" Hp') in Hrest. injection Hrest as <- _.
    by exists q.
  - left. rewrite (Split_without rest "@" Hr) in Hrest. by injection Hrest as <-.
Qed.

Lemma seedNode_well_formed (id : N) (addr : string) :
  (id < 2 ^ 64)%N -> Contains addr "@" = false ->
  seedNode (FormatUint id ++ "@" ++ addr)%string = inr (id, addr).
Proof.
  intros Hid Haddr. unfold seedNode.
  change (FormatUint id ++ "@" ++ addr)%string
    with (FormatUint id ++ String "@" addr)%string.
  rewrite (Split_app _ _ _ (FormatUint_no_at id)), (Split_without _ "@" Haddr).
  by rewrite (ParseUint_FormatUint id Hid).
Qed.

(** X4: with a Seed that is not blank, needJoin asks whether the cluster
    configuration lacks the node the Seed names: for a Seed written
    <nodeId>@<addr> that is the node of that id. A Seed that names no
    node, because it holds no "@" or because what stands before the "@"
    is no decimal 64-bit number, is not refused: the error of seedNode is
    dropped and the node asked for is node 0. *)
Theorem needJoin_reads_the_seed (E : Env) (o : Options) :
  TrimSpace (Seed o) <> "" ->
  (forall id addr,
     (id < 2 ^ 64)%N -> Contains addr "@" = false ->
     Seed o = (FormatUint id ++ "@" ++ addr)%string ->
     needJoin E o = negb (clusterEventServer_Node E id))
  /\ (Contains (Seed o) "@" = false ->
      needJoin E o = negb (clusterEventServer_Node E 0))
  /\ (forall idText rest e,
        Seed o = (idText ++ "@" ++ rest)%string ->
        Contains idText "@" = false ->
        ParseUint idText = inl e ->
        needJoin E o = negb (clusterEventServer_Node E 0)).
Proof.
  intros Hne. apply String.eqb_neq in Hne.
  unfold needJoin, seedNodeId_of. rewrite Hne.
  split; [| split].
  - intros id addr Hid Haddr ->. by rewrite (seedNode_well_formed id addr Hid Haddr).
  - intros Hat. unfold seedNode. by rewrite (Split_without _ "@" Hat).
  - intros idText rest e -> Hid Hparse. unfold seedNode.
    change (idText ++ "@" ++ rest)%string with (idText ++ String "@" rest)%string.
    rewrite (Split_app idText rest "@" Hid).
    pose proof (Split_nonempty rest "@") as Hrest.
    destruct (Split rest "@") as [| piece pieces]; [done |].
    by rewrite Hparse.
Qed.

End SeedFacts.

(* ===================================================================== *)
(** ** send, and send followed by onMessage *)
(* ===================================================================== *)

Module WireFacts.
Import Cluster Sequence Life Trace ClusterMore Wire Emits DispatchFacts.
Local Open Scope list_scope.

Lemma new_calls_emits {A} (s : Server) (c : M A) a l :
  emits s c a l -> new_calls c s = l.
Proof.
  intros H. unfold new_calls. rewrite (emits_run s c a l H).
  rewrite set_calls_calls. by rewrite drop_app_length.
Qed.

Lemma send_frame_emits (E : Env) (m : reactor.Message) (t : N) (data : list N)
  (s : Server) :
  emits s (send_frame E m t data) tt
    (frame_metrics E (proto.mkMessage t data)
     ++ [Node_send (reactor.To m) (proto.mkMessage t data)]
     ++ match node_send E (reactor.To m) (proto.mkMessage t data) with
        | Some err => [Log ErrorLevel "send failed" [zap_Error err]]
        | None => []
        end).
Proof.
  unfold send_frame, frame_metrics. cbv zeta.
  eapply emits_seq.
  - destruct (proto.MsgType (proto.mkMessage t data) =? MsgTypeChannel)%N.
    { change [?a; ?b] with ([a] ++ [b]). eapply emits_seq; apply emits_call. }
    destruct (proto.MsgType (proto.mkMessage t data) =? MsgTypeSlot)%N.
    { change [?a; ?b] with ([a] ++ [b]). eapply emits_seq; apply emits_call. }
    destruct (proto.MsgType (proto.mkMessage t data) =? MsgTypeConfig)%N.
    { change [?a; ?b] with ([a] ++ [b]). eapply emits_seq; apply emits_call. }
    apply emits_ret.
  - eapply emits_seq; [apply emits_call |].
    destruct (node_send E (reactor.To m) (proto.mkMessage t data));
      [apply emits_call | apply emits_ret].
Qed.

Lemma send_running_emits (E : Env) (shardType : N) (m : reactor.Message)
  (s : Server) :
  stopped s = false ->
  emits s (send E shardType m) tt
    (outgoing_trace E shardType m ++ send_tail E shardType m).
Proof.
  intros Hrun. unfold send.
  rewrite <- (app_nil_l (outgoing_trace _ _ _ ++ _)).
  eapply emits_bind.
  { apply (emits_get s stopped). by destruct s. }
  rewrite Hrun.
  eapply emits_seq.
  - unfold outgoing_trace.
    destruct (shardType =? ShardTypeSlot E)%N; [apply emits_call |].
    destruct (shardType =? ShardTypeChannel E)%N; [apply emits_call | apply emits_ret].
  - unfold send_tail, frame_type.
    destruct (nodeManager_node E (reactor.To m)); cbn [negb]; [| apply emits_call].
    destruct (reactor_Marshal E m) as [err | data]; [apply emits_call |].
    destruct (shardType =? ShardTypeSlot E)%N; [apply send_frame_emits |].
    destruct (shardType =? ShardTypeConfig E)%N; [apply send_frame_emits |].
    destruct (shardType =? ShardTypeChannel E)%N; [apply send_frame_emits |].
    apply emits_call.
Qed.

Lemma transmissions_app (l1 l2 : list Call) :
  transmissions (l1 ++ l2) = transmissions l1 ++ transmissions l2.
Proof. apply omap_app. Qed.

Lemma transmissions_outgoing_trace (E : Env) shardType m :
  transmissions (outgoing_trace E shardType m) = [].
Proof. unfold outgoing_trace. by repeat case_match. Qed.

Lemma transmissions_frame_metrics (E : Env) msg :
  transmissions (frame_metrics E msg) = [].
Proof. unfold frame_metrics. by repeat case_match. Qed.

Lemma send_transmissions (E : Env) (shardType : N) (m : reactor.Message)
  (s : Server) :
  transmissions (new_calls (send E shardType m) s)
  = if stopped s then []
    else if nodeManager_node E (reactor.To m) then
      match reactor_Marshal E m, frame_type E shardType with
      | inr data, Some t => [(reactor.To m, proto.mkMessage t data)]
      | _, _ => []
      end
    else [].
Proof.
  destruct (stopped s) eqn:Hst.
  - unfold new_calls. rewrite (send_stopped E shardType m s Hst).
    by rewrite drop_all.
  - rewrite (new_calls_emits s _ _ _ (send_running_emits E shardType m s Hst)).
    rewrite transmissions_app, transmissions_outgoing_trace. cbn [app].
    unfold send_tail.
    destruct (nodeManager_node E (reactor.To m)); cbn [negb]; [| done].
    destruct (reactor_Marshal E m) as [err | data]; [done |].
    destruct (frame_type E shardType) as [t |]; [| done].
    rewrite !transmissions_app, transmissions_frame_metrics. cbn [app].
    by destruct (node_send E (reactor.To m) (proto.mkMessage t data)).
Qed.

(** X5: send transmits at most one frame, and it transmits one exactly
    when the server is not stopped, the node manager knows the
    destination, the message marshals and the shard type is one of the
    three; the frame carries the marshalled message under the type of
    its shard. *)
Theorem send_transmits (E : Env) (shardType : N) (m : reactor.Message)
  (s : Server) :
  transmissions (new_calls (send E shardType m) s)
  = if stopped s then []
    else if nodeManager_node E (reactor.To m) then
      match reactor_Marshal E m, frame_type E shardType with
      | inr data, Some t => [(reactor.To m, proto.mkMessage t data)]
      | _, _ => []
      end
    else [].
Proof. apply send_transmissions. Qed.

Lemma new_calls_return {A} (c : M A) (s s' : Server) a l :
  c s = Return a (set_calls (calls s ++ l) s') -> new_calls c s = l.
Proof.
  intros H. unfold new_calls. rewrite H, set_calls_calls.
  by rewrite drop_app_length.
Qed.

(** onMessage on a running server, for a frame whose content decodes. *)
Lemma onMessage_decoded (E : Env) (f : proto.Message) (msg : reactor.Message)
  (s : Server) :
  stopped s = false ->
  reactor_UnmarshalMessage E (proto.Content f) = inr msg ->
  (proto.MsgType f = MsgTypeConfig ->
   onMessage E f s
   = Return tt
       (set_calls
          (calls s ++
           [IntranetIncomingAdd (proto_Size E f);
            MessageIncomingCountAdd ClusterKindConfig 1;
            MessageIncomingBytesAdd ClusterKindConfig (proto_Size E f);
            ClusterEventServer_AddMessage msg]) s))
  /\ (proto.MsgType f = MsgTypeSlot ->
      onMessage E f s
      = Return tt
          (set_calls
             (calls s ++
              [IntranetIncomingAdd (proto_Size E f);
               MessageIncomingCountAdd ClusterKindSlot 1;
               MessageIncomingBytesAdd ClusterKindSlot (proto_Size E f);
               TraceIncomingMessage ClusterKindSlot (reactor.MsgType msg)
                 (reactor_Size E msg);
               SlotManager_addMessage msg]) s))
  /\ (proto.MsgType f = MsgTypeChannel ->
      onMessage E f s
      = AddChannelMessage E msg
          (set_calls
             (calls s ++
              [IntranetIncomingAdd (proto_Size E f);
               MessageIncomingCountAdd ClusterKindChannel 1;
               MessageIncomingBytesAdd ClusterKindChannel (proto_Size E f)]) s)).
Proof.
  intros Hrun Hd. rewrite (onMessage_running E f s Hrun). cbv zeta.
  rewrite Hd. repeat split; intros Ht; rewrite Ht; simpl N.eqb; cbv iota.
  - apply (step_calls_run s [_]).
    change [?a; ?b; ?c] with ([a] ++ [b] ++ [c]).
    eapply emits_seq; [apply emits_call |].
    eapply emits_seq; apply emits_call.
  - apply (step_calls_run s [_]).
    change [?a; ?b; ?c; ?d] with ([a] ++ [b] ++ [c] ++ [d]).
    eapply emits_seq; [apply emits_call |].
    eapply emits_seq; [apply emits_call |].
    unfold AddSlotMessage. eapply emits_seq; apply emits_call.
  - unfold mbind, M_bind, call, modify. destruct s; simpl.
    by rewrite <- !app_assoc.
Qed.

Lemma frame_type_Slot (E : Env) : frame_type E (ShardTypeSlot E) = Some MsgTypeSlot.
Proof. unfold frame_type. by rewrite N.eqb_refl. Qed.

Lemma frame_type_Config (E : Env) :
  ShardTypeConfig E <> ShardTypeSlot E ->
  frame_type E (ShardTypeConfig E) = Some MsgTypeConfig.
Proof.
  intros H. unfold frame_type. apply N.eqb_neq in H. by rewrite H, N.eqb_refl.
Qed.

Lemma frame_type_Channel (E : Env) :
  ShardTypeChannel E <> ShardTypeSlot E ->
  ShardTypeChannel E <> ShardTypeConfig E ->
  frame_type E (ShardTypeChannel E) = Some MsgTypeChannel.
Proof.
  intros H1 H2. unfold frame_type. apply N.eqb_neq in H1, H2.
  by rewrite H1, H2, N.eqb_refl.
Qed.

(** X6: what one node sends arrives where it belongs on the other. With
    distinct shard types, a destination the sender knows and a codec
    that reads back what it writes, the frame send transmits for a slot,
    config or channel message makes onMessage of a running receiver hand
    the very message to the SlotManager, to the ClusterEventServer, or to
    AddChannelMessage, and to no other manager. *)
Theorem send_then_onMessage_routes (E : Env) (m : reactor.Message)
  (data : list N) (sA sB : Server) :
  stopped sA = false -> stopped sB = false ->
  NoDup [ShardTypeSlot E; ShardTypeConfig E; ShardTypeChannel E] ->
  nodeManager_node E (reactor.To m) = true ->
  reactor_Marshal E m = inr data ->
  reactor_UnmarshalMessage E data = inr m ->
  (exists f,
     transmissions (new_calls (send E (ShardTypeSlot E) m) sA) = [(reactor.To m, f)]
     /\ omap manager_of (new_calls (onMessage E f) sB) = [(ClusterKindSlot, m)])
  /\ (exists f,
        transmissions (new_calls (send E (ShardTypeConfig E) m) sA)
        = [(reactor.To m, f)]
        /\ transmissions (new_calls (onSend E m) sA) = [(reactor.To m, f)]
        /\ omap manager_of (new_calls (onMessage E f) sB) = [(ClusterKindConfig, m)])
  /\ (exists f,
        transmissions (new_calls (send E (ShardTypeChannel E) m) sA)
        = [(reactor.To m, f)]
        /\ onMessage E f sB
           = AddChannelMessage E m
               (set_calls
                  (calls sB ++
                   [IntranetIncomingAdd (proto_Size E f);
                    MessageIncomingCountAdd ClusterKindChannel 1;
                    MessageIncomingBytesAdd ClusterKindChannel (proto_Size E f)])
                  sB)).
Proof.
  intros HA HB Hdistinct Hnode Hmarshal Hread.
  apply NoDup_cons in Hdistinct as [Hslot Hrest].
  apply NoDup_cons in Hrest as [Hconfig _].
  assert (Hcs : ShardTypeConfig E <> ShardTypeSlot E)
    by (intros Heq; apply Hslot; rewrite Heq; set_solver).
  assert (Hhs : ShardTypeChannel E <> ShardTypeSlot E)
    by (intros Heq; apply Hslot; rewrite Heq; set_solver).
  assert (Hhc : ShardTypeChannel E <> ShardTypeConfig E)
    by (intros Heq; apply Hconfig; rewrite Heq; set_solver).
  repeat split.
  - exists (proto.mkMessage MsgTypeSlot data). split.
    + by rewrite send_transmissions, HA, Hnode, Hmarshal, frame_type_Slot.
    + destruct (onMessage_decoded E (proto.mkMessage MsgTypeSlot data) m sB HB Hread)
        as (_ & Hs & _).
      by rewrite (new_calls_return _ _ _ _ _ (Hs eq_refl)).
  - exists (proto.mkMessage MsgTypeConfig data). repeat split.
    + by rewrite send_transmissions, HA, Hnode, Hmarshal, frame_type_Config.
    + unfold onSend.
      by rewrite send_transmissions, HA, Hnode, Hmarshal, frame_type_Config.
    + destruct (onMessage_decoded E (proto.mkMessage MsgTypeConfig data) m sB HB Hread)
        as (Hc & _ & _).
      by rewrite (new_calls_return _ _ _ _ _ (Hc eq_refl)).
  - exists (proto.mkMessage MsgTypeChannel data). split.
    + by rewrite send_transmissions, HA, Hnode, Hmarshal, frame_type_Channel.
    + destruct (onMessage_decoded E (proto.mkMessage MsgTypeChannel data) m sB HB Hread)
        as (_ & _ & Hh).
      exact (Hh eq_refl).
Qed.

End WireFacts.

(* ===================================================================== *)
(** ** New, beyond the nil map *)
(* ===================================================================== *)

Module NewMoreFacts.
Import Cluster Sequence Life Seeding Trace ClusterMore Emits NewFacts.
Local Open Scope list_scope.

(** New returning with an InitNodes that was not empty: the heap is as
    the caller left it. *)
Lemma New_returns_untouched (E : Env) (h : gmap positive (gmap N string))
  (o : Options) (s : Server) :
  New E h o = Return tt s ->
  map_len (InitNodes o) (Server_literal h o) <> 0 ->
  heap s = h /\ InitNodes (opts s) = InitNodes o.
Proof.
  intros Hret Hlen. revert Hret. run_New.
  destruct (InitNodes o) as [r |] eqn:Hinit; [| done].
  unfold map_len in Hlen. cbn [heap Server_literal] in Hlen.
  destruct (size (default ∅ (h !! r))) as [| n] eqn:Hsize; [done |].
  destruct (SlotLogStorage o) eqn:Hsl;
    destruct (snowflake_NewNode E (to_int64 (NodeId o)));
    cbn [heap set_calls set_opts set_slotStorage calls opts];
    try discriminate;
    rewrite Hsize; cbn [Nat.eqb];
    destruct (ants_NewPool E ElectionPool); try discriminate;
    destruct (ants_NewPool E LoadPool); try discriminate;
    intros Hret; injection Hret as <-;
    cbn [heap opts set_heap set_calls set_channelElectionPool set_channelLoadPool
         InitNodes set_SlotLogStorage];
    by rewrite ?Hinit.
Qed.

Lemma New_succeeds_untouched (E : Env) (h : gmap positive (gmap N string))
  (o : Options) :
  map_len (InitNodes o) (Server_literal h o) <> 0 ->
  snowflake_NewNode E (to_int64 (NodeId o)) = None ->
  ants_NewPool E ElectionPool = None ->
  ants_NewPool E LoadPool = None ->
  exists s, New E h o = Return tt s.
Proof.
  intros Hlen Hsnow Hep Hlp. run_New.
  destruct (InitNodes o) as [r |] eqn:Hinit; [| done].
  unfold map_len in Hlen. cbn [heap Server_literal] in Hlen.
  destruct (size (default ∅ (h !! r))) as [| n] eqn:Hsize; [done |].
  rewrite Hsnow, Hep, Hlp.
  destruct (SlotLogStorage o);
    cbn [heap set_calls set_opts set_slotStorage calls opts];
    rewrite Hsize; cbn [Nat.eqb]; by eexists.
Qed.

(** X7: when InitNodes already has an entry, New neither reads Seed nor
    writes the map: with the id generator and the pools created it
    returns, the caller's maps untouched, even for a Seed seedNode
    rejects, and whether this node is among the entries or not. *)
Theorem New_keeps_given_InitNodes (E : Env) (h : gmap positive (gmap N string))
  (o : Options) :
  map_len (InitNodes o) (Server_literal h o) <> 0 ->
  snowflake_NewNode E (to_int64 (NodeId o)) = None ->
  ants_NewPool E ElectionPool = None ->
  ants_NewPool E LoadPool = None ->
  exists s,
    New E h o = Return tt s /\ heap s = h /\ InitNodes (opts s) = InitNodes o
    /\ stopped s = false /\ channelLoadMap s = ∅ /\ loadTasks s = [].
Proof.
  intros Hlen Hsnow Hep Hlp.
  destruct (New_succeeds_untouched E h o Hlen Hsnow Hep Hlp) as [s Hs].
  destruct (New_returns_untouched E h o s Hs Hlen) as [Hh Hi].
  exists s. repeat split; try done.
  all: revert Hs; run_New; rewrite Hsnow, Hep, Hlp;
    destruct (InitNodes o) as [r |]; [| done];
    unfold map_len in Hlen; cbn [heap Server_literal] in Hlen;
    destruct (size (default ∅ (h !! r))) as [| n] eqn:Hsize; [done |];
    destruct (SlotLogStorage o);
    cbn [heap set_calls set_opts set_slotStorage calls opts];
    rewrite Hsize; cbn [Nat.eqb]; by intros [= <-].
Qed.

(** X8: with an empty, non-nil InitNodes and a Seed that is not blank
    and that seedNode rejects, New panics with seedNode's error, before
    it has written anything into the map. *)
Theorem New_rejects_malformed_seed (E : Env) (h : gmap positive (gmap N string))
  (o : Options) (r : positive) (err : error) :
  InitNodes o = Some r ->
  map_len (InitNodes o) (Server_literal h o) = 0 ->
  snowflake_NewNode E (to_int64 (NodeId o)) = None ->
  GoStr.TrimSpace (Seed o) <> "" ->
  seedNode (Seed o) = inl err ->
  exists s, New E h o = Panicking (ErrorValue err) s /\ heap s = h.
Proof.
  intros Hinit Hlen Hsnow Hseed Hparse. run_New.
  rewrite Hinit in *. unfold map_len in Hlen. cbn [heap Server_literal] in Hlen.
  apply String.eqb_neq in Hseed.
  rewrite Hsnow, Hparse, Hseed.
  destruct (SlotLogStorage o);
    cbn [heap set_calls set_opts set_slotStorage calls opts];
    rewrite Hlen; cbn [Nat.eqb]; by eexists.
Qed.

Lemma seeded_InitNodes_size (o : Options) : size (seeded_InitNodes o) <> 0.
Proof.
  unfold seeded_InitNodes. intros H. apply map_size_empty_inv in H.
  by apply insert_non_empty in H.
Qed.

(** X9: a server New has returned never counts as a single node: New
    itself has put this node into an empty InitNodes, so isSingleNode is
    false whatever Seed and InitNodes were. *)
Theorem isSingleNode_false_after_New (E : Env) (h : gmap positive (gmap N string))
  (o : Options) (s : Server) :
  New E h o = Return tt s -> isSingleNode s = false.
Proof.
  intros Hret. unfold isSingleNode. apply andb_false_iff. right.
  apply Nat.eqb_neq.
  destruct (Nat.eq_dec (map_len (InitNodes o) (Server_literal h o)) 0) as [Hz | Hnz].
  - destruct (New_returns_seeded E h o s Hret Hz) as (r & _ & Hr & Hheap & _).
    unfold map_len. rewrite Hr, Hheap. apply seeded_InitNodes_size.
  - destruct (New_returns_untouched E h o s Hret Hnz) as [Hh Hi].
    unfold map_len in *. rewrite Hi, Hh. exact Hnz.
Qed.

End NewMoreFacts.

(* ===================================================================== *)
(** ** The loads in flight *)
(* ===================================================================== *)

Module LoadFacts.
Import Cluster Sequence Life Trace ClusterMore Sections Wire Emits StartStop
  LifecycleFacts MessageFacts DispatchFacts WireFacts.
Local Open Scope list_scope.

(** The marks and the tasks depend on nothing else of the server. *)
Lemma loads_sound_ext (s s' : Server) :
  loadTasks s' = loadTasks s -> channelLoadMap s' = channelLoadMap s ->
  loads_sound s -> loads_sound s'.
Proof. unfold loads_sound. by intros -> ->. Qed.

Lemma loads_sound_emits {A} (s : Server) (c : M A) a l :
  emits s c a l -> loads_sound s -> loads_sound (state_of (c s)).
Proof.
  intros H. rewrite (emits_run s c a l H).
  apply loads_sound_ext; by destruct s.
Qed.

Lemma loads_sound_AddChannelMessage (E : Env) (m : reactor.Message) (s : Server) :
  loads_sound s -> loads_sound (state_of (AddChannelMessage E m s)).
Proof.
  intros Hs.
  destruct (channelManager_getWithHandleKey E (reactor.HandlerKey m)) eqn:Hch.
  { rewrite (AddChannelMessage_in_memory E m s Hch).
    revert Hs. apply loads_sound_ext; by destruct s. }
  destruct (decide (reactor.HandlerKey m ∈ channelLoadMap s)) as [Hin | Hout].
  { rewrite (AddChannelMessage_loading E m s Hch Hin).
    revert Hs. apply loads_sound_ext; by destruct s. }
  destruct Hs as [Hnodup Hmarked].
  destruct (pool_full (channelLoadPool s)) eqn:Hfull.
  - rewrite (AddChannelMessage_refused E m s Hch Hout Hfull).
    destruct s as [o h ss st lm ep lp lt cs]; unfold loads_sound; cbn [loadTasks channelLoadMap calls opts set_calls set_loadTasks set_channelLoadPool set_channelLoadMap set_pool process_state state_of] in *.
    split; [done |]. intros m' Hm'. apply elem_of_union. right. by apply Hmarked.
  - destruct (AddChannelMessage_submitted E m s Hch Hout Hfull) as [q ->].
    destruct s as [o h ss st lm ep lp lt cs]; unfold loads_sound; cbn [loadTasks channelLoadMap calls opts set_calls set_loadTasks set_channelLoadPool set_channelLoadMap set_pool process_state state_of] in *.
    split.
    + rewrite fmap_app. apply NoDup_app. split; [done |]. split.
      * intros k Hk Hk'. apply list_elem_of_singleton in Hk'. subst k.
        apply list_elem_of_fmap in Hk as (m' & Heq & Hm').
        apply Hout. rewrite Heq. by apply Hmarked.
      * apply NoDup_singleton.
    + intros m' Hm'. apply elem_of_union.
      apply elem_of_app in Hm' as [Hm' | Hm'].
      * right. by apply Hmarked.
      * left. apply list_elem_of_singleton in Hm'. subst m'.
        by apply elem_of_singleton.
Qed.

Lemma loads_sound_run (E : Env) (s : Server) (p : Process) :
  channelLoadPool_run E s = Some p -> loads_sound s ->
  loads_sound (process_state p).
Proof.
  unfold channelLoadPool_run. destruct (loadTasks s) as [| m rest] eqn:Ht; [done |].
  intros [= <-] [Hnodup Hmarked]. rewrite Ht in Hnodup, Hmarked.
  rewrite fmap_cons in Hnodup. apply NoDup_cons in Hnodup as [Hfresh Hnodup].
  unfold worker_run.
  destruct (decide (fst (ChannelFromlKey E (reactor.HandlerKey m)) = "")) as [He | Hne].
  - rewrite (loadTask_empty_channelId E m _ He).
    rewrite PoolFacts.PanicHandler_other. cbn [process_state].
    destruct s as [o h ss st lm ep lp lt cs]; unfold loads_sound; cbn [loadTasks channelLoadMap calls opts set_calls set_loadTasks set_channelLoadPool set_channelLoadMap set_pool process_state state_of] in *.
    split; [done |]. intros m' Hm'. apply Hmarked. by right.
  - destruct (loadTask_clears_mark E m (set_loadTasks rest s) Hne) as (l & -> & _).
    cbn [process_state].
    destruct s as [o h ss st lm ep lp lt cs]; unfold loads_sound; cbn [loadTasks channelLoadMap calls opts set_calls set_loadTasks set_channelLoadPool set_channelLoadMap set_pool process_state state_of] in *.
    split; [done |]. intros m' Hm'. apply elem_of_difference. split.
    + apply Hmarked. by right.
    + intros Hk. apply elem_of_singleton in Hk. apply Hfresh.
      rewrite <- Hk. apply list_elem_of_fmap. by exists m'.
Qed.

Lemma onMessage_loads_sound (E : Env) (f : proto.Message) (s : Server) :
  loads_sound s -> loads_sound (state_of (onMessage E f s)).
Proof.
  intros Hs. destruct (stopped s) eqn:Hst.
  { by rewrite (onMessage_stopped E f s Hst). }
  assert (Hs1 : forall l, loads_sound (set_calls l s))
    by (intros l; revert Hs; apply loads_sound_ext; by destruct s).
  assert (Hlog : forall l c, loads_sound (state_of (call c (set_calls l s)))).
  { intros l c. unfold call, modify. cbn [state_of].
    revert Hs. apply loads_sound_ext; by destruct s. }
  rewrite (onMessage_running E f s Hst). cbv zeta.
  destruct (proto.MsgType f =? MsgTypeConfig)%N.
  { destruct (reactor_UnmarshalMessage E (proto.Content f)) as [err | msg];
      [apply Hlog |].
    unfold AddConfigMessage, mbind, M_bind, call, modify. cbn [state_of].
    revert Hs. apply loads_sound_ext; by destruct s. }
  destruct (proto.MsgType f =? MsgTypeSlot)%N.
  { destruct (reactor_UnmarshalMessage E (proto.Content f)) as [err | msg];
      [apply Hlog |].
    unfold AddSlotMessage, mbind, M_bind, call, modify. cbn [state_of].
    revert Hs. apply loads_sound_ext; by destruct s. }
  destruct (proto.MsgType f =? MsgTypeChannel)%N.
  { destruct (reactor_UnmarshalMessage E (proto.Content f)) as [err | msg];
      [apply Hlog |].
    unfold mbind at 1 2, M_bind at 1 2, call, modify.
    apply loads_sound_AddChannelMessage.
    revert Hs. apply loads_sound_ext; by destruct s. }
  unfold when, mbind, M_bind, call, modify.
  destruct (onMessageFnc E); cbn [state_of];
    revert Hs; apply loads_sound_ext; by destruct s.
Qed.

Lemma send_loads_sound (E : Env) shardType (m : reactor.Message) (s : Server) :
  loads_sound s -> loads_sound (state_of (send E shardType m s)).
Proof.
  intros Hs. destruct (stopped s) eqn:Hst.
  - by rewrite (send_stopped E shardType m s Hst).
  - by apply (loads_sound_emits s _ _ _ (send_running_emits E shardType m s Hst)).
Qed.

Lemma run_op_loads_sound (E : Env) (op : Op) (s : Server) :
  loads_sound s -> loads_sound (run_op E op s).
Proof.
  intros Hs. destruct op; cbn [run_op].
  - by apply (loads_sound_emits s _ _ _ (Start_emits E s)).
  - rewrite Stop_trace. cbn [state_of]. revert Hs.
    apply loads_sound_ext; by destruct s.
  - unfold AddSlotMessage, mbind, M_bind, call, modify. cbn [state_of].
    revert Hs. apply loads_sound_ext; by destruct s.
  - unfold AddConfigMessage, call, modify. cbn [state_of].
    revert Hs. apply loads_sound_ext; by destruct s.
  - by apply loads_sound_AddChannelMessage.
  - by apply send_loads_sound.
  - unfold onSend. by apply send_loads_sound.
  - by apply onMessage_loads_sound.
  - destruct (channelLoadPool_run E s) as [p |] eqn:Hp; [| done].
    by apply (loads_sound_run E s p Hp).
  - destruct (joinLoop_from_emits s (seedNodeId_of (Seed (opts s)))
                (joinReq (opts s)) script) as (r & l & Hl).
    rewrite (joinLoop_emits s script r l Hl). cbn [state_of].
    revert Hs. apply loads_sound_ext; by destruct s.
Qed.

(** Calls that run one after the other keep the loads sound. *)
Lemma run_ops_loads_sound (E : Env) (ops : list Op) (s : Server) :
  loads_sound s -> loads_sound (run_ops E ops s).
Proof.
  revert s. induction ops as [| op ops IH]; intros s Hs; [done |].
  cbn [run_ops fold_left]. apply IH. by apply run_op_loads_sound.
Qed.

(** AddChannelMessage is its two critical sections, one after the
    other. *)
Lemma AddChannelMessage_in_sections (E : Env) (m : reactor.Message) (s : Server) :
  AddChannelMessage E m s = in_sections E m s.
Proof.
  unfold AddChannelMessage, in_sections, AddChannelMessage_check,
    AddChannelMessage_mark, when, mbind, M_bind, mret, M_ret, call, modify, get.
  destruct (channelManager_getWithHandleKey E (reactor.HandlerKey m)); [done |].
  cbn. by destruct (bool_decide (reactor.HandlerKey m ∈ channelLoadMap s)).
Qed.

(** The first section lets a call through when the channel is not in
    memory and its key is not marked. *)
Lemma check_passes (E : Env) (m : reactor.Message) (s : Server) :
  channelManager_getWithHandleKey E (reactor.HandlerKey m) = false ->
  reactor.HandlerKey m ∉ channelLoadMap s ->
  AddChannelMessage_check E m s
  = Return true (set_calls (calls s ++ [incoming E m]) s).
Proof.
  intros Hmem Hout.
  unfold AddChannelMessage_check, mbind, M_bind, mret, M_ret, call, modify, get.
  rewrite Hmem. destruct s as [o h ss st lm ep lp lt cs]; cbn in *.
  by rewrite bool_decide_eq_false_2.
Qed.

(** The second section marks the key whatever the marks are, and queues
    the task when the pool takes it. *)
Lemma mark_submits (E : Env) (m : reactor.Message) (s : Server) :
  pool_full (channelLoadPool s) = false ->
  AddChannelMessage_mark E m s
  = Return tt
      (set_calls (calls s ++ busy_warning s)
         (set_loadTasks (loadTasks s ++ [m])
            (set_channelLoadPool (pool_take (channelLoadPool s))
               (set_channelLoadMap
                  ({[reactor.HandlerKey m]} ∪ channelLoadMap s) s)))).
Proof.
  intros Hfull.
  unfold AddChannelMessage_mark, mbind, M_bind, mret, M_ret, call, modify, get,
    Running, get, busy_warning, pool_take, pool_full in *.
  destruct s as [o h ss st lm ep lp lt cs]; cbn in *.
  unfold channelLoadPool_Submit, when, Warn, Error, call, modify; cbn.
  destruct (wrap_int (ChannelLoadPoolSize o - 10) <? pool_running lp)%Z; cbn;
    destruct (0 <? pool_idle lp)%Z eqn:Hidle; cbn;
    rewrite ?app_nil_r; try reflexivity;
    destruct ((pool_cap lp =? -1)%Z || (pool_running lp <? pool_cap lp)%Z) eqn:Hc;
    cbn; rewrite ?app_nil_r; try reflexivity;
    exfalso; apply orb_false_elim in Hc as [Hc1 Hc2];
    rewrite Hc1 in Hfull; cbn in Hfull; lia.
Qed.

Lemma room_for_two (q : Pool) :
  (pool_cap q = -1 \/ pool_running q + 2 <= pool_cap q)%Z ->
  pool_full q = false /\ pool_full (pool_take q) = false.
Proof.
  intros Hroom. unfold pool_full, pool_take.
  destruct (0 <? pool_idle q)%Z; cbn [pool_cap pool_running pool_idle];
    split; apply andb_false_iff;
    destruct Hroom as [-> | Hroom]; try (by left; apply andb_false_iff; right);
    right; apply Z.leb_gt; lia.
Qed.

(** X10: the loading marks keep a channel from being loaded twice at a
    time only as long as the calls of AddChannelMessage do not overlap.
    The call looks at the mark under the read lock and sets it under the
    write lock, with nothing held in between and no second look. Calls
    that run one after the other keep the queued load tasks on pairwise
    distinct keys, each marked: a second message for the key is dropped.
    Two calls for a first message that both pass the look before either
    sets the mark both submit a load: the pool then holds two tasks for
    one key. *)
Theorem overlapping_calls_load_twice (E : Env) (m : reactor.Message) (s : Server) :
  channelManager_getWithHandleKey E (reactor.HandlerKey m) = false ->
  reactor.HandlerKey m ∉ channelLoadMap s ->
  (pool_cap (channelLoadPool s) = -1
   \/ pool_running (channelLoadPool s) + 2 <= pool_cap (channelLoadPool s))%Z ->
  loads_sound s ->
  (forall m' s', AddChannelMessage E m' s' = in_sections E m' s')
  /\ (forall ops, loads_sound (run_ops E ops s))
  /\ loadTasks (run_ops E [OpAddChannelMessage m; OpAddChannelMessage m] s)
     = loadTasks s ++ [m]
  /\ exists s',
       overlapped E m m s = Return tt s'
       /\ loadTasks s' = loadTasks s ++ [m; m]
       /\ channelLoadMap s' = {[reactor.HandlerKey m]} ∪ channelLoadMap s
       /\ ~ loads_sound s'.
Proof.
  intros Hmem Hout Hroom Hsound.
  destruct (room_for_two _ Hroom) as [Hfull Hfull2].
  split; [apply AddChannelMessage_in_sections |].
  split; [intros ops; by apply run_ops_loads_sound |].
  split.
  - cbn [run_ops fold_left run_op].
    destruct (AddChannelMessage_submitted E m s Hmem Hout Hfull) as [q Hq].
    rewrite Hq. cbn [state_of].
    rewrite AddChannelMessage_loading; [by destruct s | done |].
    destruct s; cbn. apply elem_of_union. left. by apply elem_of_singleton.
  - assert (Hrun : exists s',
               overlapped E m m s = Return tt s'
               /\ loadTasks s' = loadTasks s ++ [m; m]
               /\ channelLoadMap s' = {[reactor.HandlerKey m]} ∪ channelLoadMap s).
    { unfold overlapped, mbind, M_bind.
      rewrite (check_passes E m s Hmem Hout).
      rewrite (check_passes E m (set_calls (calls s ++ [incoming E m]) s) Hmem)
        by (by destruct s).
      cbn [when]. rewrite mark_submits by (by destruct s).
      rewrite mark_submits by (by destruct s).
      eexists. split; [reflexivity |].
      destruct s as [o h ss st lm ep lp lt cs]; cbn.
      split; [by rewrite <- app_assoc |].
      apply set_eq. intros k. rewrite !elem_of_union. tauto. }
    destruct Hrun as (s' & Hs' & Htasks & Hmarks).
    exists s'. split; [done |]. split; [done |]. split; [done |].
    intros [Hnodup _]. rewrite Htasks, fmap_app in Hnodup.
    apply NoDup_app in Hnodup as (_ & _ & Hdup).
    cbn in Hdup. apply NoDup_cons in Hdup as [Hdup _].
    apply Hdup. by left.
Qed.

(** X11: the first message for a channel that is not in memory, on a
    pool that has room: the message marks the key and queues one task;
    the task, run by the pool, loads the channel its key names and clears
    the mark. The message itself is never handed to the ChannelManager. *)
Theorem first_message_loads_channel (E : Env) (m : reactor.Message) (s : Server) :
  channelManager_getWithHandleKey E (reactor.HandlerKey m) = false ->
  reactor.HandlerKey m ∉ channelLoadMap s ->
  pool_full (channelLoadPool s) = false ->
  loadTasks s = [] ->
  fst (ChannelFromlKey E (reactor.HandlerKey m)) <> "" ->
  let s1 := run_op E (OpAddChannelMessage m) s in
  let s2 := run_op E OpLoadPoolRun s1 in
  reactor.HandlerKey m ∈ channelLoadMap s1
  /\ loadTasks s1 = [m]
  /\ channelLoadMap s2 = channelLoadMap s
  /\ loadTasks s2 = []
  /\ LoadOrCreateChannel (fst (ChannelFromlKey E (reactor.HandlerKey m)))
       (snd (ChannelFromlKey E (reactor.HandlerKey m))) ∈ calls s2
  /\ omap manager_of (drop (length (calls s)) (calls s2)) = [].
Proof.
  intros Hch Hout Hfull Hempty Hid. cbv zeta. cbn [run_op].
  destruct (AddChannelMessage_submitted E m s Hch Hout Hfull) as [q Hsub].
  rewrite Hsub. cbn [state_of]. unfold channelLoadPool_run.
  split; [destruct s; cbn; apply elem_of_union; left; by apply elem_of_singleton |].
  split; [destruct s; cbn in *; by subst |].
  assert (Htasks : loadTasks
            (set_calls (calls s ++ [incoming E m] ++ busy_warning s)
               (set_loadTasks (loadTasks s ++ [m])
                  (set_channelLoadPool q
                     (set_channelLoadMap
                        ({[reactor.HandlerKey m]} ∪ channelLoadMap s) s)))) = [m])
    by (destruct s; cbn in *; by subst).
  rewrite Htasks. unfold worker_run.
  unfold loadTask.
  destruct (ChannelFromlKey E (reactor.HandlerKey m)) as [cid cty] eqn:Hkey.
  cbn [fst snd] in *. apply String.eqb_neq in Hid. rewrite Hid.
  unfold when, mbind, M_bind, call, modify, Error, Debug, call, modify.
  destruct s as [o h ss st lm ep lp lt cs]; unfold loads_sound; cbn [loadTasks channelLoadMap calls opts set_calls set_loadTasks set_channelLoadPool set_channelLoadMap set_pool process_state state_of] in *. subst lt.
  destruct (loadOrCreateChannel E cid cty); cbn.
  all: split;
    [apply set_eq; intros k;
     rewrite elem_of_difference, elem_of_union, elem_of_singleton;
     split;
     [intros [[Heq | Hk] Hne]; [by destruct Hne | done]
     | intros Hk; split; [by right | intros ->; by apply Hout]] |].
  all: split; [done |].
  all: split;
    [rewrite !elem_of_app, !list_elem_of_singleton; tauto |].
  all: rewrite <- !app_assoc, drop_app_length; unfold incoming, busy_warning;
    cbn [opts channelLoadPool]; by case_match.
Qed.

End LoadFacts.

(* ===================================================================== *)
(** ** What Start adds, and what it never does *)
(* ===================================================================== *)

Module StartFacts.
Import Cluster Sequence Life Trace ClusterMore Undo Emits StartStop WireFacts.
Local Open Scope list_scope.

Lemma Start_new_calls (E : Env) (s : Server) :
  new_calls (Start E) s = fst (run_plan (Start_plan E s)).
Proof. apply (new_calls_emits s _ _ _ (Start_emits E s)). Qed.

Lemma run_plan_incl (plan : list Step) (c : Call) :
  c ∈ fst (run_plan plan) -> exists st, st ∈ plan /\ c ∈ step_calls st.
Proof.
  induction plan as [| st plan IH]; cbn [run_plan fst].
  - by intros ?%elem_of_nil.
  - destruct (step_result st); cbn [fst].
    + intros Hc. exists st. split; [by left | done].
    + intros [Hc | Hc]%elem_of_app.
      * exists st. split; [by left | done].
      * destruct (IH Hc) as (st' & Hst' & Hc'). exists st'. split; [by right | done].
Qed.

Lemma elem_of_seed_calls (E : Env) (s : Server) (c : Call) :
  c ∈ seed_calls E s ->
  exists id addr,
    id <> NodeId (opts s)
    /\ (c = NewNode_start id (GoStr.FormatUint (NodeId (opts s))) addr
        \/ c = NodeManager_addNode id).
Proof.
  unfold seed_calls. intros Hc.
  apply list_elem_of_In, in_flat_map in Hc as ([id addr] & Hkv & Hc).
  apply list_elem_of_In, list_elem_of_filter in Hkv as [Hne _].
  apply list_elem_of_In in Hc. cbn [fst snd] in *.
  exists id, addr. split; [done |].
  apply elem_of_cons in Hc as [-> | Hc]; [by left |].
  apply list_elem_of_singleton in Hc. by right.
Qed.

Lemma elem_of_slot_calls (E : Env) (s : Server) (c : Call) :
  c ∈ slot_calls E s <->
  exists st,
    st ∈ clusterEventServer_Slots E /\ NodeId (opts s) ∈ SlotReplicas st
    /\ (c = SlotManager_add st \/ c = Slot_update st).
Proof.
  unfold slot_calls. rewrite list_elem_of_In, in_flat_map. split.
  - intros (st & Hst & Hc).
    apply list_elem_of_In, list_elem_of_filter in Hst as [Hrep Hst].
    apply list_elem_of_In in Hc. exists st. split; [done |]. split; [done |].
    apply elem_of_cons in Hc as [-> | Hc]; [by left |].
    apply list_elem_of_singleton in Hc. by right.
  - intros (st & Hst & Hrep & Hc). exists st. split.
    + apply list_elem_of_In, list_elem_of_filter. by split.
    + apply list_elem_of_In. destruct Hc as [-> | ->]; [by left | right; by left].
Qed.

(** Every call of Start belongs to one of the ten steps of the plan. *)
Lemma Start_call_cases (E : Env) (s : Server) (c : Call) :
  c ∈ new_calls (Start E) s ->
  c ∈ [Uptime_Set; SlotStorage_Open; ChannelKeyLock_StartCleanLoop;
       ChannelElectionManager_start; ClusterEventServer_Start; SetRoutes;
       NetServer_OnMessage; NetServer_Start; SlotManager_start;
       ChannelManager_start; ClusterEventServer_SetIsPrepared false;
       Stopper_RunWorker_joinLoop]
  \/ c ∈ seed_calls E s \/ c ∈ slot_calls E s.
Proof.
  rewrite Start_new_calls. intros (st & Hst & Hc)%run_plan_incl.
  unfold Start_plan in Hst.
  repeat (apply elem_of_cons in Hst as [-> | Hst]); cbn [step_calls] in Hc;
    try (by apply elem_of_nil in Hst);
    try (by right; left); try (by right; right);
    try (left; revert Hc; clear; intros Hc;
         repeat (apply elem_of_cons in Hc as [-> | Hc];
                 [repeat (first [by left | right]) |]);
         by apply elem_of_nil in Hc).
  left. destruct (join_needed E s); [| by apply elem_of_nil in Hc].
  apply elem_of_cons in Hc as [-> | Hc]; [repeat (first [by left | right]) |].
  apply list_elem_of_singleton in Hc as ->. repeat (first [by left | right]).
Qed.

(** X12: Start never registers this node as a peer of itself: no node
    with the id of the options is created, started or added to the
    NodeManager, whether the nodes come from the cluster configuration or
    from InitNodes. *)
Theorem Start_never_adds_itself (E : Env) (s : Server) (uid addr : string) :
  (NodeManager_addNode (NodeId (opts s)) ∉ new_calls (Start E) s)
  /\ (NewNode_start (NodeId (opts s)) uid addr ∉ new_calls (Start E) s).
Proof.
  split; intros Hc; apply Start_call_cases in Hc as [Hc | [Hc | Hc]].
  - repeat (apply elem_of_cons in Hc as [Hc | Hc]; [discriminate Hc |]).
    by apply elem_of_nil in Hc.
  - apply elem_of_seed_calls in Hc as (id & a & Hne & [Hc | Hc]); [done |].
    injection Hc as Heq. by apply Hne.
  - apply elem_of_slot_calls in Hc as (st & _ & _ & [Hc | Hc]); done.
  - repeat (apply elem_of_cons in Hc as [Hc | Hc]; [discriminate Hc |]).
    by apply elem_of_nil in Hc.
  - apply elem_of_seed_calls in Hc as (id & a & Hne & [Hc | Hc]); [| done].
    injection Hc as Heq _ _. by apply Hne.
  - apply elem_of_slot_calls in Hc as (st & _ & _ & [Hc | Hc]); done.
Qed.

(** X13: once the LogStorage has opened, Start adds and updates exactly
    the slots of the configuration whose replicas include this node, and
    it has done so even when a later step fails. *)
Theorem Start_adds_local_slots (E : Env) (s : Server) (st : Slot) :
  slotStorage_Open E = None ->
  (SlotManager_add st ∈ new_calls (Start E) s
   <-> st ∈ clusterEventServer_Slots E /\ NodeId (opts s) ∈ SlotReplicas st)
  /\ (Slot_update st ∈ new_calls (Start E) s
      <-> SlotManager_add st ∈ new_calls (Start E) s).
Proof.
  intros Hopen.
  assert (Hslots : forall c, c ∈ slot_calls E s -> c ∈ new_calls (Start E) s).
  { intros c Hc. rewrite Start_new_calls. unfold Start_plan.
    cbn [run_plan step_result step_calls fst snd]. rewrite Hopen.
    cbn [fst snd]. rewrite !elem_of_app. right. right. right. left. exact Hc. }
  assert (Hadd : SlotManager_add st ∈ new_calls (Start E) s
                 <-> st ∈ clusterEventServer_Slots E
                     /\ NodeId (opts s) ∈ SlotReplicas st).
  { split.
    - intros Hc. apply Start_call_cases in Hc as [Hc | [Hc | Hc]].
      + repeat (apply elem_of_cons in Hc as [Hc | Hc]; [discriminate Hc |]).
        by apply elem_of_nil in Hc.
      + by apply elem_of_seed_calls in Hc as (id & a & _ & [Hc | Hc]).
      + apply elem_of_slot_calls in Hc as (st' & Hin & Hrep & [Hc | Hc]); [| done].
        by injection Hc as ->.
    - intros [Hin Hrep]. apply Hslots, elem_of_slot_calls. exists st. tauto. }
  split; [exact Hadd |]. rewrite Hadd. split.
  - intros Hc. apply Start_call_cases in Hc as [Hc | [Hc | Hc]].
    + repeat (apply elem_of_cons in Hc as [Hc | Hc]; [discriminate Hc |]).
      by apply elem_of_nil in Hc.
    + by apply elem_of_seed_calls in Hc as (id & a & _ & [Hc | Hc]).
    + apply elem_of_slot_calls in Hc as (st' & Hin & Hrep & [Hc | Hc]); [done |].
      by injection Hc as ->.
  - intros [Hin Hrep]. apply Hslots, elem_of_slot_calls. exists st. tauto.
Qed.

(** X14: Start takes nothing down again. Whatever step fails, Start
    returns its error with everything it has started, added or opened so
    far left as it is: it makes none of the calls of Stop and leaves the
    stopped flag alone. *)
Theorem Start_undoes_nothing (E : Env) (s : Server) :
  stopped (state_of (Start E s)) = stopped s
  /\ Forall (fun c => is_stop_call c = false) (new_calls (Start E) s).
Proof.
  split.
  - rewrite (emits_run _ _ _ _ (Start_emits E s)). by destruct s.
  - apply Forall_forall. intros c Hc.
    apply Start_call_cases in Hc as [Hc | [Hc | Hc]].
    + repeat (apply elem_of_cons in Hc as [-> | Hc]; [done |]).
      by apply elem_of_nil in Hc.
    + by apply elem_of_seed_calls in Hc as (id & a & _ & [-> | ->]).
    + by apply elem_of_slot_calls in Hc as (st' & _ & _ & [-> | ->]).
Qed.

End StartFacts.

(* ===================================================================== *)
(** ** The options of a replica *)
(* ===================================================================== *)

Module ReplicaMoreFacts.
Import Replica ReplicaMore.
Local Open Scope list_scope.

Section Configure.
Context {ITransport IStorage SyncInfo OnApplyFn OnCommitFn : Type}.
Variable newProxyTransport : ITransport -> ITransport.

Abbreviation Opt := (@Opt ITransport IStorage SyncInfo OnApplyFn OnCommitFn).
Abbreviation Options := (@Options ITransport IStorage SyncInfo OnApplyFn OnCommitFn).

Lemma run_opt_fixed (opt : Opt) (o : Options) :
  let o' := run_opt newProxyTransport opt o in
  SyncLimit o' = SyncLimit o /\ CommitLimit o' = CommitLimit o
  /\ CheckInterval o' = CheckInterval o /\ ProposeTimeout o' = ProposeTimeout o
  /\ ShardNo o' = ShardNo o.
Proof. by destruct opt. Qed.

Lemma fold_fixed (opts : list Opt) (o : Options) :
  let o' := fold_left (fun o opt => run_opt newProxyTransport opt o) opts o in
  SyncLimit o' = SyncLimit o /\ CommitLimit o' = CommitLimit o
  /\ CheckInterval o' = CheckInterval o /\ ProposeTimeout o' = ProposeTimeout o
  /\ ShardNo o' = ShardNo o.
Proof.
  revert o. induction opts as [| opt opts IH]; intros o; [done |].
  cbn [fold_left]. cbv zeta.
  destruct (IH (run_opt newProxyTransport opt o)) as (H1 & H2 & H3 & H4 & H5).
  destruct (run_opt_fixed opt o) as (G1 & G2 & G3 & G4 & G5).
  cbv zeta in *. by rewrite H1, H2, H3, H4, H5, G1, G2, G3, G4, G5.
Qed.

Lemma fold_term (opts : list Opt) (o : Options) :
  CurrentTerm (fold_left (fun o opt => run_opt newProxyTransport opt o) opts o)
  = last_term opts (CurrentTerm o).
Proof.
  revert o. induction opts as [| opt opts IH]; intros o; [done |].
  cbn [fold_left]. rewrite IH. by destruct opt.
Qed.

(** X15: whatever options of the file are applied to NewOptions, and in
    whatever order, the result keeps SyncLimit = 20, CommitLimit = 20,
    CheckInterval = 500ms, ProposeTimeout = 5s and an empty ShardNo: no
    option sets them. CurrentTerm is 1 unless WithCurrentTerm is among
    the options, and then it is the term of the last one, the reserved
    term 0 included. *)
Theorem configure_keeps_limits (opts : list Opt) :
  let o := configure newProxyTransport opts in
  SyncLimit o = 20%N /\ CommitLimit o = 20%N
  /\ CheckInterval o = 500000000%Z /\ ProposeTimeout o = 5000000000%Z
  /\ ShardNo o = ""
  /\ CurrentTerm o = last_term opts 1
  /\ (forall before after : list Opt,
        CurrentTerm (configure newProxyTransport
                       (before ++ OptCurrentTerm 0 :: after))
        = last_term after 0).
Proof.
  cbv zeta. unfold configure.
  destruct (fold_fixed opts NewOptions) as (H1 & H2 & H3 & H4 & H5).
  cbv zeta in *. rewrite H1, H2, H3, H4, H5, fold_term.
  repeat split; try reflexivity.
  intros before after. rewrite fold_term.
  generalize (CurrentTerm (@NewOptions ITransport IStorage SyncInfo OnApplyFn OnCommitFn)).
  induction before as [| opt before IH]; intros t; [done |].
  destruct opt; cbn [app last_term]; apply IH.
Qed.

End Configure.

End ReplicaMoreFacts.

(* ===================================================================== *)
(** ** internal/server2/options.go *)
(* ===================================================================== *)

Module ServerOptionsFacts.
Import GoStr GoStrMore GoStrFacts SeedFacts ServerOptions.
Local Open Scope list_scope.

(** X16: the getters read a zero value as "not set": a key configured as
    0 or as the empty string gives the default, so no configuration can
    lower a non-zero default to zero. In particular the node id stays
    non-zero, and ClusterOn true, on options that had it so. *)
Theorem zero_is_not_configurable (vp : Viper) (key : string) :
  (forall d, d <> "" -> getString vp key d <> "")
  /\ (forall d, d <> 0%Z -> getInt vp key d <> 0%Z)
  /\ (forall d, d <> 0%N -> getUint64 vp key d <> 0%N)
  /\ (forall d, d <> 0%Z -> getInt64 vp key d <> 0%Z)
  /\ (forall d, d <> 0%Z -> getDuration vp key d <> 0%Z)
  /\ (forall o, ClusterOn o = true -> ClusterOn (configureNodeId vp o) = true)
  /\ ClusterOn (configureNodeId vp NewOptions) = true.
Proof.
  assert (Hu : forall k d, d <> 0%N -> getUint64 vp k d <> 0%N).
  { intros k d Hd. unfold getUint64.
    destruct (N.eqb_spec (GetUint64 vp k) 0); done. }
  repeat split.
  - intros d Hd. unfold getString.
    destruct (String.eqb_spec (GetString vp key) ""); done.
  - intros d Hd. unfold getInt. destruct (Z.eqb_spec (GetInt vp key) 0); done.
  - apply Hu.
  - intros d Hd. unfold getInt64. destruct (Z.eqb_spec (GetInt64 vp key) 0); done.
  - intros d Hd. unfold getDuration.
    destruct (Z.eqb_spec (GetDuration vp key) 0); done.
  - intros o Ho. unfold ClusterOn in *. cbn [Cluster_NodeId configureNodeId].
    apply negb_true_iff, N.eqb_neq in Ho. apply negb_true_iff, N.eqb_neq.
    by apply Hu.
  - unfold ClusterOn. cbn [Cluster_NodeId configureNodeId NewOptions].
    apply negb_true_iff, N.eqb_neq. by apply Hu.
Qed.

Lemma substring_all (s : string) : substring 0 (String.length s) s = s.
Proof. induction s as [| c s IH]; [done |]. cbn. by rewrite IH. Qed.

Lemma HasSuffix_app (s suffix : string) :
  HasSuffix s suffix = true -> exists p, s = (p ++ suffix)%string.
Proof.
  unfold HasSuffix. intros [Hlen Heq]%andb_prop.
  apply Nat.leb_le in Hlen. apply String.eqb_eq in Heq.
  revert Hlen Heq. generalize (String.length suffix). intros n.
  revert n. induction s as [| c s IH]; intros n Hlen Heq.
  - exists EmptyString. cbn in *. destruct n; [by cbn in Heq | lia].
  - cbn [String.length] in *.
    destruct (Nat.eq_dec n (S (String.length s))) as [-> | Hne].
    + rewrite Nat.sub_diag in Heq. cbn [substring] in Heq.
      rewrite substring_all in Heq. exists EmptyString. by rewrite <- Heq.
    + assert (Hle : n <= String.length s) by lia.
      replace (S (String.length s) - n) with (S (String.length s - n)) in Heq by lia.
      cbn [substring] in Heq.
      destruct (IH n Hle Heq) as [p ->]. by exists (String c p).
Qed.

(** X17: with the suffix "@tmp" of NewOptions, and with any configured
    suffix that holds an "@", a temporary channel is a fake channel as
    well; and since the suffix cannot be configured away, the empty
    channel id is never temporary. *)
Theorem tmp_channel_is_fake (vp : Viper) (o : Options) (channelID : string) :
  Contains (TmpChannel_Suffix o) "@" = true ->
  IsTmpChannel o channelID = true ->
  IsFakeChannel channelID = true
  /\ IsTmpChannel (configureTmpSuffix vp NewOptions) "" = false
  /\ (GetString vp "tmpChannel.suffix" = "" ->
      IsTmpChannel (configureTmpSuffix vp NewOptions) channelID = true ->
      IsFakeChannel channelID = true).
Proof.
  intros Hat Htmp.
  assert (Hfake : forall suffix c,
            Contains suffix "@" = true -> HasSuffix c suffix = true ->
            Contains c "@" = true).
  { intros suffix c Hs [p ->]%HasSuffix_app.
    rewrite Contains_char_app, Hs. apply orb_true_r. }
  split; [by apply (Hfake (TmpChannel_Suffix o)) |]. split.
  - unfold IsTmpChannel, HasSuffix. cbn [TmpChannel_Suffix configureTmpSuffix NewOptions].
    unfold getString.
    destruct (String.eqb_spec (GetString vp "tmpChannel.suffix") "") as [He | Hne];
      [done |].
    destruct (GetString vp "tmpChannel.suffix"); [done | reflexivity].
  - intros Hunset. unfold IsTmpChannel.
    cbn [TmpChannel_Suffix configureTmpSuffix NewOptions].
    unfold getString. rewrite Hunset. cbn [String.eqb].
    by apply Hfake.
Qed.

(** X18: GetCustomerServiceVisitorUID answers true exactly for the
    channel ids that hold a "|", and then returns what stands before the
    first "|", which holds none; otherwise it returns the empty
    string. *)
Theorem visitor_uid_is_the_first_part (channelID : string) :
  snd (GetCustomerServiceVisitorUID channelID) = Contains channelID "|"
  /\ (Contains channelID "|" = false ->
      GetCustomerServiceVisitorUID channelID = ("", false))
  /\ (Contains channelID "|" = true ->
      exists rest,
        channelID = (fst (GetCustomerServiceVisitorUID channelID) ++ "|" ++ rest)%string
        /\ Contains (fst (GetCustomerServiceVisitorUID channelID)) "|" = false).
Proof.
  unfold GetCustomerServiceVisitorUID.
  destruct (Contains channelID "|") eqn:Hc; cbn [negb fst snd].
  - split; [done |]. split; [done |]. intros _.
    destruct (Contains_split channelID "|" Hc) as (a & rest & -> & Ha).
    rewrite (Split_app a rest "|" Ha). cbn [hd]. by exists rest.
  - split; [done |]. split; [done |]. done.
Qed.

End ServerOptionsFacts.

Module ClusterNodesFacts.
Import GoStr GoStrMore GoStrFacts SeedFacts ServerOptions.
Local Open Scope list_scope.

Lemma Contains_char_true_app_r (c : ascii) (a b : string) :
  Contains b (String c EmptyString) = true ->
  Contains (a ++ b)%string (String c EmptyString) = true.
Proof. intros H. rewrite Contains_char_app, H. apply orb_true_r. Qed.

Lemma parse_node_without_port (defaultPort : string) (id : N) (host : string) :
  (id < 2 ^ 64)%N ->
  Contains host "@" = false -> Contains host ":" = false ->
  parse_node defaultPort (FormatUint id ++ "@" ++ host)%string
  = Some (mkNode id (host ++ ":" ++ defaultPort)%string).
Proof.
  intros Hid Hhost Hcolon. unfold parse_node.
  change (FormatUint id ++ "@" ++ host)%string
    with (FormatUint id ++ String "@" host)%string.
  rewrite Contains_char_app, (Contains_char_cons "@" "@"), orb_true_r.
  cbn [negb].
  rewrite (Split_app _ _ _ (FormatUint_no_at id)), (Split_without _ "@" Hhost).
  cbn [nth]. rewrite (ParseUint_FormatUint id Hid). by rewrite Hcolon.
Qed.

(** X19: an entry of cluster.nodes written <nodeId>@<host>:<port> is read
    as that node with that address, and one written <nodeId>@<host> gets
    the default port appended after a colon. *)
Theorem parse_node_reads_entry (defaultPort : string) (id : N)
  (host port : string) :
  (id < 2 ^ 64)%N ->
  Contains host "@" = false -> Contains host ":" = false ->
  Contains port "@" = false ->
  parse_node defaultPort (FormatUint id ++ "@" ++ host ++ ":" ++ port)%string
  = Some (mkNode id (host ++ ":" ++ port)%string)
  /\ parse_node defaultPort (FormatUint id ++ "@" ++ host)%string
     = Some (mkNode id (host ++ ":" ++ defaultPort)%string).
Proof.
  intros Hid Hhost Hcolon Hport. unfold parse_node. split.
  - assert (Haddr : Contains (host ++ ":" ++ port)%string "@" = false).
    { rewrite Contains_char_app, Hhost.
      change (":" ++ port)%string with (String ":" port).
      by rewrite Contains_char_cons, Hport. }
    change (FormatUint id ++ "@" ++ host ++ ":" ++ port)%string
      with (FormatUint id ++ String "@" (host ++ ":" ++ port))%string.
    rewrite Contains_char_app, (Contains_char_cons "@" "@"), orb_true_r.
    cbn [negb].
    rewrite (Split_app _ _ _ (FormatUint_no_at id)), (Split_without _ "@" Haddr).
    cbn [nth]. rewrite (ParseUint_FormatUint id Hid).
    assert (Hc : Contains (host ++ ":" ++ port)%string ":" = true).
    { apply Contains_char_true_app_r.
      change (":" ++ port)%string with (String ":" port).
      by rewrite Contains_char_cons. }
    by rewrite Hc.
  - by apply parse_node_without_port.
Qed.

Lemma parse_node_some (defaultPort nodeStr : string) (n : Node) :
  parse_node defaultPort nodeStr = Some n ->
  Contains nodeStr "@" = true
  /\ (Id n < 2 ^ 64)%N
  /\ Contains (ServerAddr n) ":" = true.
Proof.
  unfold parse_node. destruct (Contains nodeStr "@") eqn:Hat; cbn [negb]; [| done].
  destruct (ParseUint (nth 0 (Split nodeStr "@") "")) as [e | id] eqn:Hp; [done |].
  intros [= <-]. cbn [Id ServerAddr]. split; [done |].
  split; [by apply (parse_digits_bound_irrelevant _ _ Hp) |].
  destruct (Contains (nth 1 (Split nodeStr "@") "") ":") eqn:Hc; cbn [negb]; [done |].
  apply Contains_char_true_app_r.
  change (":" ++ defaultPort)%string with (String ":" defaultPort).
  by rewrite Contains_char_cons.
Qed.

(** X20: the loop over cluster.nodes only appends: the nodes already
    configured stay in front, an entry adds at most one node, an entry
    without "@" or without a decimal 64-bit id before it adds none, and
    every node added has an id below 2^64 and an address with a colon. *)
Theorem append_nodes_appends (defaultPort : string) (nodes : list string)
  (acc : list Node) :
  exists added,
    append_nodes defaultPort nodes acc = acc ++ added
    /\ added = omap (parse_node defaultPort) nodes
    /\ length added <= length nodes
    /\ Forall (fun n => (Id n < 2 ^ 64)%N /\ Contains (ServerAddr n) ":" = true) added
    /\ (Forall (fun e => Contains e "@" = false) nodes -> added = []).
Proof.
  exists (omap (parse_node defaultPort) nodes).
  split; [| split; [done |]].
  - revert acc. induction nodes as [| e nodes IH]; intros acc.
    + cbn. by rewrite app_nil_r.
    + cbn [append_nodes omap list_omap].
      destruct (parse_node defaultPort e) as [n |]; rewrite IH; [| done].
      by rewrite <- app_assoc.
  - split; [| split].
    + induction nodes as [| e nodes IH]; [done |].
      cbn [omap list_omap]. destruct (parse_node defaultPort e); cbn [length]; lia.
    + induction nodes as [| e nodes IH]; [by constructor |].
      cbn [omap list_omap]. destruct (parse_node defaultPort e) as [n |] eqn:Hn;
        [| done].
      constructor; [| done].
      by destruct (parse_node_some _ _ _ Hn) as (_ & ? & ?).
    + induction nodes as [| e nodes IH]; [done |].
      intros Hall. inversion Hall as [| ? ? He Hrest]; subst.
      cbn [omap list_omap]. unfold parse_node at 1. rewrite He. cbn [negb].
      by apply IH.
Qed.

Lemma Split_last (a p : string) (c : ascii) :
  Contains p (String c EmptyString) = false ->
  2 <= length (Split (a ++ String c p) c)
  /\ last_piece (Split (a ++ String c p) c) = p.
Proof.
  intros Hp. unfold last_piece. induction a as [| x a IH].
  - change ("" ++ String c p)%string with (String c p). cbn [Split].
    rewrite Ascii.eqb_refl, (Split_without _ _ Hp). by cbn.
  - destruct IH as [Hlen Hlast].
    change (String x a ++ String c p)%string with (String x (a ++ String c p)).
    cbn [Split].
    destruct (Split (a ++ String c p) c) as [| piece [| piece' pieces]] eqn:Hs;
      [cbn in Hlen; lia | cbn in Hlen; lia |].
    destruct (Ascii.eqb x c).
    + split; [cbn [length]; lia |]. by cbn [last] in *.
    + split; [cbn [length] in *; lia |]. by cbn [last] in *.
Qed.

(** X21: the default port of the cluster nodes is what follows the last
    colon of the cluster address, whatever stands before it ("tcp://"
    and a host, say); an address without a colon gives the empty default
    port, and a node entry without a port then gets an address that ends
    in a colon. *)
Theorem defaultPort_is_after_last_colon (addr : string) :
  (forall a p, addr = (a ++ ":" ++ p)%string -> Contains p ":" = false ->
     defaultPort_of addr = p)
  /\ (Contains addr ":" = false ->
      defaultPort_of addr = ""
      /\ forall id host,
           (id < 2 ^ 64)%N -> Contains host "@" = false ->
           Contains host ":" = false ->
           parse_node (defaultPort_of addr) (FormatUint id ++ "@" ++ host)%string
           = Some (mkNode id (host ++ ":")%string)).
Proof.
  split.
  - intros a p -> Hp. unfold defaultPort_of.
    change (a ++ ":" ++ p)%string with (a ++ String ":" p)%string.
    destruct (Split_last a p ":" Hp) as [Hlen ->].
    apply Nat.leb_le in Hlen. by rewrite Hlen.
  - intros Haddr.
    assert (Hd : defaultPort_of addr = "").
    { unfold defaultPort_of. by rewrite (Split_without _ _ Haddr). }
    split; [done |]. intros id host Hid Hat Hcolon. rewrite Hd.
    by apply parse_node_without_port.
Qed.

(** X22: the cluster part of ConfigureWithViper computes the default port
    before it reads cluster.addr. On the options of NewOptions a node
    entry without a port therefore gets port 11110, whatever cluster.addr
    is configured; the role must come out as proxy or replica, the node
    id cannot become 0, and one well-formed entry ends single-node
    mode. *)
Theorem configureCluster_uses_the_old_port (vp : Viper) (id : N) (host : string) :
  (id < 2 ^ 64)%N ->
  Contains host "@" = false -> Contains host ":" = false ->
  GetStringSlice vp "cluster.nodes" = [(FormatUint id ++ "@" ++ host)%string] ->
  GetString vp "cluster.role" = "" \/ GetString vp "cluster.role" = "proxy"
  \/ GetString vp "cluster.role" = "replica" ->
  exists o,
    configureCluster vp NewOptions = inr o
    /\ Cluster_Nodes o = [mkNode id (host ++ ":11110")%string]
    /\ Cluster_Addr o = getString vp "cluster.addr" "tcp://0.0.0.0:11110"
    /\ IsSingleNode o = false
    /\ ClusterOn o = true.
Proof.
  intros Hid Hat Hcolon Hnodes Hrole. unfold configureCluster.
  cbn [configureNodeId NewOptions Cluster_Addr Cluster_Role Cluster_Nodes
       Cluster_NodeId TmpChannel_Suffix].
  assert (Hr : (getString vp "cluster.role" RoleReplica =? RoleProxy)%string
               || (getString vp "cluster.role" RoleReplica =? RoleReplica)%string
               = true).
  { unfold getString. by destruct Hrole as [-> | [-> | ->]]. }
  rewrite Hr. cbn [negb]. eexists. split; [reflexivity |].
  cbn [Cluster_Nodes Cluster_Addr]. unfold getStringSlice. rewrite Hnodes.
  change (defaultPort_of "tcp://0.0.0.0:11110") with "11110".
  cbn [append_nodes].
  rewrite (parse_node_without_port "11110" id host Hid Hat Hcolon).
  cbn [app append_nodes]. split; [done |]. split; [done |]. split; [done |].
  unfold ClusterOn. cbn [Cluster_NodeId].
  apply negb_true_iff, N.eqb_neq. unfold getUint64.
  by destruct (N.eqb_spec (GetUint64 vp "cluster.nodeId") 0).
Qed.

(** X23: a role that is neither proxy nor replica stops the cluster part
    of ConfigureWithViper at wklog.Panic, with the role in the text; the
    empty role of options that were not built by NewOptions is such a
    role when the configuration sets none. *)
Theorem configureCluster_rejects_other_roles (vp : Viper) (o : Options) :
  let role := getString vp "cluster.role" (Cluster_Role o) in
  (role <> "proxy" -> role <> "replica" ->
   configureCluster vp o
   = inl ("cluster.role must be proxy or replica, but got " ++ role)%string)
  /\ (forall o', configureCluster vp o = inr o' ->
        Cluster_Role o' = role /\ (role = "proxy" \/ role = "replica"))
  /\ (Cluster_Role o = "" -> GetString vp "cluster.role" = "" ->
      configureCluster vp o
      = inl "cluster.role must be proxy or replica, but got ").
Proof.
  cbv zeta. unfold configureCluster.
  cbn [configureNodeId Cluster_Addr Cluster_Role Cluster_Nodes
       Cluster_NodeId TmpChannel_Suffix].
  split; [| split].
  - intros Hp Hr.
    destruct (String.eqb_spec (getString vp "cluster.role" (Cluster_Role o)) RoleProxy);
      [done |].
    by destruct (String.eqb_spec (getString vp "cluster.role" (Cluster_Role o)) RoleReplica).
  - intros o'.
    destruct (String.eqb_spec (getString vp "cluster.role" (Cluster_Role o)) RoleProxy)
      as [Hp | Hp];
    destruct (String.eqb_spec (getString vp "cluster.role" (Cluster_Role o)) RoleReplica)
      as [Hr | Hr]; cbn [orb negb]; try done;
    intros [= <-]; cbn [Cluster_Role]; split; try done; auto.
  - intros Hrole Hunset. unfold getString. by rewrite Hunset, Hrole.
Qed.

End ClusterNodesFacts.

(* ===================================================================== *)
(** ** The uid of a node *)
(* ===================================================================== *)

Module UidFacts.
Import GoStr GoStrFacts ClusterMore.

(** X24: serverUid is the node id in decimal: strconv.ParseUint reads
    the id back from it, so two 64-bit node ids with the same uid are the
    same node. *)
Theorem serverUid_round_trip (id : N) :
  (id < 2 ^ 64)%N ->
  ParseUint (serverUid id) = inr id
  /\ forall id', (id' < 2 ^ 64)%N -> serverUid id' = serverUid id -> id' = id.
Proof.
  intros Hid. unfold serverUid. split; [by apply ParseUint_FormatUint |].
  intros id' Hid' Heq.
  pose proof (ParseUint_FormatUint id' Hid') as H'.
  rewrite Heq, (ParseUint_FormatUint id Hid) in H'. by injection H'.
Qed.

End UidFacts.

(* ===================================================================== *)
(** ** The further theorems at work on node 4 *)
(* ===================================================================== *)

Module MoreWitnesses.
Import Cluster ClusterMore Sections Sequence Life Seeding Trace Scenario Wire Cases Fresh.
Import GoStr GoStrMore.
Local Open Scope list_scope.

Lemma seedNode_reads_seed_witness :
  (1 < 2 ^ 64)%N /\ Contains "h1:11110" "@" = false
  /\ seedNode "1@h1:11110" = inr (1%N, "h1:11110")
  /\ seedNode "1@h1:11110@h2:11110" = inr (1%N, "h1:11110").
Proof.
  split; [reflexivity |]. split; [reflexivity |].
  exact (SeedFacts.seedNode_reads_seed 1 "h1:11110" "h2:11110" eq_refl eq_refl).
Defined.

Lemma seedNode_result_witness :
  seedNode "1@h1:11110" = inr (1%N, "h1:11110")
  /\ (1 < 2 ^ 64)%N /\ Contains "h1:11110" "@" = false.
Proof.
  split; [reflexivity |].
  destruct (SeedFacts.seedNode_result "1@h1:11110" 1 "h1:11110" eq_refl)
    as (Hid & Haddr & _).
  split; [exact Hid | exact Haddr].
Defined.

Lemma needJoin_reads_the_seed_witness :
  TrimSpace (Seed opts_bad_seed) <> ""
  /\ Contains (Seed opts_bad_seed) "@" = false
  /\ needJoin Sample.env_ok opts_bad_seed
     = negb (clusterEventServer_Node Sample.env_ok 0)
  /\ TrimSpace (Seed Sample.opts4) <> ""
  /\ needJoin env_joined Sample.opts4
     = negb (clusterEventServer_Node env_joined 1).
Proof.
  assert (Hbad : TrimSpace (Seed opts_bad_seed) <> "").
  { vm_compute. discriminate. }
  assert (Hok : TrimSpace (Seed Sample.opts4) <> "").
  { vm_compute. discriminate. }
  split; [exact Hbad |]. split; [reflexivity |].
  split.
  - exact (proj1 (proj2 (SeedFacts.needJoin_reads_the_seed Sample.env_ok
                           opts_bad_seed Hbad)) eq_refl).
  - split; [exact Hok |].
    exact (proj1 (SeedFacts.needJoin_reads_the_seed env_joined Sample.opts4 Hok)
             1%N "h1:11110" eq_refl eq_refl eq_refl).
Defined.

Lemma send_then_onMessage_routes_witness :
  stopped Sample.server4 = false
  /\ NoDup [ShardTypeSlot env_peers; ShardTypeConfig env_peers;
            ShardTypeChannel env_peers]
  /\ nodeManager_node env_peers (reactor.To msg_to_1) = true
  /\ reactor_Marshal env_peers msg_to_1 = inr [1; 2; 3]%N
  /\ reactor_UnmarshalMessage env_peers [1; 2; 3]%N = inr msg_to_1
  /\ exists f,
       transmissions (new_calls (send env_peers (ShardTypeSlot env_peers) msg_to_1)
                        Sample.server4)
       = [(1%N, f)]
       /\ omap manager_of (new_calls (onMessage env_peers f) Sample.server4)
          = [(ClusterKindSlot, msg_to_1)].
Proof.
  assert (Hnd : NoDup [ShardTypeSlot env_peers; ShardTypeConfig env_peers;
                       ShardTypeChannel env_peers]).
  { apply (bool_decide_unpack _). vm_compute. reflexivity. }
  split; [reflexivity |]. split; [exact Hnd |].
  split; [reflexivity |]. split; [reflexivity |]. split; [reflexivity |].
  destruct (WireFacts.send_then_onMessage_routes env_peers msg_to_1 [1; 2; 3]%N
              Sample.server4 Sample.server4 eq_refl eq_refl Hnd eq_refl eq_refl
              eq_refl) as [Hslot _].
  exact Hslot.
Defined.

Lemma New_keeps_given_InitNodes_witness :
  map_len (InitNodes opts_bad_seed)
    (Server_literal (heap Sample.server4) opts_bad_seed) <> 0
  /\ seedNode (Seed opts_bad_seed) = inl (errors_New "seed format error")
  /\ exists s,
       New Sample.env_ok (heap Sample.server4) opts_bad_seed = Return tt s
       /\ heap s = heap Sample.server4.
Proof.
  assert (Hlen : map_len (InitNodes opts_bad_seed)
                   (Server_literal (heap Sample.server4) opts_bad_seed) <> 0).
  { vm_compute. discriminate. }
  split; [exact Hlen |]. split; [reflexivity |].
  destruct (NewMoreFacts.New_keeps_given_InitNodes Sample.env_ok
              (heap Sample.server4) opts_bad_seed Hlen eq_refl eq_refl eq_refl)
    as (s & Hs & Hheap & _).
  exists s. split; [exact Hs | exact Hheap].
Defined.

Lemma New_rejects_malformed_seed_witness :
  InitNodes opts_bad_seed = Some 1%positive
  /\ map_len (InitNodes opts_bad_seed) (Server_literal heap_empty opts_bad_seed) = 0
  /\ TrimSpace (Seed opts_bad_seed) <> ""
  /\ seedNode (Seed opts_bad_seed) = inl (errors_New "seed format error")
  /\ exists s,
       New Sample.env_ok heap_empty opts_bad_seed
       = Panicking (ErrorValue (errors_New "seed format error")) s
       /\ heap s = heap_empty.
Proof.
  assert (Hseed : TrimSpace (Seed opts_bad_seed) <> "").
  { vm_compute. discriminate. }
  assert (Hlen : map_len (InitNodes opts_bad_seed)
                   (Server_literal heap_empty opts_bad_seed) = 0).
  { vm_compute. reflexivity. }
  split; [reflexivity |]. split; [exact Hlen |]. split; [exact Hseed |].
  split; [reflexivity |].
  exact (NewMoreFacts.New_rejects_malformed_seed Sample.env_ok heap_empty
           opts_bad_seed 1%positive (errors_New "seed format error")
           eq_refl Hlen eq_refl Hseed eq_refl).
Defined.

Lemma isSingleNode_false_after_New_witness :
  exists s,
    New Sample.env_ok heap_empty Sample.opts4 = Return tt s
    /\ isSingleNode s = false.
Proof.
  destruct (New Sample.env_ok heap_empty Sample.opts4) as [[] s | v s] eqn:Hnew.
  - exists s. split; [reflexivity |].
    exact (NewMoreFacts.isSingleNode_false_after_New Sample.env_ok heap_empty
             Sample.opts4 s Hnew).
  - exfalso. vm_compute in Hnew. discriminate Hnew.
Defined.

Lemma overlapping_calls_load_twice_witness :
  channelManager_getWithHandleKey Sample.env_ok (reactor.HandlerKey Sample.msg42)
  = false
  /\ (reactor.HandlerKey Sample.msg42 ∉ channelLoadMap server4_pool10)
  /\ (pool_running (channelLoadPool server4_pool10) + 2
      <= pool_cap (channelLoadPool server4_pool10))%Z
  /\ loads_sound server4_pool10
  /\ loadTasks
       (run_ops Sample.env_ok
          [OpAddChannelMessage Sample.msg42; OpAddChannelMessage Sample.msg42]
          server4_pool10)
     = [Sample.msg42]
  /\ exists s',
       overlapped Sample.env_ok Sample.msg42 Sample.msg42 server4_pool10
       = Return tt s'
       /\ loadTasks s' = [Sample.msg42; Sample.msg42]
       /\ ~ loads_sound s'.
Proof.
  assert (Hnot : reactor.HandlerKey Sample.msg42 ∉ channelLoadMap server4_pool10).
  { apply not_elem_of_empty. }
  assert (Hroom : (pool_running (channelLoadPool server4_pool10) + 2
                   <= pool_cap (channelLoadPool server4_pool10))%Z).
  { vm_compute. discriminate. }
  assert (Hinit : loads_sound server4_pool10).
  { split; [constructor |]. intros m Hm. inversion Hm. }
  split; [reflexivity |]. split; [exact Hnot |]. split; [exact Hroom |].
  split; [exact Hinit |].
  destruct (LoadFacts.overlapping_calls_load_twice Sample.env_ok Sample.msg42
              server4_pool10 eq_refl Hnot (or_intror Hroom) Hinit)
    as (_ & _ & Hserial & s' & Hs' & Htasks & _ & Hbad).
  split; [exact Hserial |].
  exists s'. split; [exact Hs' |]. split; [exact Htasks | exact Hbad].
Defined.

Lemma first_message_loads_channel_witness :
  channelManager_getWithHandleKey Sample.env_ok (reactor.HandlerKey Sample.msg42)
  = false
  /\ (reactor.HandlerKey Sample.msg42 ∉ channelLoadMap Sample.server4)
  /\ pool_full (channelLoadPool Sample.server4) = false
  /\ loadTasks Sample.server4 = []
  /\ fst (ChannelFromlKey Sample.env_ok (reactor.HandlerKey Sample.msg42)) <> ""
  /\ loadTasks (run_op Sample.env_ok (OpAddChannelMessage Sample.msg42)
                  Sample.server4)
     = [Sample.msg42]
  /\ (LoadOrCreateChannel "room-42" 1
      ∈ calls (run_op Sample.env_ok OpLoadPoolRun
                 (run_op Sample.env_ok (OpAddChannelMessage Sample.msg42)
                    Sample.server4))).
Proof.
  assert (Hnot : reactor.HandlerKey Sample.msg42 ∉ channelLoadMap Sample.server4).
  { apply not_elem_of_empty. }
  assert (Hkey : fst (ChannelFromlKey Sample.env_ok
                        (reactor.HandlerKey Sample.msg42)) <> "").
  { discriminate. }
  split; [reflexivity |]. split; [exact Hnot |]. split; [reflexivity |].
  split; [reflexivity |]. split; [exact Hkey |].
  destruct (LoadFacts.first_message_loads_channel Sample.env_ok Sample.msg42
              Sample.server4 eq_refl Hnot eq_refl eq_refl Hkey)
    as (_ & Htasks & _ & _ & Hload & _).
  split; [exact Htasks | exact Hload].
Defined.

Lemma Start_adds_local_slots_witness :
  slotStorage_Open Sample.env_ok = None
  /\ (SlotManager_add (mkSlot 0 [1; 4]%N)
      ∈ new_calls (Start Sample.env_ok) Sample.server4)
  /\ (SlotManager_add (mkSlot 1 [1; 2]%N)
      ∉ new_calls (Start Sample.env_ok) Sample.server4).
Proof.
  split; [reflexivity |].
  split.
  - apply (proj1 (StartFacts.Start_adds_local_slots Sample.env_ok Sample.server4
                    (mkSlot 0 [1; 4]%N) eq_refl)).
    split; [apply list_elem_of_here |].
    apply list_elem_of_further, list_elem_of_here.
  - intros Hin.
    apply (proj1 (StartFacts.Start_adds_local_slots Sample.env_ok Sample.server4
                    (mkSlot 1 [1; 2]%N) eq_refl)) in Hin.
    destruct Hin as [_ Hin]. cbn in Hin.
    apply elem_of_cons in Hin as [Hin | Hin]; [discriminate Hin |].
    apply list_elem_of_singleton in Hin. discriminate Hin.
Defined.

Lemma tmp_channel_is_fake_witness :
  Contains (ServerOptions.TmpChannel_Suffix ServerOptions.NewOptions) "@" = true
  /\ ServerOptions.IsTmpChannel ServerOptions.NewOptions "room-42@tmp" = true
  /\ ServerOptions.IsFakeChannel "room-42@tmp" = true.
Proof.
  split; [reflexivity |]. split; [reflexivity |].
  exact (proj1 (ServerOptionsFacts.tmp_channel_is_fake vp_unset
                  ServerOptions.NewOptions "room-42@tmp" eq_refl eq_refl)).
Defined.

Lemma parse_node_reads_entry_witness :
  (2 < 2 ^ 64)%N /\ Contains "h2" "@" = false /\ Contains "h2" ":" = false
  /\ Contains "11112" "@" = false
  /\ ServerOptions.parse_node "11110" "2@h2:11112"
     = Some (ServerOptions.mkNode 2 "h2:11112")
  /\ ServerOptions.parse_node "11110" "2@h2"
     = Some (ServerOptions.mkNode 2 "h2:11110").
Proof.
  split; [reflexivity |]. split; [reflexivity |]. split; [reflexivity |].
  split; [reflexivity |].
  exact (ClusterNodesFacts.parse_node_reads_entry "11110" 2 "h2" "11112"
           eq_refl eq_refl eq_refl eq_refl).
Defined.

Lemma configureCluster_uses_the_old_port_witness :
  ServerOptions.GetStringSlice vp_node4 "cluster.nodes" = ["2@h2"]
  /\ ServerOptions.GetString vp_node4 "cluster.addr" = "tcp://0.0.0.0:22220"
  /\ ServerOptions.GetString vp_node4 "cluster.role" = ""
  /\ exists o,
       ServerOptions.configureCluster vp_node4 ServerOptions.NewOptions = inr o
       /\ ServerOptions.Cluster_Nodes o = [ServerOptions.mkNode 2 "h2:11110"]
       /\ ServerOptions.Cluster_Addr o = "tcp://0.0.0.0:22220".
Proof.
  split; [reflexivity |]. split; [reflexivity |]. split; [reflexivity |].
  destruct (ClusterNodesFacts.configureCluster_uses_the_old_port vp_node4 2 "h2"
              eq_refl eq_refl eq_refl eq_refl (or_introl eq_refl))
    as (o & Ho & Hnodes & Haddr & _).
  exists o. split; [exact Ho |]. split; [exact Hnodes | exact Haddr].
Defined.

Lemma serverUid_round_trip_witness :
  (4 < 2 ^ 64)%N /\ ParseUint (serverUid 4) = inr 4%N.
Proof.
  split; [reflexivity |].
  exact (proj1 (UidFacts.serverUid_round_trip 4 eq_refl)).
Defined.

End MoreWitnesses.

(* ===================================================================== *)
(** ** Start against its plan, the configuration and the options *)
(* ===================================================================== *)

Module PlanFacts.
Import Cluster Sequence Life Trace Emits StartStop WireFacts StartFacts.
Import GoStr GoStrMore GoStrFacts SeedFacts.
Local Open Scope list_scope.

(** The nodes the seeding step reads, against the configuration and the
    map the options point to. *)
Lemma seed_source_lookup (E : Env) (s : Server) (id : N) (addr : string) :
  (id, addr) ∈ seed_source E s
  <-> match clusterEventServer_Nodes E with
      | [] => exists r m, InitNodes (opts s) = Some r
                          /\ heap s !! r = Some m /\ m !! id = Some addr
      | nodes => mkNodeInfo id addr ∈ nodes
      end.
Proof.
  unfold seed_source, map_range.
  destruct (clusterEventServer_Nodes E) as [| n nodes].
  - destruct (InitNodes (opts s)) as [r |].
    + destruct (heap s !! r) as [m |] eqn:Hm; cbn [default].
      * rewrite elem_of_map_to_list. split.
        -- intros Hid. by exists r, m.
        -- intros (r' & m' & [= <-] & Hm' & Hid). rewrite Hm in Hm'.
           by injection Hm' as <-.
      * rewrite map_to_list_empty, elem_of_nil. split; [done |].
        intros (r' & m' & [= <-] & Hm' & _). by rewrite Hm in Hm'.
    + rewrite elem_of_nil. split; [done |]. by intros (r' & m' & ? & _).
  - generalize (n :: nodes). intros l.
    rewrite list_elem_of_In, in_map_iff. split.
    + intros ([i a] & [= <- <-] & Hin). by apply list_elem_of_In.
    + intros Hin. exists (mkNodeInfo id addr). split; [done |].
      by apply list_elem_of_In.
Qed.

Lemma NewNode_start_seed_calls (E : Env) (s : Server) (id : N) (addr : string) :
  NewNode_start id (FormatUint (NodeId (opts s))) addr ∈ seed_calls E s
  <-> id <> NodeId (opts s) /\ (id, addr) ∈ seed_source E s.
Proof.
  unfold seed_calls. rewrite list_elem_of_In, in_flat_map. split.
  - intros ([i a] & Hkv & Hc).
    apply list_elem_of_In, list_elem_of_filter in Hkv as [Hne Hkv].
    apply list_elem_of_In in Hc. cbn [fst snd] in *.
    apply elem_of_cons in Hc as [Hc | Hc].
    + by injection Hc as <- <-.
    + by apply list_elem_of_singleton in Hc.
  - intros [Hne Hin]. exists (id, addr). split.
    + apply list_elem_of_In, list_elem_of_filter. by split.
    + by left.
Qed.

Lemma seed_calls_in_Start (E : Env) (s : Server) (c : Call) :
  slotStorage_Open E = None -> c ∈ seed_calls E s -> c ∈ new_calls (Start E) s.
Proof.
  intros Hopen Hc. rewrite Start_new_calls. unfold Start_plan.
  cbn [run_plan step_result step_calls fst snd]. rewrite Hopen.
  cbn [fst snd]. rewrite !elem_of_app. right. right. by left.
Qed.

(** Start returns no error exactly when each of its six fallible steps
    returns none. *)
Lemma plan_succeeds (E : Env) (s : Server) :
  snd (run_plan (Start_plan E s)) = None
  <-> slotStorage_Open E = None /\ channelElectionManager_start E = None
      /\ clusterEventServer_Start E = None /\ netServer_Start E = None
      /\ slotManager_start E = None /\ channelManager_start E = None.
Proof.
  unfold Start_plan. cbn [run_plan step_result step_calls fst snd].
  destruct (slotStorage_Open E); cbn [snd]; [split; [done | by intros [? _]] |].
  destruct (channelElectionManager_start E); cbn [snd];
    [split; [done | by intros (_ & ? & _)] |].
  destruct (clusterEventServer_Start E); cbn [snd];
    [split; [done | by intros (_ & _ & ? & _)] |].
  destruct (netServer_Start E); cbn [snd];
    [split; [done | by intros (_ & _ & _ & ? & _)] |].
  destruct (slotManager_start E); cbn [snd];
    [split; [done | by intros (_ & _ & _ & _ & ? & _)] |].
  destruct (channelManager_start E); cbn [snd];
    [split; [done | by intros (_ & _ & _ & _ & _ & ?)] |].
  done.
Qed.

Lemma not_a_seed_call (E : Env) (s : Server) :
  Stopper_RunWorker_joinLoop ∉ seed_calls E s.
Proof. by intros (id & a & _ & [Hc | Hc])%elem_of_seed_calls. Qed.

Lemma not_a_slot_call (E : Env) (s : Server) :
  Stopper_RunWorker_joinLoop ∉ slot_calls E s.
Proof. by intros (st & _ & _ & [Hc | Hc])%elem_of_slot_calls. Qed.

Ltac not_launched Hc :=
  exfalso;
  repeat first
    [ apply elem_of_nil in Hc; destruct Hc
    | apply not_a_seed_call in Hc; destruct Hc
    | apply not_a_slot_call in Hc; destruct Hc
    | apply elem_of_app in Hc as [Hc | Hc]
    | apply elem_of_cons in Hc as [Hc | Hc]; [discriminate Hc |] ].

(** The join loop is launched exactly when no step fails and the last
    step finds that a join is needed. *)
Lemma joinLoop_launched (E : Env) (s : Server) :
  Stopper_RunWorker_joinLoop ∈ new_calls (Start E) s
  <-> snd (run_plan (Start_plan E s)) = None /\ join_needed E s = true.
Proof.
  rewrite Start_new_calls. split.
  - intros Hc. split.
    + revert Hc. unfold Start_plan.
      cbn [run_plan step_result step_calls fst snd].
      destruct (slotStorage_Open E); cbn [fst snd];
        [intros Hc; not_launched Hc |].
      destruct (channelElectionManager_start E); cbn [fst snd];
        [intros Hc; not_launched Hc |].
      destruct (clusterEventServer_Start E); cbn [fst snd];
        [intros Hc; not_launched Hc |].
      destruct (netServer_Start E); cbn [fst snd];
        [intros Hc; not_launched Hc |].
      destruct (slotManager_start E); cbn [fst snd];
        [intros Hc; not_launched Hc |].
      destruct (channelManager_start E); cbn [fst snd];
        [intros Hc; not_launched Hc |].
      done.
    + apply run_plan_incl in Hc as (st & Hst & Hc). unfold Start_plan in Hst.
      repeat (apply elem_of_cons in Hst as [-> | Hst]); cbn [step_calls] in Hc;
        try (by apply elem_of_nil in Hst);
        try (by apply not_a_seed_call in Hc);
        try (by apply not_a_slot_call in Hc);
        try (exfalso; revert Hc; clear; intros Hc;
             repeat (apply elem_of_cons in Hc as [Hc | Hc]; [discriminate Hc |]);
             by apply elem_of_nil in Hc).
      destruct (join_needed E s); [done | by apply elem_of_nil in Hc].
  - intros [Hok Hjoin]. apply plan_succeeds in Hok as (H1 & H2 & H3 & H4 & H5 & H6).
    unfold Start_plan. cbn [run_plan step_result step_calls fst snd].
    rewrite H1, H2, H3, H4, H5, H6, Hjoin. cbn [fst snd].
    rewrite !elem_of_app, !elem_of_cons. tauto.
Qed.

(** A join is needed, for a Seed written <nodeId>@<addr>, exactly when
    the cluster configuration does not hold that node. *)
Lemma join_needed_well_formed (E : Env) (s : Server) (id : N) (addr : string) :
  (id < 2 ^ 64)%N -> Contains addr "@" = false ->
  Seed (opts s) = (FormatUint id ++ "@" ++ addr)%string ->
  join_needed E s = negb (clusterEventServer_Node E id).
Proof.
  intros Hid Haddr Hseed. unfold join_needed, seedNodeId_of.
  rewrite Hseed, (seedNode_well_formed id addr Hid Haddr).
  pose proof (TrimSpace_FormatUint id ("@" ++ addr) Hid) as Hne.
  apply String.eqb_neq in Hne. by rewrite Hne.
Qed.

(** C4: Start runs the steps of [Start_plan] in their order (open
    LogStorage; key-lock clean loop; seed the NodeManager; add the slots
    that replicate on this node; ChannelElectionManager;
    ClusterEventServer; routes and net server; SlotManager;
    ChannelManager; the join loop), a step that returns an error being
    the last to run and its error what Start returns. The seeding step
    starts and adds the nodes, this one apart, of the cluster
    configuration, or, when the configuration has none, of the InitNodes
    map. The join loop is launched only when every step has succeeded;
    with a Seed written <nodeId>@<addr> it is launched exactly when,
    besides, the configuration does not hold the node of that id, and
    with an empty Seed it never is. *)
Theorem Start_follows_plan (E : Env) (s : Server) :
  Start E s
  = Return (snd (run_plan (Start_plan E s)))
      (set_calls (calls s ++ fst (run_plan (Start_plan E s))) s)
  /\ (slotStorage_Open E = None ->
      forall id addr,
        NewNode_start id (FormatUint (NodeId (opts s))) addr
        ∈ new_calls (Start E) s
        <-> id <> NodeId (opts s)
            /\ match clusterEventServer_Nodes E with
               | [] => exists r m, InitNodes (opts s) = Some r
                                   /\ heap s !! r = Some m /\ m !! id = Some addr
               | nodes => mkNodeInfo id addr ∈ nodes
               end)
  /\ (forall id addr,
        (id < 2 ^ 64)%N -> Contains addr "@" = false ->
        Seed (opts s) = (FormatUint id ++ "@" ++ addr)%string ->
        Stopper_RunWorker_joinLoop ∈ new_calls (Start E) s
        <-> (slotStorage_Open E = None /\ channelElectionManager_start E = None
             /\ clusterEventServer_Start E = None /\ netServer_Start E = None
             /\ slotManager_start E = None /\ channelManager_start E = None)
            /\ clusterEventServer_Node E id = false)
  /\ (Seed (opts s) = "" ->
      Stopper_RunWorker_joinLoop ∉ new_calls (Start E) s).
Proof.
  split; [apply emits_run, Start_emits |]. split; [| split].
  - intros Hopen id addr. rewrite <- seed_source_lookup, <- NewNode_start_seed_calls.
    split; [| by apply seed_calls_in_Start].
    intros Hc. apply Start_call_cases in Hc as [Hc | [Hc | Hc]]; [| done |].
    + repeat (apply elem_of_cons in Hc as [Hc | Hc]; [discriminate Hc |]).
      by apply elem_of_nil in Hc.
    + by apply elem_of_slot_calls in Hc as (st & _ & _ & [Hc | Hc]).
  - intros id addr Hid Haddr Hseed.
    rewrite joinLoop_launched, plan_succeeds,
      (join_needed_well_formed E s id addr Hid Haddr Hseed).
    by rewrite negb_true_iff.
  - intros Hseed. rewrite joinLoop_launched. intros [_ Hjoin].
    unfold join_needed in Hjoin. by rewrite Hseed in Hjoin.
Qed.

End PlanFacts.

(* ===================================================================== *)
(** ** Start on node 4 *)
(* ===================================================================== *)

Module PlanAtNode4.
Import Cluster Sequence Life Fresh.
Local Open Scope list_scope.

Lemma Start_follows_plan_witness :
  Start env_fresh Sample.server4
  = Return None
      (set_calls
         [Uptime_Set; SlotStorage_Open; ChannelKeyLock_StartCleanLoop;
          NewNode_start 1 "4" "h1:11110"; NodeManager_addNode 1;
          SlotManager_add (mkSlot 0 [1; 4]%N); Slot_update (mkSlot 0 [1; 4]%N);
          ChannelElectionManager_start; ClusterEventServer_Start; SetRoutes;
          NetServer_OnMessage; NetServer_Start; SlotManager_start;
          ChannelManager_start; ClusterEventServer_SetIsPrepared false;
          Stopper_RunWorker_joinLoop]
         Sample.server4)
  /\ Start env_joined Sample.server4
     = Return None
         (set_calls
            [Uptime_Set; SlotStorage_Open; ChannelKeyLock_StartCleanLoop;
             NewNode_start 1 "4" "h1:11110"; NodeManager_addNode 1;
             SlotManager_add (mkSlot 0 [1; 4]%N); Slot_update (mkSlot 0 [1; 4]%N);
             ChannelElectionManager_start; ClusterEventServer_Start; SetRoutes;
             NetServer_OnMessage; NetServer_Start; SlotManager_start;
             ChannelManager_start]
            Sample.server4)
  /\ Start env_net_down Sample.server4
     = Return (Some net_error)
         (set_calls
            [Uptime_Set; SlotStorage_Open; ChannelKeyLock_StartCleanLoop;
             NewNode_start 1 "4" "h1:11110"; NodeManager_addNode 1;
             SlotManager_add (mkSlot 0 [1; 4]%N); Slot_update (mkSlot 0 [1; 4]%N);
             ChannelElectionManager_start; ClusterEventServer_Start; SetRoutes;
             NetServer_OnMessage; NetServer_Start]
            Sample.server4).
Proof.
  split; [| split].
  - etransitivity;
      [exact (proj1 (PlanFacts.Start_follows_plan env_fresh Sample.server4)) |].
    vm_compute. reflexivity.
  - etransitivity;
      [exact (proj1 (PlanFacts.Start_follows_plan env_joined Sample.server4)) |].
    vm_compute. reflexivity.
  - etransitivity;
      [exact (proj1 (PlanFacts.Start_follows_plan env_net_down Sample.server4)) |].
    vm_compute. reflexivity.
Defined.

End PlanAtNode4.
